(** * RFID access-control edge device: a shallow embedding

    The two scripts of the repository, [rfid_module.py] (reader and
    server-triggered enroller) and [rfid_module_enroll.py] (auto-capture
    enroller), are embedded as computations in a state-and-exception monad.

    - Wall-clock time ([time.time()], [time.sleep]) is a virtual clock counted
      in whole milliseconds: [time.sleep(0.1)] is [sleep 100].
    - Everything the program does to the outside (GPIO, I2C, HTTP, printing)
      is appended to a trace of events.
    - Everything the outside decides (whether a bring-up attempt works, what a
      poll of the reader yields and how long it takes, what the remote service
      answers and after how long) comes from a [world] of oracles, consumed in
      order.
    - The operator's interrupt ([KeyboardInterrupt]) is delivered where an
      oracle is consulted, in a poll of the reader or in a remote call; a
      sleep is never cut short.  What is stated about an interrupt is stated
      for these two places.
    - [while True] loops take a bound on the number of cycles that are
      observed; a loop that is still going when the bound is reached ends in
      the outcome [Running]. *)

From Stdlib Require Import ZArith List String Ascii Bool Lia.
From Stdlib.Strings Require Import Byte.
Import ListNotations.
Open Scope string_scope.
Open Scope list_scope.
Open Scope Z_scope.
Set Warnings "-register-all".

(** ** Python exceptions *)

(** The exception classes the scripts distinguish.  [KeyboardInterrupt] is a
    [BaseException] that is not an [Exception]; [RequestException] stands for
    [requests.RequestException] and its subclasses (connection errors,
    timeouts); [OtherException] is any other subclass of [Exception]. *)
Inductive exn_class :=
| KeyboardInterrupt
| RuntimeError
| AttributeError
| RequestException
| OtherException.

Record exn := mkExn { cls : exn_class; str : string }.

Definition is_Exception (e : exn) : bool :=
  match cls e with KeyboardInterrupt => false | _ => true end.

Definition is_KeyboardInterrupt (e : exn) : bool :=
  match cls e with KeyboardInterrupt => true | _ => false end.

Definition is_RequestException (e : exn) : bool :=
  match cls e with RequestException => true | _ => false end.

(** ** JSON values, as [response.json()] and [jsonify] see them *)

Inductive json :=
| JNull
| JBool (b : bool)
| JNum (n : Z)
| JStr (s : string)
| JArr (l : list json)
| JObj (kv : list (string * json)).

(** Python truthiness of a decoded JSON value. *)
Definition truthy (j : json) : bool :=
  match j with
  | JNull => false
  | JBool b => b
  | JNum n => negb (n =? 0)
  | JStr s => negb (String.eqb s "")
  | JArr l => match l with [] => false | _ => true end
  | JObj kv => match kv with [] => false | _ => true end
  end.

(** [dict.get(key)]: the decoder keeps the last binding of a repeated key. *)
Fixpoint dict_get (key : string) (kv : list (string * json)) : option json :=
  match kv with
  | [] => None
  | (k, v) :: rest =>
      match dict_get key rest with
      | Some v' => Some v'
      | None => if String.eqb k key then Some v else None
      end
  end.

(** ** Events and oracles *)

(** The two outcomes the indicator can signal. *)
Inductive indicator_outcome := Success | Failure.

Inductive init_step := AtI2C | AtCreate | AtSam | AtFirmware.

Inductive log_msg :=
| LogFirmware (version : Z)
| LogInitFailed (attempt : Z) (why : string)
| LogReadError (why : string)
| LogVerifyStart
| LogWelcome (card : string)
| LogUnauthorized (card : string)
| LogServerDown (why : string)
| LogVerifyStopped
| LogVerifyError (why : string)
| LogServerStarted (port : Z)
| LogEnrollStart
| LogCardRead (card : string)
| LogResponse (status : Z)
| LogEnrolled (card : string)
| LogProgramStopped
| LogProgramError (why : string)
| LogError (why : string).

(** [Enter o] and [Leave o] mark the call of and the return from
    [indicate_success] ([o = Success]) and [indicate_failure] ([o = Failure]);
    they are bookkeeping and drive no pin. *)
Inductive event :=
| GpioSetmode
| GpioSetwarnings (flag : bool)
| GpioSetup (pin : Z)
| GpioOutput (pin : Z) (level : bool)
| GpioCleanup
| Sleep (ms : Z)
| Bringup (step : init_step)
| ReadPassiveTarget (timeout_ms : Z)
| HttpGet (url : string) (timeout_ms : Z)
| HttpPost (url : string) (payload : option json) (timeout_ms : option Z)
| FlaskStart (port : Z) (daemon : bool)
| Print (m : log_msg)
| Enter (o : indicator_outcome)
| Leave (o : indicator_outcome).

(** One bring-up attempt either works or raises at one of its four steps. *)
Inductive attempt_outcome :=
| AttemptOk (version : Z)
| AttemptRaises (step : init_step) (e : exn).

(** One call of [read_passive_target]: how long it took and what it gave. *)
Inductive poll_outcome :=
| PollNone (d : positive)
| PollUid (d : positive) (uid : list byte)
| PollRaises (d : positive) (e : exn).

(** What [response.json()] does. *)
Inductive body :=
| BodyJson (j : json)
| BodyRaises (e : exn).

Inductive http_outcome :=
| HttpResponse (status : Z) (b : body)
| HttpRaises (e : exn).

(** [latency i] is the time the [i]-th remote call takes, in milliseconds,
    whether it returns or raises. *)
Record world := mkWorld {
  bring_up : nat -> attempt_outcome;
  poll : nat -> poll_outcome;
  http : nat -> http_outcome;
  latency : nat -> N
}.

(** ** Machine state *)

Record pins := mkPins { green_led : Z; red_led : Z; buzzer : Z }.

Record state := mkState {
  now : Z;                   (* time.time(), in ms *)
  trace : list event;        (* oldest first *)
  n_attempt : nat;           (* bring-up attempts made so far *)
  n_poll : nat;              (* polls of the reader made so far *)
  n_http : nat;              (* remote calls made so far *)
  self_hw : option pins;     (* the handler's attribute hw *)
  self_pn532 : bool          (* whether the handler has attribute pn532 *)
}.

Definition boot : state := mkState 0 [] 0 0 0 None false.

(** ** The monad *)

Inductive outcome (A : Type) :=
| Done (a : A)
| Raised (e : exn)
| Running.
Arguments Done {A} a.
Arguments Raised {A} e.
Arguments Running {A}.

Definition M (A : Type) := state -> outcome A * state.

Definition ret {A} (a : A) : M A := fun s => (Done a, s).

Definition bind {A B} (c : M A) (k : A -> M B) : M B :=
  fun s =>
    match c s with
    | (Done a, s') => k a s'
    | (Raised e, s') => (Raised e, s')
    | (Running, s') => (Running, s')
    end.

Notation "x <- c ;; k" := (bind c (fun x => k))
  (at level 61, c at next level, right associativity).
Notation "c ;; k" := (bind c (fun _ => k))
  (at level 61, right associativity).

Definition raise {A} (e : exn) : M A := fun s => (Raised e, s).

Definition still_running {A} : M A := fun s => (Running, s).

(** [try: c  except E1 as e: h1 e  except E2 as e: h2 e ...]: the first
    clause whose class matches handles the exception. *)
Definition clause (A : Type) : Type := ((exn -> bool) * (exn -> M A))%type.

Fixpoint dispatch {A} (clauses : list (clause A)) (e : exn) : M A :=
  match clauses with
  | [] => raise e
  | (matches, h) :: rest => if matches e then h e else dispatch rest e
  end.

Definition try_except {A} (c : M A) (clauses : list (clause A)) : M A :=
  fun s =>
    match c s with
    | (Raised e, s') => dispatch clauses e s'
    | r => r
    end.

(** [try: c  finally: f]; the clause does not run while [c] is still going. *)
Definition try_finally {A} (c : M A) (f : M unit) : M A :=
  fun s =>
    match c s with
    | (Running, s') => (Running, s')
    | (r, s') =>
        match f s' with
        | (Done _, s'') => (r, s'')
        | (Raised e, s'') => (Raised e, s'')
        | (Running, s'') => (Running, s'')
        end
    end.

Definition emit (e : event) : M unit :=
  fun s => (Done tt,
            mkState (now s) (trace s ++ [e]) (n_attempt s) (n_poll s) (n_http s)
                    (self_hw s) (self_pn532 s)).

Definition elapse (ms : Z) : M unit :=
  fun s => (Done tt,
            mkState (now s + ms) (trace s) (n_attempt s) (n_poll s) (n_http s)
                    (self_hw s) (self_pn532 s)).

Definition print (m : log_msg) : M unit := emit (Print m).

(** [time.sleep(secs)] refuses a negative length with a [ValueError]. *)
Definition negative_sleep : exn :=
  mkExn OtherException "sleep length must be non-negative".

Definition time_sleep (ms : Z) : M unit :=
  if ms <? 0 then raise negative_sleep else emit (Sleep ms) ;; elapse ms.

Definition time_time : M Z := fun s => (Done (now s), s).

(** [for i in range(n): body i] *)
Fixpoint for_range (n : nat) (i : Z) (body : Z -> M unit) : M unit :=
  match n with
  | O => ret tt
  | S n' => body i ;; for_range n' (i + 1) body
  end.

(** ** HardwareController (the parts both scripts share) *)

Module Gpio.
Definition HIGH := true.
Definition LOW := false.
Definition output (pin : Z) (level : bool) : M unit := emit (GpioOutput pin level).
Definition setup (pin : Z) : M unit := emit (GpioSetup pin).
Definition cleanup : M unit := emit GpioCleanup.
End Gpio.

Definition _blink_led (led_pin : Z) (duration : Z) : M unit :=
  Gpio.output led_pin Gpio.HIGH ;;
  time_sleep duration ;;
  Gpio.output led_pin Gpio.LOW.

Definition _beep (p : pins) (duration : Z) : M unit :=
  Gpio.output (buzzer p) Gpio.HIGH ;;
  time_sleep duration ;;
  Gpio.output (buzzer p) Gpio.LOW.

Definition start_enrollment_indicator (p : pins) : M unit :=
  _blink_led (green_led p) 500.

Definition hw_cleanup : M unit := Gpio.cleanup.

(** [HardwareController.__init__]: the pins dictionary keeps insertion order. *)
Definition HardwareController (p : pins) : M pins :=
  emit GpioSetmode ;;
  emit (GpioSetwarnings false) ;;
  Gpio.setup (green_led p) ;; Gpio.output (green_led p) Gpio.LOW ;;
  Gpio.setup (red_led p) ;; Gpio.output (red_led p) Gpio.LOW ;;
  Gpio.setup (buzzer p) ;; Gpio.output (buzzer p) Gpio.LOW ;;
  ret p.

(** The indicator of [rfid_module.py]. *)
Module RfidModuleHw.
Definition default_pins : pins := mkPins 15 14 10.

Definition indicate_success (p : pins) : M unit :=
  emit (Enter Success) ;;
  _beep p 100 ;;
  _blink_led (green_led p) 2000 ;;
  emit (Leave Success).

Definition indicate_failure (p : pins) : M unit :=
  emit (Enter Failure) ;;
  for_range 2 0 (fun _ =>
    _beep p 100 ;;
    _blink_led (red_led p) 100 ;;
    time_sleep 100) ;;
  emit (Leave Failure).
End RfidModuleHw.

(** The indicator of [rfid_module_enroll.py]. *)
Module RfidModuleEnrollHw.
Definition default_pins : pins := mkPins 14 15 10.

Definition indicate_success (p : pins) : M unit :=
  emit (Enter Success) ;;
  _blink_led (green_led p) 2000 ;;
  emit (Leave Success).

Definition indicate_failure (p : pins) : M unit :=
  emit (Enter Failure) ;;
  for_range 2 0 (fun _ => time_sleep 100) ;;
  _blink_led (red_led p) 2000 ;;
  emit (Leave Failure).
End RfidModuleEnrollHw.

(** ** PN532Handler (the parts both scripts share) *)

(** [bytes(uid).hex()] *)
Definition hex_digit (n : N) : ascii :=
  match String.get (N.to_nat n) "0123456789abcdef" with
  | Some c => c
  | None => "0"%char
  end.

Definition byte_hex (b : byte) : string :=
  let n := Byte.to_N b in
  String (hex_digit (n / 16)) (String (hex_digit (n mod 16)) EmptyString).

Definition bytes_hex (uid : list byte) : string :=
  String.concat "" (map byte_hex uid).

(** The attributes of a handler that never change after construction. *)
Record handler := mkHandler { device_mode : Z; retry_count : Z }.

Definition READER_MODE : Z := 0.
Definition ENROLLER_MODE : Z := 1.
Definition REQUEST_TIMEOUT : Z := 5000.
Definition CARD_READ_TIMEOUT : Z := 1000.

Definition init_error : exn :=
  mkExn RuntimeError "PN532 초기화 실패. 하드웨어 연결을 확인하세요.".

Definition no_pn532 : exn :=
  mkExn AttributeError "'PN532Handler' object has no attribute 'pn532'".

Definition no_hw : exn :=
  mkExn AttributeError "'PN532Handler' object has no attribute 'hw'".

Definition init_step_eqb (a b : init_step) : bool :=
  match a, b with
  | AtI2C, AtI2C | AtCreate, AtCreate | AtSam, AtSam | AtFirmware, AtFirmware => true
  | _, _ => false
  end.

Definition set_hw (p : pins) : M unit :=
  fun s => (Done tt,
            mkState (now s) (trace s) (n_attempt s) (n_poll s) (n_http s)
                    (Some p) (self_pn532 s)).

Definition set_pn532 : M unit :=
  fun s => (Done tt,
            mkState (now s) (trace s) (n_attempt s) (n_poll s) (n_http s)
                    (self_hw s) true).

(** [self.hw] *)
Definition get_hw : M pins :=
  fun s => match self_hw s with
           | Some p => (Done p, s)
           | None => (Raised no_hw, s)
           end.

(** [self.pn532] *)
Definition get_pn532 : M unit :=
  fun s => if self_pn532 s then (Done tt, s) else (Raised no_pn532, s).

Section Handler.
Variable W : world.

Definition next_attempt : M attempt_outcome :=
  fun s => (Done (bring_up W (n_attempt s)),
            mkState (now s) (trace s) (S (n_attempt s)) (n_poll s) (n_http s)
                    (self_hw s) (self_pn532 s)).

Definition next_poll : M poll_outcome :=
  fun s => (Done (poll W (n_poll s)),
            mkState (now s) (trace s) (n_attempt s) (S (n_poll s)) (n_http s)
                    (self_hw s) (self_pn532 s)).

(** The next remote call: the clock moves on by the time the call takes. *)
Definition next_http : M http_outcome :=
  fun s => (Done (http W (n_http s)),
            mkState (now s + Z.of_N (latency W (n_http s))) (trace s)
                    (n_attempt s) (n_poll s) (S (n_http s))
                    (self_hw s) (self_pn532 s)).

(** One step of a bring-up attempt: it is made, and raises if the attempt
    is to fail there. *)
Definition bring_up_step (o : attempt_outcome) (st : init_step) : M unit :=
  emit (Bringup st) ;;
  match o with
  | AttemptRaises st' e => if init_step_eqb st st' then raise e else ret tt
  | AttemptOk _ => ret tt
  end.

Definition firmware_version (o : attempt_outcome) : M Z :=
  emit (Bringup AtFirmware) ;;
  match o with
  | AttemptOk v => ret v
  | AttemptRaises _ e => raise e
  end.

(** The body of the [try] in [_initialize_pn532]; [Some true] is
    [return True]. *)
Definition attempt_body : M (option bool) :=
  o <- next_attempt ;;
  bring_up_step o AtI2C ;;
  time_sleep 1000 ;;
  bring_up_step o AtCreate ;;
  set_pn532 ;;
  bring_up_step o AtSam ;;
  version <- firmware_version o ;;
  print (LogFirmware version) ;;
  ret (Some true).

(** The [try] statement of [_initialize_pn532]; [None] is the end of the
    statement without a [return]. *)
Definition attempt_once (attempt retry_count : Z) : M (option bool) :=
  try_except attempt_body
    [(is_Exception, fun e =>
        print (LogInitFailed (attempt + 1) (str e)) ;;
        if attempt <? retry_count - 1
        then time_sleep 2000 ;; ret None
        else raise init_error)].

(** [for attempt in range(self.retry_count)], from [attempt] on with [n]
    iterations left; [None] is the end of the loop without a [return]. *)
Fixpoint init_attempts (n : nat) (attempt retry_count : Z) : M (option bool) :=
  match n with
  | O => ret None
  | S n' =>
      r <- attempt_once attempt retry_count ;;
      match r with
      | Some v => ret (Some v)
      | None => init_attempts n' (attempt + 1) retry_count
      end
  end.

Definition _initialize_pn532 (retry_count : Z) : M (option bool) :=
  init_attempts (Z.to_nat retry_count) 0 retry_count.

(** [PN532Handler.__init__], with the pins its [HardwareController()] takes
    by default. *)
Definition PN532Handler (p : pins) (device_mode retry_count : Z) : M handler :=
  hw <- HardwareController p ;;
  set_hw hw ;;
  _ <- _initialize_pn532 retry_count ;;
  ret (mkHandler device_mode retry_count).

Definition read_passive_target (timeout_ms : Z) : M (option (list byte)) :=
  get_pn532 ;;
  emit (ReadPassiveTarget timeout_ms) ;;
  o <- next_poll ;;
  match o with
  | PollNone d => elapse (Z.pos d) ;; ret None
  | PollUid d uid => elapse (Z.pos d) ;; ret (Some uid)
  | PollRaises d e => elapse (Z.pos d) ;; raise e
  end.

(** The [try] statement of [read_card]; [Some card] is
    [return bytes(uid).hex()]. *)
Definition poll_once : M (option string) :=
  try_except
    (uid <- read_passive_target 500 ;;
     match uid with
     | Some u => ret (Some (bytes_hex u))
     | None => ret None
     end)
    [(is_Exception, fun e =>
        print (LogReadError (str e)) ;;
        time_sleep 100 ;;
        ret None)].

(** The [while] of [read_card]; a turn takes at least a millisecond, so
    [timeout] turns and one last test of the clock are all there can be. *)
Fixpoint read_card_loop (fuel : nat) (start_time timeout : Z) : M (option string) :=
  match fuel with
  | O => still_running
  | S fuel' =>
      t <- time_time ;;
      if t - start_time <? timeout then
        r <- poll_once ;;
        match r with
        | Some card => ret (Some card)
        | None => read_card_loop fuel' start_time timeout
        end
      else ret None
  end.

Definition read_card (timeout : Z) : M (option string) :=
  start_time <- time_time ;;
  read_card_loop (S (Z.to_nat timeout)) start_time timeout.

(** [PN532Handler.__del__] *)
Definition __del__ : M unit :=
  fun s => match self_hw s with
           | Some _ => hw_cleanup s
           | None => (Done tt, s)
           end.

Definition requests_get (url : string) (timeout_ms : Z) : M (Z * body) :=
  emit (HttpGet url timeout_ms) ;;
  o <- next_http ;;
  match o with
  | HttpResponse status b => ret (status, b)
  | HttpRaises e => raise e
  end.

Definition requests_post (url : string) (payload : option json)
    (timeout_ms : option Z) : M (Z * body) :=
  emit (HttpPost url payload timeout_ms) ;;
  o <- next_http ;;
  match o with
  | HttpResponse status b => ret (status, b)
  | HttpRaises e => raise e
  end.
End Handler.

(** The name of the Python type a JSON value is decoded to. *)
Definition type_name (j : json) : string :=
  match j with
  | JNull => "NoneType"
  | JBool _ => "bool"
  | JNum _ => "int"
  | JStr _ => "str"
  | JArr _ => "list"
  | JObj _ => "dict"
  end.

Definition no_get (j : json) : exn :=
  mkExn AttributeError ("'" ++ type_name j ++ "' object has no attribute 'get'").

(** [response.json()] *)
Definition response_json (b : body) : M json :=
  match b with
  | BodyJson j => ret j
  | BodyRaises e => raise e
  end.

(** [j.get(key)]: only a dictionary has the method; a missing key gives
    Python's [None]. *)
Definition json_get (j : json) (key : string) : M json :=
  match j with
  | JObj kv => ret (match dict_get key kv with Some v => v | None => JNull end)
  | _ => raise (no_get j)
  end.

(** What a Flask view returns: [jsonify(...)] and a status ([200] when the
    view gives none). *)
Record flask_response := mkResponse { status_code : Z; payload : list (string * json) }.

(** ** rfid_module.py *)

Module RfidModule.
Import RfidModuleHw.

Definition API_BASE_URL : string := "http://your-remote-server:5000".
Definition DEVICE_MODE : Z := READER_MODE.

Definition wrong_mode_reader : exn :=
  mkExn RuntimeError "현재 장치는 리더기 모드가 아닙니다.".
Definition wrong_mode_enroller : exn :=
  mkExn RuntimeError "현재 장치는 등록기 모드가 아닙니다.".

Section Script.
Variable W : world.

(** [response.status_code == 200 and response.json().get('allowed')] *)
Definition access_granted (response : Z * body) : M bool :=
  if fst response =? 200 then
    j <- response_json (snd response) ;;
    allowed <- json_get j "allowed" ;;
    ret (truthy allowed)
  else ret false.

(** One turn of the [while True] of [check_card_access]; [read_card()] has
    its default timeout of one second. *)
Definition verify_cycle : M unit :=
  card_id <- read_card W 1000 ;;
  match card_id with
  | None => ret tt
  | Some card =>
      try_except
        (response <- requests_get W (API_BASE_URL ++ "/api/entry/" ++ card)
                       REQUEST_TIMEOUT ;;
         ok <- access_granted response ;;
         if ok then
           print (LogWelcome card) ;;
           hw <- get_hw ;;
           indicate_success hw
         else
           print (LogUnauthorized card) ;;
           hw <- get_hw ;;
           indicate_failure hw)
        [(is_RequestException, fun e =>
            print (LogServerDown (str e)) ;;
            hw <- get_hw ;;
            indicate_failure hw)] ;;
      time_sleep 500
  end.

Fixpoint verify_loop (cycles : nat) : M unit :=
  match cycles with
  | O => still_running
  | S n => verify_cycle ;; verify_loop n
  end.

Definition check_card_access (self : handler) (cycles : nat) : M unit :=
  if negb (device_mode self =? READER_MODE) then raise wrong_mode_reader
  else
    print LogVerifyStart ;;
    try_except (verify_loop cycles)
      [(is_KeyboardInterrupt, fun _ => print LogVerifyStopped);
       (is_Exception, fun e => print (LogVerifyError (str e)))].

(** The view of the route [/api]. *)
Definition enroll : M flask_response :=
  try_except
    (hw <- get_hw ;;
     start_enrollment_indicator hw ;;
     card_id <- read_card W 10000 ;;
     match card_id with
     | None =>
         hw <- get_hw ;;
         indicate_failure hw ;;
         ret (mkResponse 408
                [("status", JStr "error");
                 ("message", JStr "카드 읽기 시간 초과")])
     | Some card =>
         response <- requests_post W (API_BASE_URL ++ "/users/enroll")
                       (Some (JObj [("card_id", JStr card)]))
                       (Some REQUEST_TIMEOUT) ;;
         if fst response =? 200 then
           hw <- get_hw ;;
           indicate_success hw ;;
           ret (mkResponse 200
                  [("type", JStr "rfid");
                   ("card_id", JStr card);
                   ("status", JStr "success");
                   ("message", JStr "카드 등록 성공")])
         else
           hw <- get_hw ;;
           indicate_failure hw ;;
           ret (mkResponse 500
                  [("status", JStr "error");
                   ("message", JStr "원격 서버 등록 실패")])
     end)
    [(is_Exception, fun e =>
        hw <- get_hw ;;
        indicate_failure hw ;;
        ret (mkResponse 500
               [("status", JStr "error"); ("message", JStr (str e))]))].

Definition start_enrollment_server (self : handler) (port : Z) : M unit :=
  if negb (device_mode self =? ENROLLER_MODE) then raise wrong_mode_enroller
  else
    emit (FlaskStart port false) ;;
    print (LogServerStarted port).

(** The block under [if __name__ == "__main__"]. *)
Definition main (cycles : nat) : M unit :=
  try_except
    (self <- PN532Handler W default_pins DEVICE_MODE 3 ;;
     if DEVICE_MODE =? READER_MODE
     then check_card_access self cycles
     else start_enrollment_server self 5000)
    [(is_Exception, fun e => print (LogProgramError (str e)))].
End Script.
End RfidModule.

(** ** rfid_module_enroll.py *)

Module RfidModuleEnroll.
Import RfidModuleEnrollHw.

Definition API_BASE_URL : string := "http://10.144.45.196:8080/api".
Definition DEVICE_MODE : Z := ENROLLER_MODE.

Definition wrong_mode_enroller : exn :=
  mkExn RuntimeError "현재 장치는 등록기 모드가 아닙니다.".

Section Script.
Variable W : world.

(** One turn of the [while True] of [start_enrollment_server]. *)
Definition enroll_cycle : M unit :=
  card_id <- read_card W 10000 ;;
  match card_id with
  | None => time_sleep 500
  | Some card =>
      print (LogCardRead card) ;;
      response <- requests_post W (API_BASE_URL ++ "/temporary-user?rfid=" ++ card)
                    None None ;;
      print (LogResponse (fst response)) ;;
      hw <- get_hw ;;
      indicate_success hw ;;
      print (LogEnrolled card) ;;
      time_sleep 3000
  end.

Fixpoint enroll_loop (cycles : nat) : M unit :=
  match cycles with
  | O => still_running
  | S n => enroll_cycle ;; enroll_loop n
  end.

Definition start_enrollment_server (self : handler) (port : Z) (cycles : nat) : M unit :=
  if negb (device_mode self =? ENROLLER_MODE) then raise wrong_mode_enroller
  else
    print LogEnrollStart ;;
    emit (FlaskStart port true) ;;
    try_finally
      (try_except (enroll_loop cycles)
         [(is_KeyboardInterrupt, fun _ => print LogProgramStopped);
          (is_Exception, fun _ => hw <- get_hw ;; indicate_failure hw)])
      Gpio.cleanup.


(** The block under [if __name__ == "__main__"]. *)
Definition main (cycles : nat) : M unit :=
  try_except
    (self <- PN532Handler W default_pins DEVICE_MODE 3 ;;
     if DEVICE_MODE =? READER_MODE
     then raise (mkExn AttributeError
                   "'PN532Handler' object has no attribute 'check_card_access'")
     else start_enrollment_server self 5000 cycles)
    [(is_Exception, fun e => print (LogProgramError (str e)))].
End Script.
End RfidModuleEnroll.

(** ** The process

    The interpreter runs the main block.  When that is over the process exits
    with status 0, or with the status of an unhandled exception, unless a
    server thread that is not a daemon keeps it alive.  The destructor of the
    handler runs when the handler has become unreachable; the views of a
    server thread close over [self], so a handler whose server was started
    stays reachable and its destructor does not run. *)
Definition unhandled_status (e : exn) : Z :=
  if is_KeyboardInterrupt e then 130 else 1.

Definition starts_server (daemon : bool) (e : event) : bool :=
  match e with
  | FlaskStart _ d => Bool.eqb d daemon
  | _ => false
  end.

Definition exit_status (r : outcome unit) : Z :=
  match r with
  | Raised e => unhandled_status e
  | _ => 0
  end.

Definition process (main : M unit) (s : state) : option Z * state :=
  match main s with
  | (Running, s') => (None, s')
  | (r, s') =>
      if existsb (starts_server false) (trace s') then (None, s')
      else if existsb (starts_server true) (trace s') then (Some (exit_status r), s')
      else (Some (exit_status r), snd (__del__ s'))
  end.

(** * Vocabulary of the statements *)

(** [advance dt evs s] is [s] after [dt] more milliseconds and the events
    [evs]. *)
Definition advance (dt : Z) (evs : list event) (s : state) : state :=
  mkState (now s + dt) (trace s ++ evs) (n_attempt s) (n_poll s) (n_http s)
          (self_hw s) (self_pn532 s).

(** ** Cues *)

Definition beep_events (p : pins) (d : Z) : list event :=
  [GpioOutput (buzzer p) true; Sleep d; GpioOutput (buzzer p) false].

Definition blink_events (pin : Z) (d : Z) : list event :=
  [GpioOutput pin true; Sleep d; GpioOutput pin false].

Definition listening_events (p : pins) : list event :=
  blink_events (green_led p) 500.

(** The cues of [rfid_module.py]: a tone and a green pulse; a tone and a red
    pulse, followed by a pause, twice. *)
Definition positive_cue (p : pins) : list event :=
  beep_events p 100 ++ blink_events (green_led p) 2000.

Definition negative_cue (p : pins) : list event :=
  beep_events p 100 ++ blink_events (red_led p) 100.

Definition pause : list event := [Sleep 100].

Definition success_events (p : pins) : list event :=
  [Enter Success] ++ positive_cue p ++ [Leave Success].

Definition failure_events (p : pins) : list event :=
  [Enter Failure]
  ++ negative_cue p ++ pause ++ negative_cue p ++ pause
  ++ [Leave Failure].

(** The cues of [rfid_module_enroll.py]. *)
Definition enroll_success_events (p : pins) : list event :=
  [Enter Success] ++ blink_events (green_led p) 2000
  ++ [Leave Success].

Definition enroll_failure_events (p : pins) : list event :=
  [Enter Failure] ++ pause ++ pause ++ blink_events (red_led p) 2000
  ++ [Leave Failure].

(** How often a pin is driven high in a trace. *)
Definition drives_high (pin : Z) (e : event) : bool :=
  match e with
  | GpioOutput q true => q =? pin
  | _ => false
  end.

Definition pulses (pin : Z) (tr : list event) : nat :=
  List.length (filter (drives_high pin) tr).

(** The outcome signals fired in a trace, in order. *)
Definition signal_of (e : event) : list indicator_outcome :=
  match e with
  | Enter o => [o]
  | _ => []
  end.

Definition signals (tr : list event) : list indicator_outcome :=
  flat_map signal_of tr.

(** ** Bring-up *)

Definition attempt_fails (o : attempt_outcome) : Prop :=
  match o with
  | AttemptRaises _ e => is_Exception e = true
  | AttemptOk _ => False
  end.

Definition steps_until (st : init_step) : list event :=
  match st with
  | AtI2C => [Bringup AtI2C]
  | AtCreate => [Bringup AtI2C; Sleep 1000; Bringup AtCreate]
  | AtSam => [Bringup AtI2C; Sleep 1000; Bringup AtCreate; Bringup AtSam]
  | AtFirmware => [Bringup AtI2C; Sleep 1000; Bringup AtCreate; Bringup AtSam;
                   Bringup AtFirmware]
  end.

(** What one bring-up attempt leaves in the trace, the backoff apart. *)
Definition attempt_events (o : attempt_outcome) (attempt : Z) : list event :=
  match o with
  | AttemptOk v => steps_until AtFirmware ++ [Print (LogFirmware v)]
  | AttemptRaises st e =>
      steps_until st ++ [Print (LogInitFailed (attempt + 1) (str e))]
  end.

Definition backoff : list event := [Sleep 2000].

(** [k] attempts from oracle index [first] on, a backoff after each. *)
Fixpoint retried (W : world) (first : nat) (attempt : Z) (k : nat) : list event :=
  match k with
  | O => []
  | S k' =>
      attempt_events (bring_up W first) attempt ++ backoff
      ++ retried W (S first) (attempt + 1) k'
  end.

(** [k] attempts with a backoff between consecutive ones and none after the
    last. *)
Definition separated (W : world) (first : nat) (attempt : Z) (k : nat) : list event :=
  match k with
  | O => []
  | S k' =>
      retried W first attempt k'
      ++ attempt_events (bring_up W (first + k')) (attempt + Z.of_nat k')
  end.

Definition is_attempt_start (e : event) : bool :=
  match e with Bringup AtI2C => true | _ => false end.

Definition is_backoff (e : event) : bool :=
  match e with Sleep ms => ms =? 2000 | _ => false end.

Definition attempts_made (tr : list event) : nat :=
  List.length (filter is_attempt_start tr).

Definition backoffs (tr : list event) : nat :=
  List.length (filter is_backoff tr).

Definition after_attempt (created : bool) (s : state) : state :=
  mkState (now s) (trace s) (S (n_attempt s)) (n_poll s) (n_http s)
          (self_hw s) (self_pn532 s || created).

(** Whether an attempt that raises at [st] has assigned [self.pn532], and
    how long it has slept. *)
Definition creates (st : init_step) : bool :=
  match st with AtI2C | AtCreate => false | AtSam | AtFirmware => true end.

Definition settle (st : init_step) : Z :=
  match st with AtI2C => 0 | _ => 1000 end.

(** ** Reading a card *)

Definition after_poll (s : state) : state :=
  mkState (now s) (trace s) (n_attempt s) (S (n_poll s)) (n_http s)
          (self_hw s) (self_pn532 s).

(** What a turn of the loop of [read_card] takes and leaves in the trace,
    with a handle and without. *)
Definition cost (o : poll_outcome) : Z :=
  match o with
  | PollNone d => Z.pos d
  | PollUid d _ => Z.pos d
  | PollRaises d _ => Z.pos d + 100
  end.

Definition poll_events (o : poll_outcome) : list event :=
  match o with
  | PollNone _ => [ReadPassiveTarget 500]
  | PollUid _ _ => [ReadPassiveTarget 500]
  | PollRaises _ e => [ReadPassiveTarget 500; Print (LogReadError (str e)); Sleep 100]
  end.

Definition no_handle_events : list event :=
  [Print (LogReadError (str no_pn532)); Sleep 100].

Fixpoint no_handle_turns (k : nat) : list event :=
  match k with
  | O => []
  | S k' => no_handle_events ++ no_handle_turns k'
  end.

(** A peripheral error is an [Exception]; the operator's interrupt is not. *)
Definition raises_errors_only (o : poll_outcome) : Prop :=
  match o with
  | PollRaises _ e => is_Exception e = true
  | _ => True
  end.

(** A poll that produces no UID. *)
Definition gives_no_uid (o : poll_outcome) : Prop :=
  match o with
  | PollNone _ => True
  | PollRaises _ e => is_Exception e = true
  | PollUid _ _ => False
  end.

(** A poll that produces no UID, in a turn of at most [P] milliseconds. *)
Definition silent (P : Z) (o : poll_outcome) : Prop :=
  gives_no_uid o /\ cost o <= P.

(** The time the [k] polls from oracle index [first] on take. *)
Fixpoint window (W : world) (first : nat) (k : nat) : Z :=
  match k with
  | O => 0
  | S k' => cost (poll W first) + window W (S first) k'
  end.

Definition is_read_event (e : event) : bool :=
  match e with
  | ReadPassiveTarget _ => true
  | Print (LogReadError _) => true
  | Sleep ms => ms =? 100
  | _ => false
  end.

(** ** The order of polls, remote calls and signals

    [Reading]: no remote outcome is known for the current card event.
    [Called]: the remote call of the event has been made and has returned or
    raised.  [Signalling o]: the cue for [o] has begun and is not over. *)
Inductive phase := Reading | Called | Signalling (o : indicator_outcome).

Definition same_outcome (a b : indicator_outcome) : bool :=
  match a, b with
  | Success, Success | Failure, Failure => true
  | _, _ => false
  end.

(** A signal may begin only in [Called]; while it lasts there is no poll, no
    remote call and no other signal. *)
Definition ord_step (ph : phase) (e : event) : option phase :=
  match ph with
  | Reading =>
      match e with
      | Enter _ | Leave _ => None
      | HttpGet _ _ | HttpPost _ _ _ => Some Called
      | _ => Some Reading
      end
  | Called =>
      match e with
      | Enter o => Some (Signalling o)
      | Leave _ => None
      | ReadPassiveTarget _ => Some Reading
      | _ => Some Called
      end
  | Signalling o =>
      match e with
      | Leave o' => if same_outcome o o' then Some Reading else None
      | Enter _ | ReadPassiveTarget _ | HttpGet _ _ | HttpPost _ _ _ => None
      | _ => Some (Signalling o)
      end
  end.

Fixpoint ord_run (ph : phase) (tr : list event) : option phase :=
  match tr with
  | [] => Some ph
  | e :: rest =>
      match ord_step ph e with
      | Some ph' => ord_run ph' rest
      | None => None
      end
  end.

(** The trace respects the order and leaves no signal unfinished. *)
Definition well_ordered (tr : list event) : bool :=
  match ord_run Reading tr with
  | Some Reading | Some Called => true
  | Some (Signalling _) | None => false
  end.

(** ** Construction and concrete inputs *)

(** What [HardwareController.__init__] leaves in the trace. *)
Definition setup_events (p : pins) : list event :=
  [GpioSetmode; GpioSetwarnings false;
   GpioSetup (green_led p); GpioOutput (green_led p) false;
   GpioSetup (red_led p); GpioOutput (red_led p) false;
   GpioSetup (buzzer p); GpioOutput (buzzer p) false].

(** The state after [PN532Handler.__init__] when no bring-up attempt is made. *)
Definition constructed (p : pins) (s : state) : state :=
  mkState (now s) (trace s ++ setup_events p) (n_attempt s) (n_poll s) (n_http s)
          (Some p) (self_pn532 s).

(** A handler of [rfid_module.py] whose bring-up worked at the first attempt. *)
Definition ready : state := mkState 0 [] 1 0 0 (Some RfidModuleHw.default_pins) true.

(** No card is ever presented. *)
Definition quiet_reader : world :=
  mkWorld (fun _ => AttemptOk 1) (fun _ => PollNone 500)
          (fun _ => HttpRaises (mkExn RequestException "unreachable"))
          (fun _ => 40%N).

Definition card_04a3b2c1 : list byte := [x04; xa3; xb2; xc1].

(** The bus fails once, then a card is read. *)
Definition hiccup_reader : world :=
  mkWorld (fun _ => AttemptOk 1)
          (fun i => match i with
                    | O => PollRaises 20 (mkExn OtherException "I2C glitch")
                    | S O => PollUid 30 card_04a3b2c1
                    | _ => PollNone 500
                    end)
          (fun _ => HttpRaises (mkExn RequestException "unreachable"))
          (fun _ => 40%N).

(** ** Remote calls *)

(** The state once the next remote call has returned or raised. *)
Definition after_http (W : world) (s : state) : state :=
  mkState (now s + Z.of_N (latency W (n_http s))) (trace s)
          (n_attempt s) (n_poll s) (S (n_http s))
          (self_hw s) (self_pn532 s).

(** What the verification loop makes of a remote outcome: access granted,
    access denied, the service unreachable (a [RequestException], handled as
    a denial), or an exception that the inner [try] does not catch. *)
Inductive verdict := Granted | Denied | Unreachable (e : exn) | Escapes (e : exn).

Definition judge (o : http_outcome) : verdict :=
  match o with
  | HttpRaises e => if is_RequestException e then Unreachable e else Escapes e
  | HttpResponse status b =>
      if status =? 200 then
        match b with
        | BodyRaises e => if is_RequestException e then Unreachable e else Escapes e
        | BodyJson (JObj kv) =>
            match dict_get "allowed" kv with
            | Some v => if truthy v then Granted else Denied
            | None => Denied
            end
        | BodyJson j => Escapes (no_get j)
        end
      else Denied
  end.

Definition entry_url (card : string) : string :=
  RfidModule.API_BASE_URL ++ "/api/entry/" ++ card.

(** What follows the remote call in the trace, and in how much time. *)
Definition verdict_events (p : pins) (card : string) (v : verdict) : list event :=
  match v with
  | Granted => [Print (LogWelcome card)] ++ success_events p ++ [Sleep 500]
  | Denied => [Print (LogUnauthorized card)] ++ failure_events p ++ [Sleep 500]
  | Unreachable e => [Print (LogServerDown (str e))] ++ failure_events p ++ [Sleep 500]
  | Escapes _ => []
  end.

Definition verdict_time (v : verdict) : Z :=
  match v with
  | Granted => 2600
  | Denied | Unreachable _ => 1100
  | Escapes _ => 0
  end.

Definition verdict_result (v : verdict) : outcome unit :=
  match v with
  | Escapes e => Raised e
  | _ => Done tt
  end.

(** No order was broken and no signal is pending. *)
Definition settled (r : option phase) : Prop := r = Some Reading \/ r = Some Called.

Definition temporary_user_url (card : string) : string :=
  RfidModuleEnroll.API_BASE_URL ++ "/temporary-user?rfid=" ++ card.

(** A remote outcome the verification loop gets over. *)
Definition survivable (o : http_outcome) : Prop :=
  match judge o with
  | Escapes _ => False
  | _ => True
  end.

(** ** Concrete handlers and remote services *)

Definition reader : handler := mkHandler READER_MODE 3.
Definition enroller : handler := mkHandler ENROLLER_MODE 3.

Definition allowed_body (b : bool) : body := BodyJson (JObj [("allowed", JBool b)]).

(** A card on the reader at every poll. *)
Definition card_present (remote : nat -> http_outcome) : world :=
  mkWorld (fun _ => AttemptOk 1) (fun _ => PollUid 30 card_04a3b2c1) remote
          (fun _ => 40%N).

Definition granting_server : world :=
  card_present (fun _ => HttpResponse 200 (allowed_body true)).

Definition offline_server : world :=
  card_present (fun _ => HttpRaises (mkExn RequestException "connection refused")).

Definition garbled_server : world :=
  card_present (fun _ => HttpResponse 200 (BodyJson (JArr []))).

(** The remote service is unreachable at the first call and answers 200 with
    a JSON list from the second on. *)
Definition worsening_server : world :=
  card_present (fun i => match i with
                         | O => HttpRaises (mkExn RequestException "connection refused")
                         | _ => HttpResponse 200 (BodyJson (JArr []))
                         end).

(** The remote service answers the first call and refuses the connection
    from the second on. *)
Definition vanishing_server : world :=
  card_present (fun i => match i with
                         | O => HttpResponse 200 (allowed_body true)
                         | _ => HttpRaises (mkExn RequestException "connection refused")
                         end).

(** A handler of [rfid_module_enroll.py] whose bring-up worked. *)
Definition ready_enroll : state :=
  mkState 0 [] 1 0 0 (Some RfidModuleEnrollHw.default_pins) true.

(** The loop is still going when the observation ends. *)
Definition keeps_going {A} (r : outcome A * state) : Prop := fst r = Running.

(** ** The enrollment endpoint *)

Definition enroll_request (card : string) : event :=
  HttpPost (RfidModule.API_BASE_URL ++ "/users/enroll")
    (Some (JObj [("card_id", JStr card)])) (Some REQUEST_TIMEOUT).

Definition is_remote_call (e : event) : bool :=
  match e with
  | HttpGet _ _ | HttpPost _ _ _ => true
  | _ => false
  end.

Definition remote_calls (tr : list event) : nat :=
  List.length (filter is_remote_call tr).

Definition timeout_response : flask_response :=
  mkResponse 408
    [("status", JStr "error"); ("message", JStr "카드 읽기 시간 초과")].

Definition enrolled_response (card : string) : flask_response :=
  mkResponse 200
    [("type", JStr "rfid"); ("card_id", JStr card); ("status", JStr "success");
     ("message", JStr "카드 등록 성공")].

Definition rejected_response : flask_response :=
  mkResponse 500
    [("status", JStr "error"); ("message", JStr "원격 서버 등록 실패")].

(** ** The process *)

Definition exits_nonzero (r : option Z * state) : Prop :=
  exists c, fst r = Some c /\ c <> 0.

(** No reader on the bus: every bring-up attempt fails at the first step. *)
Definition dead_reader : world :=
  mkWorld (fun _ => AttemptRaises AtI2C (mkExn OtherException "No I2C device"))
          (fun _ => PollNone 500)
          (fun _ => HttpRaises (mkExn RequestException "unreachable"))
          (fun _ => 40%N).

(** ** Card identifiers *)

(** The sixteen characters [bytes.hex()] writes. *)
Definition is_hex_digit (c : ascii) : bool :=
  match String.index 0 (String c EmptyString) "0123456789abcdef" with
  | Some _ => true
  | None => false
  end.

Fixpoint string_forall (f : ascii -> bool) (s : string) : bool :=
  match s with
  | EmptyString => true
  | String c rest => f c && string_forall f rest
  end.

(** The value of a hexadecimal digit, and the byte two digits stand for. *)
Definition hex_value (c : ascii) : N :=
  match String.index 0 (String c EmptyString) "0123456789abcdef" with
  | Some i => N.of_nat i
  | None => 0%N
  end.

Fixpoint bytes_unhex (s : string) : option (list byte) :=
  match s with
  | EmptyString => Some []
  | String c1 (String c2 rest) =>
      match Byte.of_N (16 * hex_value c1 + hex_value c2), bytes_unhex rest with
      | Some b, Some u => Some (b :: u)
      | _, _ => None
      end
  | String _ EmptyString => None
  end.

(** ** Output levels *)

(** The level of output [q] after an event, [lv] being its level before; a
    released pin is not driven. *)
Definition drive (q : Z) (lv : bool) (e : event) : bool :=
  match e with
  | GpioOutput r b => if r =? q then b else lv
  | GpioCleanup => false
  | _ => lv
  end.

Definition level (q : Z) (tr : list event) : bool := fold_left (drive q) tr false.

(** Events that leave low every output that was low. *)
Definition restful (tr : list event) : Prop :=
  forall q, fold_left (drive q) tr false = false.

(** A call that, whenever it returns, has left low every output that was low
    when it began. *)
Definition rests_on_return {A} (c : M A) : Prop :=
  forall s q r s',
    c s = (Done r, s') -> level q (trace s) = false -> level q (trace s') = false.

(** ** What a mode does to the outside *)

(** The events of the verification mode: polls, GETs of an entry with the
    request timeout, cues, logs and sleeps. *)
Definition is_verify_event (e : event) : bool :=
  match e with
  | HttpGet url t =>
      String.prefix (RfidModule.API_BASE_URL ++ "/api/entry/") url
      && (t =? REQUEST_TIMEOUT)
  | HttpPost _ _ _ | GpioCleanup | GpioSetmode | GpioSetwarnings _ | GpioSetup _
  | Bringup _ | FlaskStart _ _ => false
  | _ => true
  end.

(** The shapes of what one turn of the verification loop adds to the trace. *)
Inductive verify_turn (p : pins) : list event -> Prop :=
| VerifyIdle reads :
    forallb is_read_event reads = true -> verify_turn p reads
| VerifyEvent reads card v :
    forallb is_read_event reads = true ->
    verify_turn p
      (reads ++ HttpGet (entry_url card) REQUEST_TIMEOUT :: verdict_events p card v).

(** The shapes of what one turn of the enrollment loop adds to the trace. *)
Inductive enroll_turn (p : pins) : list event -> Prop :=
| EnrollInterrupted reads :
    forallb is_read_event reads = true -> enroll_turn p reads
| EnrollIdle reads :
    forallb is_read_event reads = true -> enroll_turn p (reads ++ [Sleep 500])
| EnrollEvent reads card status :
    forallb is_read_event reads = true ->
    enroll_turn p
      (reads
       ++ [Print (LogCardRead card); HttpPost (temporary_user_url card) None None;
           Print (LogResponse status)]
       ++ enroll_success_events p
       ++ [Print (LogEnrolled card); Sleep 3000])
| EnrollFailed reads card :
    forallb is_read_event reads = true ->
    enroll_turn p
      (reads
       ++ [Print (LogCardRead card); HttpPost (temporary_user_url card) None None]).

(** The events of the auto-capture enrollment mode: polls, POSTs of a
    temporary user without body or timeout, the start of the server thread,
    cues, logs, sleeps and the release of the outputs. *)
Definition is_enroll_event (e : event) : bool :=
  match e with
  | HttpPost url None None =>
      String.prefix (RfidModuleEnroll.API_BASE_URL ++ "/temporary-user?rfid=") url
  | HttpPost _ _ _ | HttpGet _ _ | GpioSetmode | GpioSetwarnings _ | GpioSetup _
  | Bringup _ => false
  | _ => true
  end.

(** ** More concrete inputs *)

(** The remote service answers every request with a server error. *)
Definition failing_server : world :=
  card_present (fun _ => HttpResponse 500 (BodyRaises (mkExn RequestException "not JSON"))).

(** The operator interrupts the third poll. *)
Definition late_interrupt_reader : world :=
  mkWorld (fun _ => AttemptOk 1)
          (fun i => match i with
                    | O | S O => PollNone 500
                    | _ => PollRaises 10 (mkExn KeyboardInterrupt "")
                    end)
          (fun _ => HttpRaises (mkExn RequestException "unreachable"))
          (fun _ => 40%N).

(** The operator interrupts the first poll. *)
Definition interrupted_reader : world :=
  mkWorld (fun _ => AttemptOk 1)
          (fun _ => PollRaises 10 (mkExn KeyboardInterrupt ""))
          (fun _ => HttpRaises (mkExn RequestException "unreachable"))
          (fun _ => 40%N).

(** ** More responses *)

(** The response of the view of [/api] when its [try] raised [e]. *)
Definition error_response (e : exn) : flask_response :=
  mkResponse 500 [("status", JStr "error"); ("message", JStr (str e))].


(** The remote service raises nothing but [Exception]s. *)
Definition remote_errors_only (o : http_outcome) : Prop :=
  match o with
  | HttpRaises e => is_Exception e = true
  | HttpResponse _ _ => True
  end.

(** The second bring-up attempt works. *)
Definition slow_start_reader : world :=
  mkWorld (fun i => match i with
                    | O => AttemptRaises AtSam (mkExn OtherException "no ACK")
                    | _ => AttemptOk 1
                    end)
          (fun _ => PollNone 500)
          (fun _ => HttpRaises (mkExn RequestException "unreachable"))
          (fun _ => 40%N).

(** The state when the constructor returns after a first attempt that
    worked, from [boot]. *)
Definition started (p : pins) (v : Z) : state :=
  advance 1000 (attempt_events (AttemptOk v) 0) (after_attempt true (constructed p boot)).

(** The remote service answers 200 with [{"allowed": "false"}], a string. *)
Definition stringly_server : world :=
  card_present (fun _ => HttpResponse 200 (BodyJson (JObj [("allowed", JStr "false")]))).

(** * Proofs *)

(** ** States and the monad *)

Lemma advance_advance d1 e1 d2 e2 s :
  advance d2 e2 (advance d1 e1 s) = advance (d1 + d2) (e1 ++ e2) s.
Proof.
  unfold advance; simpl. f_equal; [lia | now rewrite app_assoc].
Qed.

Lemma advance_0_nil s : advance 0 [] s = s.
Proof.
  destruct s; unfold advance; simpl. f_equal; [lia | apply app_nil_r].
Qed.

Lemma advance_eq {A} (a : A) d1 d2 e1 e2 s :
  d1 = d2 -> e1 = e2 -> (Done a, advance d1 e1 s) = (Done a, advance d2 e2 s).
Proof. now intros -> ->. Qed.

Ltac finish := rewrite ?advance_advance; apply advance_eq; [lia | reflexivity].

Lemma emit_run e s : emit e s = (Done tt, advance 0 [e] s).
Proof. unfold emit, advance. do 2 f_equal. lia. Qed.

Lemma bind_done {A B} {c : M A} {s a s'} (H : c s = (Done a, s')) (k : A -> M B) :
  bind c k s = k a s'.
Proof. unfold bind. now rewrite H. Qed.

Lemma bind_raised {A B} {c : M A} {s e s'} (H : c s = (Raised e, s')) (k : A -> M B) :
  bind c k s = (Raised e, s').
Proof. unfold bind. now rewrite H. Qed.

Lemma bind_assoc {A B C} (c : M A) (k : A -> M B) (k' : B -> M C) s :
  bind (bind c k) k' s = bind c (fun a => bind (k a) k') s.
Proof. unfold bind. destruct (c s) as [[a | e |] s']; reflexivity. Qed.

Lemma bind_ret {A B} (a : A) (k : A -> M B) s : bind (ret a) k s = k a s.
Proof. reflexivity. Qed.

Lemma time_sleep_run d s :
  0 <= d -> time_sleep d s = (Done tt, advance d [Sleep d] s).
Proof.
  intros Hd. unfold time_sleep.
  replace (d <? 0) with false by (symmetry; apply Z.ltb_ge; lia).
  rewrite (bind_done (emit_run _ _)).
  unfold elapse, advance; simpl. do 2 f_equal; try lia.
Qed.

Lemma time_sleep_negative d s :
  d < 0 -> time_sleep d s = (Raised negative_sleep, s).
Proof.
  intros Hd. unfold time_sleep.
  replace (d <? 0) with true by (symmetry; apply Z.ltb_lt; lia).
  reflexivity.
Qed.

Lemma _blink_led_run pin d s :
  0 <= d -> _blink_led pin d s = (Done tt, advance d (blink_events pin d) s).
Proof.
  intros Hd. unfold _blink_led, Gpio.output.
  rewrite (bind_done (emit_run _ _)).
  rewrite (bind_done (time_sleep_run d _ Hd)).
  rewrite emit_run. finish.
Qed.

(** ** The indicator *)

Lemma _beep_run p d s :
  0 <= d -> _beep p d s = (Done tt, advance d (beep_events p d) s).
Proof.
  intros Hd. unfold _beep, Gpio.output.
  rewrite (bind_done (emit_run _ _)).
  rewrite (bind_done (time_sleep_run d _ Hd)).
  rewrite emit_run. finish.
Qed.

Lemma indicate_success_run p s :
  RfidModuleHw.indicate_success p s = (Done tt, advance 2100 (success_events p) s).
Proof.
  unfold RfidModuleHw.indicate_success.
  rewrite (bind_done (emit_run _ _)), (bind_done (_beep_run _ 100 _ ltac:(lia))),
    (bind_done (_blink_led_run _ 2000 _ ltac:(lia))), emit_run.
  finish.
Qed.

Lemma indicate_failure_run p s :
  RfidModuleHw.indicate_failure p s = (Done tt, advance 600 (failure_events p) s).
Proof.
  unfold RfidModuleHw.indicate_failure, for_range.
  repeat first [ rewrite bind_assoc | rewrite bind_ret | rewrite (bind_done (emit_run _ _))
               | rewrite (bind_done (_beep_run _ 100 _ ltac:(lia)))
               | rewrite (bind_done (_blink_led_run _ 100 _ ltac:(lia)))
               | rewrite (bind_done (time_sleep_run 100 _ ltac:(lia)))
               | rewrite (@bind_done _ _ (ret tt) _ tt _ eq_refl) ].
  rewrite emit_run.
  finish.
Qed.

(** ** Bring-up *)

Lemma attempt_body_run W s :
  attempt_body W s =
  match bring_up W (n_attempt s) with
  | AttemptOk v =>
      (Done (Some true),
       advance 1000 (attempt_events (AttemptOk v) 0) (after_attempt true s))
  | AttemptRaises st e =>
      (Raised e, advance (settle st) (steps_until st) (after_attempt (creates st) s))
  end.
Proof.
  destruct s as [t tr a p h hw pn].
  unfold attempt_body, bind, next_attempt; simpl.
  destruct (bring_up W a) as [v | [] e]; unfold advance, after_attempt; simpl;
    rewrite <- ?app_assoc; simpl; rewrite ?orb_true_r, ?orb_false_r, ?Z.add_0_r;
    reflexivity.
Qed.

Lemma try_except_done {A} {c : M A} {s a s'} (H : c s = (Done a, s')) cl :
  try_except c cl s = (Done a, s').
Proof. unfold try_except. now rewrite H. Qed.

Lemma try_except_raised {A} {c : M A} {s e s'} (H : c s = (Raised e, s')) cl :
  try_except c cl s = dispatch cl e s'.
Proof. unfold try_except. now rewrite H. Qed.

Lemma separated_cons W first attempt k :
  separated W first attempt (S (S k)) =
  attempt_events (bring_up W first) attempt ++ backoff
  ++ separated W (S first) (attempt + 1) (S k).
Proof.
  unfold separated. simpl retried.
  replace (S first + k)%nat with (first + S k)%nat by lia.
  replace (attempt + 1 + Z.of_nat k) with (attempt + Z.of_nat (S k)) by lia.
  now rewrite <- !app_assoc.
Qed.

(** A failed attempt that is not the last: logged, then the backoff. *)
Lemma failed_attempt_retry W attempt rc s st e :
  bring_up W (n_attempt s) = AttemptRaises st e ->
  is_Exception e = true ->
  attempt < rc - 1 ->
  attempt_once W attempt rc s
  = (Done None,
     advance (settle st + 2000)
       (attempt_events (AttemptRaises st e) attempt ++ backoff)
       (after_attempt (creates st) s)).
Proof.
  intros Hw He Hlt.
  pose proof (attempt_body_run W s) as Hrun. rewrite Hw in Hrun.
  unfold attempt_once.
  rewrite (try_except_raised Hrun). simpl. rewrite He.
  unfold print. rewrite (bind_done (emit_run _ _)).
  apply Z.ltb_lt in Hlt. rewrite Hlt.
  rewrite (bind_done (time_sleep_run 2000 _ ltac:(lia))). unfold ret.
  rewrite !advance_advance. apply advance_eq; [lia |].
  simpl attempt_events. now rewrite <- !app_assoc.
Qed.

(** A failed last attempt: logged, then the initialization error. *)
Lemma failed_attempt_last W attempt rc s st e :
  bring_up W (n_attempt s) = AttemptRaises st e ->
  is_Exception e = true ->
  rc - 1 <= attempt ->
  attempt_once W attempt rc s
  = (Raised init_error,
     advance (settle st) (attempt_events (AttemptRaises st e) attempt)
       (after_attempt (creates st) s)).
Proof.
  intros Hw He Hge.
  pose proof (attempt_body_run W s) as Hrun. rewrite Hw in Hrun.
  unfold attempt_once.
  rewrite (try_except_raised Hrun). simpl. rewrite He.
  unfold print. rewrite (bind_done (emit_run _ _)).
  apply Z.ltb_ge in Hge. rewrite Hge. unfold raise.
  rewrite !advance_advance. f_equal. f_equal. lia.
Qed.

Lemma attempt_succeeds W attempt rc s v :
  bring_up W (n_attempt s) = AttemptOk v ->
  attempt_once W attempt rc s
  = (Done (Some true),
     advance 1000 (attempt_events (AttemptOk v) attempt) (after_attempt true s)).
Proof.
  intros Hw.
  pose proof (attempt_body_run W s) as Hrun. rewrite Hw in Hrun.
  unfold attempt_once.
  now rewrite (try_except_done Hrun).
Qed.

Lemma init_attempts_exhausted W rc : forall k attempt s,
  (forall i, (i <= k)%nat -> attempt_fails (bring_up W (n_attempt s + i))) ->
  attempt + Z.of_nat (S k) = rc ->
  exists s',
    init_attempts W (S k) attempt rc s = (Raised init_error, s')
    /\ trace s' = trace s ++ separated W (n_attempt s) attempt (S k)
    /\ n_attempt s' = (n_attempt s + S k)%nat
    /\ self_hw s' = self_hw s.
Proof.
  induction k as [| k IH]; intros attempt s Hfail Hrc.
  - pose proof (Hfail 0%nat (Nat.le_refl _)) as H0. rewrite Nat.add_0_r in H0.
    destruct (bring_up W (n_attempt s)) as [v | st e] eqn:Hw; [easy |].
    simpl in H0. eexists. split; [| split; [| split]].
    + simpl init_attempts.
      rewrite (bind_raised (failed_attempt_last W attempt rc s st e Hw H0 ltac:(lia))).
      reflexivity.
    + simpl. now rewrite Nat.add_0_r, Z.add_0_r, Hw.
    + simpl. lia.
    + reflexivity.
  - pose proof (Hfail 0%nat (Nat.le_0_l _)) as H0. rewrite Nat.add_0_r in H0.
    destruct (bring_up W (n_attempt s)) as [v | st e] eqn:Hw; [easy |].
    simpl in H0.
    set (s1 := advance (settle st + 2000)
                 (attempt_events (AttemptRaises st e) attempt ++ backoff)
                 (after_attempt (creates st) s)).
    destruct (IH (attempt + 1) s1) as (s' & Hrun & Htr & Hn & Hhw).
    + intros i Hi. replace (n_attempt s1 + i)%nat
        with (n_attempt s + S i)%nat by (simpl; lia). apply Hfail. lia.
    + lia.
    + exists s'. split; [| split; [| split]].
      * change (init_attempts W (S (S k)) attempt rc s) with
          (bind (attempt_once W attempt rc)
             (fun r => match r with
                       | Some v => ret (Some v)
                       | None => init_attempts W (S k) (attempt + 1) rc
                       end) s).
        rewrite (bind_done (failed_attempt_retry W attempt rc s st e Hw H0 ltac:(lia))).
        exact Hrun.
      * rewrite Htr, separated_cons, Hw. subst s1. unfold advance; simpl trace.
        simpl n_attempt. simpl attempt_events. now rewrite <- !app_assoc.
      * rewrite Hn. subst s1. simpl. lia.
      * rewrite Hhw. reflexivity.
Qed.

Lemma init_attempts_succeeds W rc v : forall j k attempt s,
  (forall i, (i < j)%nat -> attempt_fails (bring_up W (n_attempt s + i))) ->
  bring_up W (n_attempt s + j) = AttemptOk v ->
  (j < k)%nat ->
  attempt + Z.of_nat k = rc ->
  exists s',
    init_attempts W k attempt rc s = (Done (Some true), s')
    /\ trace s' = trace s ++ retried W (n_attempt s) attempt j
                  ++ attempt_events (AttemptOk v) (attempt + Z.of_nat j)
    /\ n_attempt s' = (n_attempt s + S j)%nat
    /\ self_pn532 s' = true
    /\ self_hw s' = self_hw s.
Proof.
  induction j as [| j IH]; intros k attempt s Hfail Hok Hlt Hrc;
    (destruct k as [| k]; [lia |]).
  - rewrite Nat.add_0_r in Hok.
    eexists. split; [| split; [| split; [| split]]].
    + simpl init_attempts.
      rewrite (bind_done (attempt_succeeds W attempt rc s v Hok)). reflexivity.
    + reflexivity.
    + simpl. lia.
    + simpl. apply orb_true_r.
    + reflexivity.
  - pose proof (Hfail 0%nat (Nat.lt_0_succ _)) as H0. rewrite Nat.add_0_r in H0.
    destruct (bring_up W (n_attempt s)) as [v' | st e] eqn:Hw; [easy |].
    simpl in H0.
    set (s1 := advance (settle st + 2000)
                 (attempt_events (AttemptRaises st e) attempt ++ backoff)
                 (after_attempt (creates st) s)).
    destruct (IH k (attempt + 1) s1) as (s' & Hrun & Htr & Hn & Hpn & Hhw).
    + intros i Hi. replace (n_attempt s1 + i)%nat
        with (n_attempt s + S i)%nat by (simpl; lia). apply Hfail. lia.
    + replace (n_attempt s1 + j)%nat
        with (n_attempt s + S j)%nat by (simpl; lia). exact Hok.
    + lia.
    + lia.
    + exists s'. split; [| split; [| split; [| split]]].
      * simpl init_attempts.
        rewrite (bind_done (failed_attempt_retry W attempt rc s st e Hw H0 ltac:(lia))).
        exact Hrun.
      * rewrite Htr. subst s1. unfold advance; simpl trace. simpl n_attempt.
        simpl retried. rewrite Hw. simpl attempt_events.
        replace (attempt + 1 + Z.of_nat j) with (attempt + Z.of_nat (S j)) by lia.
        now rewrite <- !app_assoc.
      * rewrite Hn. subst s1. simpl. lia.
      * exact Hpn.
      * rewrite Hhw. reflexivity.
Qed.

(** ** Reading a card *)

Lemma poll_once_run W s :
  self_pn532 s = true ->
  poll_once W s =
  match poll W (n_poll s) with
  | PollNone d =>
      (Done None, advance (Z.pos d) [ReadPassiveTarget 500] (after_poll s))
  | PollUid d u =>
      (Done (Some (bytes_hex u)),
       advance (Z.pos d) [ReadPassiveTarget 500] (after_poll s))
  | PollRaises d e =>
      if is_Exception e
      then (Done None,
            advance (Z.pos d + 100) (poll_events (PollRaises d e)) (after_poll s))
      else (Raised e, advance (Z.pos d) [ReadPassiveTarget 500] (after_poll s))
  end.
Proof.
  destruct s as [t tr a p h hw pn]. simpl. intros ->.
  unfold poll_once, try_except, read_passive_target, bind, get_pn532, next_poll.
  simpl. destruct (poll W p) as [d | d u | d e]; simpl; try reflexivity.
  destruct (is_Exception e); unfold advance; simpl; rewrite <- ?app_assoc;
    simpl; unfold ret, raise; try reflexivity; do 2 f_equal; lia.
Qed.

Lemma poll_once_no_handle W s :
  self_pn532 s = false ->
  poll_once W s = (Done None, advance 100 no_handle_events s).
Proof.
  destruct s as [t tr a p h hw pn]. simpl. intros ->.
  unfold poll_once, try_except, read_passive_target, bind, get_pn532.
  simpl. unfold advance. simpl. rewrite <- app_assoc. reflexivity.
Qed.

Lemma read_card_loop_S W fuel start timeout s :
  read_card_loop W (S fuel) start timeout s =
  if now s - start <? timeout then
    bind (poll_once W)
      (fun r => match r with
                | Some card => ret (Some card)
                | None => read_card_loop W fuel start timeout
                end) s
  else (Done None, s).
Proof.
  simpl. unfold bind at 1, time_time.
  destruct (now s - start <? timeout); reflexivity.
Qed.

(** Without a handle every turn is the error branch, and the call returns
    only once the window is over. *)
Lemma read_card_loop_no_handle W start timeout : forall k fuel s,
  self_pn532 s = false ->
  (k < fuel)%nat ->
  k = Z.to_nat ((timeout - (now s - start) + 99) / 100) ->
  read_card_loop W fuel start timeout s =
  (Done None, advance (100 * Z.of_nat k) (no_handle_turns k) s).
Proof.
  induction k as [| k IH]; intros fuel s Hpn Hfuel Hk;
    (destruct fuel as [| fuel]; [lia |]); rewrite read_card_loop_S.
  - assert (timeout - (now s - start) <= 0) as Hle.
    { destruct (Z.le_gt_cases (timeout - (now s - start)) 0) as [H | H]; [exact H |].
      assert (1 <= (timeout - (now s - start) + 99) / 100)
        by (apply Z.div_le_lower_bound; lia). lia. }
    replace (now s - start <? timeout) with false by (symmetry; apply Z.ltb_ge; lia).
    simpl. now rewrite advance_0_nil.
  - assert (0 < timeout - (now s - start)) as Hlt.
    { destruct (Z.le_gt_cases (timeout - (now s - start)) 0) as [H | H]; [| lia].
      assert ((timeout - (now s - start) + 99) / 100 <= 0).
      { apply Z.lt_succ_r. apply Z.div_lt_upper_bound; lia. }
      lia. }
    replace (now s - start <? timeout) with true by (symmetry; apply Z.ltb_lt; lia).
    rewrite (bind_done (poll_once_no_handle W s Hpn)).
    rewrite (IH fuel (advance 100 no_handle_events s)).
    + rewrite advance_advance. f_equal. f_equal. lia.
    + exact Hpn.
    + lia.
    + simpl now.
      replace (timeout - (now s + 100 - start) + 99)
        with ((timeout - (now s - start) + 99) + (-1) * 100) by lia.
      rewrite Z.div_add by lia. lia.
Qed.

(** What a turn of the loop can do, with or without a handle. *)
Lemma poll_once_spec W s :
  exists r dt evs s0,
    poll_once W s = (r, advance dt evs s0)
    /\ (s0 = s \/ s0 = after_poll s)
    /\ 1 <= dt
    /\ forallb is_read_event evs = true
    /\ match r with
       | Done _ => True
       | Raised e => is_Exception e = false
                     /\ exists i d, poll W i = PollRaises d e
       | Running => False
       end.
Proof.
  destruct (self_pn532 s) eqn:Hpn.
  - rewrite (poll_once_run W s Hpn).
    destruct (poll W (n_poll s)) as [d | d u | d e] eqn:Hp.
    + exists (Done None), (Z.pos d), [ReadPassiveTarget 500], (after_poll s).
      repeat split; auto; lia.
    + exists (Done (Some (bytes_hex u))), (Z.pos d), [ReadPassiveTarget 500],
        (after_poll s). repeat split; auto; lia.
    + destruct (is_Exception e) eqn:He.
      * exists (Done None), (Z.pos d + 100), (poll_events (PollRaises d e)),
          (after_poll s). repeat split; auto; lia.
      * exists (Raised e), (Z.pos d), [ReadPassiveTarget 500], (after_poll s).
        repeat split; auto; try lia. now exists (n_poll s), d.
  - rewrite (poll_once_no_handle W s Hpn).
    exists (Done None), 100, no_handle_events, s. repeat split; auto; lia.
Qed.

(** What [read_card] leaves alone, and what its results mean. *)
Lemma read_card_loop_spec W start timeout : forall fuel s r s',
  read_card_loop W fuel start timeout s = (r, s') ->
  n_http s' = n_http s
  /\ self_hw s' = self_hw s
  /\ self_pn532 s' = self_pn532 s
  /\ n_attempt s' = n_attempt s
  /\ (exists tr, trace s' = trace s ++ tr /\ forallb is_read_event tr = true)
  /\ (r = Done None -> start + timeout <= now s')
  /\ (forall e, r = Raised e ->
        is_Exception e = false /\ exists i d, poll W i = PollRaises d e)
  /\ (Z.max 0 (timeout - (now s - start)) < Z.of_nat fuel -> r <> Running).
Proof.
  induction fuel as [| fuel IH]; intros s r s' Hrun.
  - inversion Hrun; subst. repeat split; try easy.
    + exists []. now rewrite app_nil_r.
    + lia.
  - rewrite read_card_loop_S in Hrun.
    destruct (now s - start <? timeout) eqn:Hlt.
    + destruct (poll_once_spec W s) as (r1 & dt & evs & s0 & Hp & Hs0 & Hdt & Hev & Hr1).
      assert (n_http s0 = n_http s /\ self_hw s0 = self_hw s
              /\ self_pn532 s0 = self_pn532 s /\ n_attempt s0 = n_attempt s
              /\ now s0 = now s /\ trace s0 = trace s) as (F1 & F2 & F3 & F4 & F5 & F6)
        by (destruct Hs0; subst s0; repeat split; reflexivity).
      unfold bind in Hrun. rewrite Hp in Hrun.
      destruct r1 as [[card |] | e |]; try easy.
      * inversion Hrun; subst. simpl. repeat split; try easy.
        exists evs. now rewrite F6.
      * apply IH in Hrun. simpl in Hrun.
        destruct Hrun as (G1 & G2 & G3 & G4 & (tr & G5 & G6) & G7 & G8 & G9).
        split; [| split; [| split; [| split; [| split; [| split; [| split]]]]]];
          try congruence; auto.
        -- exists (evs ++ tr). rewrite G5, F6, app_assoc. split; [reflexivity |].
           rewrite forallb_app. now rewrite Hev, G6.
        -- intros Hfuel. apply G9. apply Z.ltb_lt in Hlt. lia.
      * inversion Hrun; subst. simpl.
        split; [| split; [| split; [| split; [| split; [| split; [| split]]]]]];
          try easy.
        -- exists evs. now rewrite F6.
        -- intros e' He'. inversion He'; subst. apply Hr1.
    + inversion Hrun; subst. repeat split; try easy.
      * exists []. now rewrite app_nil_r.
      * intros _. apply Z.ltb_ge in Hlt. lia.
Qed.

Lemma cost_pos o : 1 <= cost o.
Proof. destruct o; simpl; lia. Qed.

Lemma window_ge W : forall k first, Z.of_nat k <= window W first k.
Proof.
  induction k as [| k IH]; intros first; [simpl; lia |].
  change (window W first (S k)) with (cost (poll W first) + window W (S first) k).
  pose proof (cost_pos (poll W first)). pose proof (IH (S first)). lia.
Qed.

(** A poll that gives no UID: the turn ends without a result. *)
Lemma poll_once_no_uid W s :
  self_pn532 s = true ->
  gives_no_uid (poll W (n_poll s)) ->
  poll_once W s =
  (Done None,
   advance (cost (poll W (n_poll s))) (poll_events (poll W (n_poll s))) (after_poll s)).
Proof.
  intros Hpn Hno. rewrite (poll_once_run W s Hpn).
  destruct (poll W (n_poll s)) as [d | d u | d e]; simpl in *; try easy.
  now rewrite Hno.
Qed.

Lemma read_card_loop_silent W start timeout P :
  (forall i, silent P (poll W i)) ->
  forall fuel s,
    self_pn532 s = true ->
    Z.max 0 (timeout - (now s - start)) < Z.of_nat fuel ->
    exists s',
      read_card_loop W fuel start timeout s = (Done None, s')
      /\ start + timeout <= now s'
      /\ (now s' = now s \/ now s' < start + timeout + P).
Proof.
  intros Hsilent. induction fuel as [| fuel IH]; intros s Hpn Hfuel; [lia |].
  rewrite read_card_loop_S. destruct (now s - start <? timeout) eqn:Hlt.
  - apply Z.ltb_lt in Hlt. destruct (Hsilent (n_poll s)) as [Hno Hcost].
    rewrite (bind_done (poll_once_no_uid W s Hpn Hno)).
    pose proof (cost_pos (poll W (n_poll s))) as Hpos.
    destruct (IH (advance (cost (poll W (n_poll s)))
                    (poll_events (poll W (n_poll s))) (after_poll s)))
      as (s' & Hrun & Hlo & Hhi).
    + exact Hpn.
    + simpl now. lia.
    + exists s'. split; [exact Hrun | split; [exact Hlo |]].
      right. simpl now in Hhi. lia.
  - apply Z.ltb_ge in Hlt. exists s. split; [reflexivity | split; [lia | now left]].
Qed.

Lemma read_card_loop_uid W start timeout d u : forall k fuel s,
  self_pn532 s = true ->
  (forall i, (i < k)%nat -> gives_no_uid (poll W (n_poll s + i))) ->
  poll W (n_poll s + k) = PollUid d u ->
  now s - start + window W (n_poll s) k < timeout ->
  (k < fuel)%nat ->
  exists s',
    read_card_loop W fuel start timeout s = (Done (Some (bytes_hex u)), s')
    /\ now s' = now s + window W (n_poll s) k + Z.pos d.
Proof.
  induction k as [| k IH]; intros fuel s Hpn Hno Hu Hwin Hfuel;
    (destruct fuel as [| fuel]; [lia |]); rewrite read_card_loop_S.
  - simpl in Hwin. rewrite Nat.add_0_r in Hu.
    replace (now s - start <? timeout) with true by (symmetry; apply Z.ltb_lt; lia).
    pose proof (poll_once_run W s Hpn) as Hp. rewrite Hu in Hp.
    rewrite (bind_done Hp). eexists. split; [reflexivity |]. simpl. lia.
  - change (window W (n_poll s) (S k))
      with (cost (poll W (n_poll s)) + window W (S (n_poll s)) k) in *.
    pose proof (cost_pos (poll W (n_poll s))) as Hpos.
    pose proof (window_ge W k (S (n_poll s))) as Hge.
    replace (now s - start <? timeout) with true by (symmetry; apply Z.ltb_lt; lia).
    assert (gives_no_uid (poll W (n_poll s))) as H0.
    { specialize (Hno 0%nat). rewrite Nat.add_0_r in Hno. apply Hno. lia. }
    rewrite (bind_done (poll_once_no_uid W s Hpn H0)).
    destruct (IH fuel (advance (cost (poll W (n_poll s)))
                         (poll_events (poll W (n_poll s))) (after_poll s)))
      as (s' & Hrun & Hnow).
    + exact Hpn.
    + intros i Hi. replace (n_poll (advance (cost (poll W (n_poll s)))
                              (poll_events (poll W (n_poll s))) (after_poll s)) + i)%nat
        with (n_poll s + S i)%nat by (simpl; lia). apply Hno. lia.
    + replace (n_poll (advance (cost (poll W (n_poll s)))
                 (poll_events (poll W (n_poll s))) (after_poll s)) + k)%nat
        with (n_poll s + S k)%nat by (simpl; lia). exact Hu.
    + simpl now. simpl n_poll. lia.
    + lia.
    + exists s'. split; [exact Hrun |]. rewrite Hnow. simpl now. simpl n_poll. lia.
Qed.

Lemma HardwareController_run p s :
  HardwareController p s = (Done p, advance 0 (setup_events p) s).
Proof.
  unfold HardwareController, Gpio.setup, Gpio.output.
  repeat rewrite (bind_done (emit_run _ _)). unfold ret.
  rewrite !advance_advance. reflexivity.
Qed.

(** C7.  For every timeout [timeout >= 0], [read_card] run with a handle
    against a peripheral that never produces a UID, each turn of the poll
    loop taking at most one poll interval [P], returns [None], no earlier
    than [timeout] after the call and no later than [timeout + P]. *)
Theorem C7_read_card_timeout_window W P timeout s :
  self_pn532 s = true ->
  0 <= timeout ->
  (forall i, silent P (poll W i)) ->
  exists s',
    read_card W timeout s = (Done None, s')
    /\ now s + timeout <= now s'
    /\ now s' <= now s + timeout + P.
Proof.
  intros Hpn HT Hsilent.
  destruct (read_card_loop_silent W (now s) timeout P Hsilent
              (S (Z.to_nat timeout)) s Hpn ltac:(lia)) as (s' & Hrun & Hlo & Hhi).
  exists s'. split; [exact Hrun | split; [exact Hlo |]].
  destruct (Hsilent 0%nat) as [_ Hc]. pose proof (cost_pos (poll W 0)). lia.
Qed.

(** C7 at a reader that finds nothing every half second, for one second. *)
Lemma C7_witness :
  exists s', read_card quiet_reader 1000 ready = (Done None, s')
             /\ now ready + 1000 <= now s' /\ now s' <= now ready + 1000 + 500.
Proof.
  apply (C7_read_card_timeout_window quiet_reader 500 1000 ready).
  - reflexivity.
  - lia.
  - intros i. split; simpl; [exact I | lia].
Defined.

(** C8.  When the peripheral raises only errors ([Exception]s), [read_card]
    always returns: no error propagates out of it, and it returns [None] only
    once the whole window has elapsed.  In particular, if some polls raise or
    find nothing and a later poll that starts within the window returns a
    UID, [read_card] returns that UID in hexadecimal. *)
Theorem C8_read_card_absorbs_errors W timeout s :
  (forall i, raises_errors_only (poll W i)) ->
  (exists r s', read_card W timeout s = (Done r, s')
                /\ (r = None -> now s + timeout <= now s'))
  /\ (forall k d u,
        self_pn532 s = true ->
        (forall i, (i < k)%nat -> gives_no_uid (poll W (n_poll s + i))) ->
        poll W (n_poll s + k) = PollUid d u ->
        window W (n_poll s) k < timeout ->
        exists s', read_card W timeout s = (Done (Some (bytes_hex u)), s')).
Proof.
  intros Herr. split.
  - destruct (read_card W timeout s) as [r s'] eqn:Hrun.
    pose proof Hrun as Hspec. unfold read_card in Hspec.
    apply read_card_loop_spec in Hspec.
    destruct Hspec as (_ & _ & _ & _ & _ & Hnone & Hraised & Htotal).
    destruct r as [r | e |].
    + exists r, s'. split; [reflexivity |]. intros ->. now apply Hnone.
    + destruct (Hraised e eq_refl) as (He & i & d & Hp).
      specialize (Herr i). rewrite Hp in Herr. simpl in Herr. congruence.
    + exfalso. apply Htotal; [lia | reflexivity].
  - intros k d u Hpn Hno Hu Hwin.
    pose proof (window_ge W k (n_poll s)) as Hge.
    destruct (read_card_loop_uid W (now s) timeout d u k (S (Z.to_nat timeout)) s
                Hpn Hno Hu ltac:(lia) ltac:(lia)) as (s' & Hrun & _).
    exists s'. exact Hrun.
Qed.

(** C8 at a reader whose first poll raises and whose second reads a card. *)
Lemma C8_witness :
  exists s', read_card hiccup_reader 1000 ready = (Done (Some "04a3b2c1"), s').
Proof.
  assert (forall i, raises_errors_only (poll hiccup_reader i)) as Herr
    by (intros [| [| i]]; simpl; auto).
  apply (proj2 (C8_read_card_absorbs_errors hiccup_reader 1000 ready Herr)
           1%nat 30%positive card_04a3b2c1).
  - reflexivity.
  - intros i Hi. assert (i = 0%nat) as -> by lia. reflexivity.
  - reflexivity.
  - simpl. lia.
Defined.

(** C10.  Constructed with [retry_count = 0], the handler makes no bring-up
    attempt, raises nothing and never assigns [self.pn532]; from then on every
    turn of [read_card] is the error branch of the missing attribute (the
    peripheral is never polled), and the call returns [None] only after
    [timeout] has elapsed, a tenth of a second at a time. *)
Theorem C10_zero_retries_unusable_reader W p mode :
  (forall s,
     PN532Handler W p mode 0 s = (Done (mkHandler mode 0), constructed p s))
  /\ (forall s timeout,
        self_pn532 s = false ->
        let k := Z.to_nat ((timeout + 99) / 100) in
        read_card W timeout s
        = (Done None, advance (100 * Z.of_nat k) (no_handle_turns k) s)
        /\ timeout <= 100 * Z.of_nat k).
Proof.
  split.
  - intros s. unfold PN532Handler.
    rewrite (bind_done (HardwareController_run p s)).
    destruct s as [t tr a q h hw pn].
    unfold bind, set_hw, _initialize_pn532, advance, constructed, ret; simpl.
    now rewrite Z.add_0_r.
  - intros s timeout Hpn k. split.
    + unfold read_card, bind, time_time.
      apply read_card_loop_no_handle; [exact Hpn | |].
      * subst k. enough ((timeout + 99) / 100 <= timeout \/ timeout <= 0) by
          (destruct H; [lia |];
           assert ((timeout + 99) / 100 <= 0)
             by (apply Z.lt_succ_r, Z.div_lt_upper_bound; lia); lia).
        destruct (Z.le_gt_cases timeout 0); [now right | left].
        apply Z.lt_succ_r, Z.div_lt_upper_bound; lia.
      * subst k. f_equal. f_equal. lia.
    + subst k. destruct (Z.le_gt_cases timeout 0) as [H | H]; [lia |].
      rewrite Z2Nat.id by (apply Z.div_pos; lia).
      pose proof (Z.mul_succ_div_gt (timeout + 99) 100 ltac:(lia)). lia.
Qed.

(** C10 at a freshly constructed handler, for a timeout of one second. *)
Lemma C10_witness :
  read_card quiet_reader 1000 (constructed RfidModuleHw.default_pins boot)
  = (Done None,
     advance 1000 (no_handle_turns 10) (constructed RfidModuleHw.default_pins boot)).
Proof.
  apply (proj2 (C10_zero_retries_unusable_reader quiet_reader RfidModuleHw.default_pins 0)
           (constructed RfidModuleHw.default_pins boot) 1000).
  reflexivity.
Defined.

Ltac close_state :=
  unfold advance; simpl; rewrite <- ?app_assoc; simpl; rewrite ?Z.add_0_r;
  first [reflexivity | do 2 f_equal; lia].

Lemma verify_cycle_card W s card s1 p :
  read_card W 1000 s = (Done (Some card), s1) ->
  self_hw s1 = Some p ->
  RfidModule.verify_cycle W s =
  (verdict_result (judge (http W (n_http s1))),
   advance (verdict_time (judge (http W (n_http s1))))
     (HttpGet (entry_url card) REQUEST_TIMEOUT
      :: verdict_events p card (judge (http W (n_http s1))))
     (after_http W s1)).
Proof.
  intros Hread Hhw. unfold RfidModule.verify_cycle.
  rewrite (bind_done Hread).
  destruct s1 as [t tr a q h hw pn]. simpl in Hhw. subst hw. simpl n_http.
  unfold judge, entry_url, RfidModule.access_granted.
  cbv beta iota zeta delta [try_except bind requests_get next_http emit print
    response_json json_get ret raise dispatch get_hw time_sleep Z.ltb Z.compare
    elapse fst snd
    RfidModuleHw.indicate_success RfidModuleHw.indicate_failure for_range
    _beep _blink_led Gpio.output Gpio.HIGH Gpio.LOW
    now trace n_attempt n_poll n_http self_hw self_pn532].
  destruct (http W h) as [status b | e]; simpl.
  - destruct (status =? 200); simpl.
    + destruct b as [j | e]; simpl.
      * destruct j as [| b | n | st | l | kv]; simpl; try close_state.
        destruct (dict_get "allowed" kv) as [v |]; simpl;
          [destruct (truthy v) |]; simpl; close_state.
      * destruct (is_RequestException e); simpl; close_state.
    + close_state.
  - destruct (is_RequestException e); simpl; close_state.
Qed.

Lemma ord_run_app ph a b :
  ord_run ph (a ++ b) =
  match ord_run ph a with
  | Some ph' => ord_run ph' b
  | None => None
  end.
Proof.
  revert ph. induction a as [| e a IH]; intros ph; simpl; [reflexivity |].
  destruct (ord_step ph e); [apply IH | reflexivity].
Qed.

Lemma ord_run_reads tr :
  forallb is_read_event tr = true -> ord_run Reading tr = Some Reading.
Proof.
  induction tr as [| e tr IH]; simpl; [reflexivity |].
  intros H. apply andb_prop in H. destruct H as [He Htr].
  destruct e; simpl in *; try discriminate; auto.
Qed.

Lemma signals_app a b : signals (a ++ b) = signals a ++ signals b.
Proof. unfold signals. apply flat_map_app. Qed.

Lemma signals_reads tr : forallb is_read_event tr = true -> signals tr = [].
Proof.
  induction tr as [| e tr IH]; simpl; [reflexivity |].
  intros H. apply andb_prop in H. destruct H as [He Htr].
  destruct e; simpl in *; try discriminate; auto.
Qed.

Lemma well_ordered_settled tr : settled (ord_run Reading tr) -> well_ordered tr = true.
Proof. unfold well_ordered. intros [-> | ->]; reflexivity. Qed.

Lemma settled_print tr m :
  settled (ord_run Reading tr) -> settled (ord_run Reading (tr ++ [Print m])).
Proof. rewrite ord_run_app. intros [-> | ->]; [left | right]; reflexivity. Qed.

Lemma read_card_spec W timeout s r s' :
  read_card W timeout s = (r, s') ->
  n_http s' = n_http s
  /\ self_hw s' = self_hw s
  /\ self_pn532 s' = self_pn532 s
  /\ n_attempt s' = n_attempt s
  /\ (exists tr, trace s' = trace s ++ tr /\ forallb is_read_event tr = true)
  /\ (r = Done None -> now s + timeout <= now s')
  /\ (forall e, r = Raised e ->
        is_Exception e = false /\ exists i d, poll W i = PollRaises d e)
  /\ r <> Running.
Proof.
  intros Hrun. unfold read_card in Hrun.
  apply read_card_loop_spec in Hrun.
  destruct Hrun as (H1 & H2 & H3 & H4 & H5 & H6 & H7 & H8).
  split; [| split; [| split; [| split; [| split; [| split; [| split]]]]]]; auto.
  apply H8. lia.
Qed.

(** A turn of the verification loop keeps the order: a finished turn ends
    with no signal pending and none allowed before the next remote call. *)
Lemma verify_cycle_ord W p s r s' :
  self_hw s = Some p ->
  RfidModule.verify_cycle W s = (r, s') ->
  self_hw s' = Some p
  /\ exists tr, trace s' = trace s ++ tr
     /\ match r with
        | Raised _ => settled (ord_run Reading tr)
        | _ => ord_run Reading tr = Some Reading
        end.
Proof.
  intros Hhw Hrun.
  destruct (read_card W 1000 s) as [rr s1] eqn:Hread.
  pose proof (read_card_spec _ _ _ _ _ Hread)
    as (F1 & F2 & _ & _ & (reads & Htr & Hreads) & _ & _ & Hnr).
  rewrite Hhw in F2.
  destruct rr as [[card |] | e |]; [| | | easy].
  - rewrite (verify_cycle_card W s card s1 p Hread F2) in Hrun.
    inversion Hrun; subst r s'. clear Hrun. split; [exact F2 |].
    eexists. split; [simpl trace; rewrite Htr, <- app_assoc; reflexivity |].
    rewrite ord_run_app, (ord_run_reads _ Hreads).
    destruct (judge (http W (n_http s1))); simpl; auto.
    right; reflexivity.
  - unfold RfidModule.verify_cycle in Hrun. rewrite (bind_done Hread) in Hrun.
    inversion Hrun; subst r s'. split; [exact F2 |].
    exists reads. split; [exact Htr | now apply ord_run_reads].
  - unfold RfidModule.verify_cycle in Hrun. rewrite (bind_raised Hread) in Hrun.
    inversion Hrun; subst r s'. split; [exact F2 |].
    exists reads. split; [exact Htr | left; now apply ord_run_reads].
Qed.

Lemma verify_loop_ord W p : forall cycles s,
  self_hw s = Some p ->
  self_hw (snd (RfidModule.verify_loop W cycles s)) = Some p
  /\ exists tr, trace (snd (RfidModule.verify_loop W cycles s)) = trace s ++ tr
     /\ settled (ord_run Reading tr).
Proof.
  induction cycles as [| cycles IH]; intros s Hhw.
  - simpl. split; [exact Hhw |]. exists []. rewrite app_nil_r. split; [reflexivity | now left].
  - simpl RfidModule.verify_loop. unfold bind.
    destruct (RfidModule.verify_cycle W s) as [r s1] eqn:Hc.
    destruct (verify_cycle_ord W p s r s1 Hhw Hc) as (Hhw1 & tr1 & Htr1 & Hord1).
    destruct r as [[] | e |]; simpl.
    + destruct (IH s1 Hhw1) as (Hhw2 & tr2 & Htr2 & Hord2).
      split; [exact Hhw2 |]. exists (tr1 ++ tr2).
      rewrite Htr2, Htr1, app_assoc. split; [reflexivity |].
      now rewrite ord_run_app, Hord1.
    + split; [exact Hhw1 |]. now exists tr1.
    + split; [exact Hhw1 |]. exists tr1. split; [exact Htr1 | now left].
Qed.

Lemma check_card_access_ord W self p cycles s :
  self_hw s = Some p ->
  exists tr,
    trace (snd (RfidModule.check_card_access W self cycles s)) = trace s ++ tr
    /\ settled (ord_run Reading tr).
Proof.
  intros Hhw. unfold RfidModule.check_card_access.
  destruct (negb (device_mode self =? READER_MODE)).
  - exists []. simpl. rewrite app_nil_r. split; [reflexivity | now left].
  - unfold print at 1. rewrite (bind_done (emit_run _ _)).
    set (s0 := advance 0 [Print LogVerifyStart] s).
    destruct (verify_loop_ord W p cycles s0 Hhw) as (_ & tr & Htr & Hord).
    unfold try_except.
    destruct (RfidModule.verify_loop W cycles s0) as [[[] | e |] s1]; simpl in *.
    + exists (Print LogVerifyStart :: tr). rewrite Htr, <- app_assoc.
      split; [reflexivity | exact Hord].
    + destruct (is_KeyboardInterrupt e); [| destruct (is_Exception e)]; simpl.
      * exists (Print LogVerifyStart :: tr ++ [Print LogVerifyStopped]).
        rewrite Htr, <- !app_assoc. split; [reflexivity |].
        apply (settled_print tr). exact Hord.
      * exists (Print LogVerifyStart :: tr ++ [Print (LogVerifyError (str e))]).
        rewrite Htr, <- !app_assoc. split; [reflexivity |].
        apply (settled_print tr). exact Hord.
      * exists (Print LogVerifyStart :: tr). rewrite Htr, <- app_assoc.
        split; [reflexivity | exact Hord].
    + exists (Print LogVerifyStart :: tr). rewrite Htr, <- app_assoc.
      split; [reflexivity | exact Hord].
Qed.

(** What a turn of the enrollment loop does once a card is read. *)
Lemma enroll_cycle_card W s card s1 p :
  read_card W 10000 s = (Done (Some card), s1) ->
  self_hw s1 = Some p ->
  RfidModuleEnroll.enroll_cycle W s =
  match http W (n_http s1) with
  | HttpResponse status _ =>
      (Done tt,
       advance 5000
         ([Print (LogCardRead card); HttpPost (temporary_user_url card) None None;
           Print (LogResponse status)]
          ++ enroll_success_events p
          ++ [Print (LogEnrolled card); Sleep 3000])
         (after_http W s1))
  | HttpRaises e =>
      (Raised e,
       advance 0
         [Print (LogCardRead card); HttpPost (temporary_user_url card) None None]
         (after_http W s1))
  end.
Proof.
  intros Hread Hhw. unfold RfidModuleEnroll.enroll_cycle.
  rewrite (bind_done Hread).
  destruct s1 as [t tr a q h hw pn]. simpl in Hhw. subst hw. simpl n_http.
  unfold temporary_user_url.
  cbv beta iota zeta delta [try_except bind requests_post next_http emit print
    ret raise dispatch get_hw time_sleep Z.ltb Z.compare elapse fst snd
    RfidModuleEnrollHw.indicate_success RfidModuleEnrollHw.indicate_failure for_range
    _beep _blink_led Gpio.output Gpio.HIGH Gpio.LOW
    now trace n_attempt n_poll n_http self_hw self_pn532].
  destruct (http W h) as [status b | e]; simpl; close_state.
Qed.

Lemma enroll_cycle_ord W p s r s' :
  self_hw s = Some p ->
  RfidModuleEnroll.enroll_cycle W s = (r, s') ->
  self_hw s' = Some p
  /\ exists tr, trace s' = trace s ++ tr
     /\ match r with
        | Raised e => settled (ord_run Reading tr)
                      /\ (is_Exception e = true -> ord_run Reading tr = Some Called)
        | _ => ord_run Reading tr = Some Reading
        end.
Proof.
  intros Hhw Hrun.
  destruct (read_card W 10000 s) as [rr s1] eqn:Hread.
  pose proof (read_card_spec _ _ _ _ _ Hread)
    as (F1 & F2 & _ & _ & (reads & Htr & Hreads) & _ & Hraised & Hnr).
  rewrite Hhw in F2.
  destruct rr as [[card |] | e |]; [| | | easy].
  - rewrite (enroll_cycle_card W s card s1 p Hread F2) in Hrun.
    destruct (http W (n_http s1)) as [status b | e];
      inversion Hrun; subst r s'; clear Hrun; (split; [exact F2 |]);
      (eexists; split; [simpl trace; rewrite Htr, <- app_assoc; reflexivity |]);
      rewrite ord_run_app, (ord_run_reads _ Hreads); simpl; auto.
    split; [now right | reflexivity].
  - unfold RfidModuleEnroll.enroll_cycle in Hrun. rewrite (bind_done Hread) in Hrun.
    rewrite (time_sleep_run 500 _ ltac:(lia)) in Hrun.
    inversion Hrun; subst r s'. split; [exact F2 |].
    exists (reads ++ [Sleep 500]). simpl trace. rewrite Htr, <- app_assoc.
    split; [reflexivity |]. now rewrite ord_run_app, (ord_run_reads _ Hreads).
  - unfold RfidModuleEnroll.enroll_cycle in Hrun. rewrite (bind_raised Hread) in Hrun.
    inversion Hrun; subst r s'. split; [exact F2 |].
    exists reads. split; [exact Htr |]. split; [left; now apply ord_run_reads |].
    destruct (Hraised e eq_refl) as [He _]. congruence.
Qed.

Lemma enroll_loop_ord W p : forall cycles s,
  self_hw s = Some p ->
  self_hw (snd (RfidModuleEnroll.enroll_loop W cycles s)) = Some p
  /\ exists tr,
       trace (snd (RfidModuleEnroll.enroll_loop W cycles s)) = trace s ++ tr
       /\ settled (ord_run Reading tr)
       /\ (forall e, fst (RfidModuleEnroll.enroll_loop W cycles s) = Raised e ->
             is_Exception e = true -> ord_run Reading tr = Some Called).
Proof.
  induction cycles as [| cycles IH]; intros s Hhw.
  - simpl. split; [exact Hhw |]. exists []. rewrite app_nil_r.
    split; [reflexivity | split; [now left | discriminate]].
  - simpl RfidModuleEnroll.enroll_loop. unfold bind.
    destruct (RfidModuleEnroll.enroll_cycle W s) as [r s1] eqn:Hc.
    destruct (enroll_cycle_ord W p s r s1 Hhw Hc) as (Hhw1 & tr1 & Htr1 & Hord1).
    destruct r as [[] | e |]; simpl.
    + destruct (IH s1 Hhw1) as (Hhw2 & tr2 & Htr2 & Hord2 & Hexc).
      split; [exact Hhw2 |]. exists (tr1 ++ tr2).
      rewrite Htr2, Htr1, app_assoc. split; [reflexivity |].
      rewrite ord_run_app, Hord1. split; [exact Hord2 | exact Hexc].
    + split; [exact Hhw1 |]. exists tr1. destruct Hord1 as [Hs Hc1].
      split; [exact Htr1 | split; [exact Hs |]].
      intros e' He'. inversion He'; subst. exact Hc1.
    + split; [exact Hhw1 |]. exists tr1.
      split; [exact Htr1 | split; [now left | discriminate]].
Qed.

Lemma enroll_indicate_failure_run p s :
  RfidModuleEnrollHw.indicate_failure p s
  = (Done tt, advance 2200 (enroll_failure_events p) s).
Proof.
  destruct s as [t tr a q h hw pn]. unfold RfidModuleEnrollHw.indicate_failure.
  cbv beta iota zeta delta [bind emit ret time_sleep Z.ltb Z.compare elapse for_range
    _blink_led Gpio.output Gpio.HIGH Gpio.LOW
    now trace n_attempt n_poll n_http self_hw self_pn532].
  close_state.
Qed.

Lemma enroll_indicate_success_run p s :
  RfidModuleEnrollHw.indicate_success p s
  = (Done tt, advance 2000 (enroll_success_events p) s).
Proof.
  destruct s as [t tr a q h hw pn]. unfold RfidModuleEnrollHw.indicate_success.
  cbv beta iota zeta delta [bind emit ret time_sleep Z.ltb Z.compare elapse for_range
    _blink_led Gpio.output Gpio.HIGH Gpio.LOW
    now trace n_attempt n_poll n_http self_hw self_pn532].
  close_state.
Qed.

Lemma get_hw_run s p : self_hw s = Some p -> get_hw s = (Done p, s).
Proof. intros H. unfold get_hw. now rewrite H. Qed.

Lemma start_enrollment_server_ord W self p port cycles s :
  self_hw s = Some p ->
  exists tr,
    trace (snd (RfidModuleEnroll.start_enrollment_server W self port cycles s))
    = trace s ++ tr
    /\ settled (ord_run Reading tr).
Proof.
  intros Hhw. unfold RfidModuleEnroll.start_enrollment_server.
  destruct (negb (device_mode self =? ENROLLER_MODE)).
  - exists []. simpl. rewrite app_nil_r. split; [reflexivity | now left].
  - unfold print at 1. rewrite (bind_done (emit_run _ _)).
    rewrite (bind_done (emit_run _ _)). rewrite advance_advance.
    set (s0 := advance (0 + 0) ([Print LogEnrollStart] ++ [FlaskStart port true]) s).
    destruct (enroll_loop_ord W p cycles s0 Hhw) as (Hhw1 & tr & Htr & Hord & Hexc).
    unfold try_finally, try_except.
    destruct (RfidModuleEnroll.enroll_loop W cycles s0) as [[[] | e |] s1];
      simpl in Hhw1, Htr, Hexc; simpl dispatch.
    + exists ([Print LogEnrollStart; FlaskStart port true] ++ tr ++ [GpioCleanup]).
      simpl. rewrite Htr, <- !app_assoc. split; [reflexivity |].
      change (settled (ord_run Reading (tr ++ [GpioCleanup]))).
      rewrite ord_run_app. destruct Hord as [-> | ->]; [left | right]; reflexivity.
    + destruct (is_KeyboardInterrupt e) eqn:Hk; [| destruct (is_Exception e) eqn:He].
      * exists ([Print LogEnrollStart; FlaskStart port true]
                ++ tr ++ [Print LogProgramStopped; GpioCleanup]).
        simpl. rewrite Htr, <- !app_assoc. split; [reflexivity |].
        change (settled (ord_run Reading (tr ++ [Print LogProgramStopped; GpioCleanup]))).
        rewrite ord_run_app. destruct Hord as [-> | ->]; [left | right]; reflexivity.
      * rewrite (bind_done (get_hw_run s1 p Hhw1)).
        rewrite enroll_indicate_failure_run.
        exists ([Print LogEnrollStart; FlaskStart port true]
                ++ tr ++ enroll_failure_events p ++ [GpioCleanup]).
        simpl. rewrite Htr, <- !app_assoc. split; [reflexivity |].
        change (settled (ord_run Reading
                           (tr ++ enroll_failure_events p ++ [GpioCleanup]))).
        rewrite ord_run_app, (Hexc e eq_refl He). now left.
      * exists ([Print LogEnrollStart; FlaskStart port true] ++ tr ++ [GpioCleanup]).
        simpl. rewrite Htr, <- !app_assoc. split; [reflexivity |].
        change (settled (ord_run Reading (tr ++ [GpioCleanup]))).
        rewrite ord_run_app. destruct Hord as [-> | ->]; [left | right]; reflexivity.
    + exists ([Print LogEnrollStart; FlaskStart port true] ++ tr).
      simpl. rewrite Htr, <- !app_assoc. split; [reflexivity | exact Hord].
Qed.

(** C1, as amended.  In the verification loop a card event leads to at most
    one signal, and which one depends on the remote outcome as follows.  A
    200 whose body is a JSON object: Success if its member [allowed] is
    truthy, Failure if it is falsy or missing.  A status other than 200:
    Failure.  A [RequestException], from the call or from decoding the body
    of a 200: Failure.  In all these cases the turn ends normally with
    exactly that one signal.  Any other exception of the call or of the
    decoding, and a 200 whose body is JSON but not an object: no signal at
    all, and the exception leaves the turn. *)
Theorem C1_one_signal_per_card_event W s card s1 p :
  read_card W 1000 s = (Done (Some card), s1) ->
  self_hw s = Some p ->
  exists s2 tr,
    trace s2 = trace s ++ tr
    /\ match http W (n_http s) with
       | HttpResponse status b =>
           if status =? 200 then
             match b with
             | BodyJson (JObj kv) =>
                 RfidModule.verify_cycle W s = (Done tt, s2)
                 /\ signals tr
                    = [match dict_get "allowed" kv with
                       | Some v => if truthy v then Success else Failure
                       | None => Failure
                       end]
             | BodyJson j =>
                 RfidModule.verify_cycle W s = (Raised (no_get j), s2)
                 /\ signals tr = []
             | BodyRaises e =>
                 if is_RequestException e
                 then RfidModule.verify_cycle W s = (Done tt, s2)
                      /\ signals tr = [Failure]
                 else RfidModule.verify_cycle W s = (Raised e, s2)
                      /\ signals tr = []
             end
           else RfidModule.verify_cycle W s = (Done tt, s2)
                /\ signals tr = [Failure]
       | HttpRaises e =>
           if is_RequestException e
           then RfidModule.verify_cycle W s = (Done tt, s2)
                /\ signals tr = [Failure]
           else RfidModule.verify_cycle W s = (Raised e, s2)
                /\ signals tr = []
       end.
Proof.
  intros Hread Hhw.
  pose proof (read_card_spec _ _ _ _ _ Hread)
    as (F1 & F2 & _ & _ & (reads & Htr & Hreads) & _).
  rewrite Hhw in F2. rewrite <- F1.
  pose proof (verify_cycle_card W s card s1 p Hread F2) as Hrun.
  rewrite Hrun.
  exists (advance (verdict_time (judge (http W (n_http s1))))
            (HttpGet (entry_url card) REQUEST_TIMEOUT
             :: verdict_events p card (judge (http W (n_http s1))))
            (after_http W s1)),
    (reads ++ HttpGet (entry_url card) REQUEST_TIMEOUT
           :: verdict_events p card (judge (http W (n_http s1)))).
  split.
  { simpl trace. rewrite Htr, <- app_assoc. reflexivity. }
  rewrite signals_app, (signals_reads _ Hreads). unfold judge.
  destruct (http W (n_http s1)) as [status b | e].
  - destruct (status =? 200); [| split; reflexivity].
    destruct b as [j | e].
    + destruct j as [| b | n | st | l | kv]; try (split; reflexivity).
      destruct (dict_get "allowed" kv) as [v |]; [destruct (truthy v) |];
        split; reflexivity.
    + destruct (is_RequestException e); split; reflexivity.
  - destruct (is_RequestException e); split; reflexivity.
Qed.

(** C1, as amended, at a card that the remote service allows. *)
Lemma C1_witness :
  exists s2 tr,
    trace s2 = trace ready ++ tr
    /\ RfidModule.verify_cycle granting_server ready = (Done tt, s2)
    /\ signals tr = [Success].
Proof.
  apply (C1_one_signal_per_card_event granting_server ready "04a3b2c1"
           (snd (read_card granting_server 1000 ready))
           RfidModuleHw.default_pins).
  - vm_compute. reflexivity.
  - reflexivity.
Defined.

(** C1 as first stated fails: a card is read and the remote service answers
    200 with a JSON list; the turn fires no signal at all, neither Success
    nor Failure, and ends with the exception of the missing method. *)
Lemma C1_counterexample :
  fst (read_card garbled_server 1000 ready) = Done (Some "04a3b2c1")
  /\ http garbled_server (n_http ready) = HttpResponse 200 (BodyJson (JArr []))
  /\ fst (RfidModule.verify_cycle garbled_server ready) = Raised (no_get (JArr []))
  /\ signals (trace (snd (RfidModule.verify_cycle garbled_server ready))) = [].
Proof. repeat split; vm_compute; reflexivity. Qed.

(** C9.  In a run of either mode loop, whatever the peripheral and the remote
    service do, a signal begins only after the remote call of that card event
    has returned or raised, and no poll of the reader (nor any remote call or
    other signal) happens before the signal is over. *)
Theorem C9_signal_after_outcome_before_next_read W self p port cycles s :
  self_hw s = Some p ->
  (exists tr,
     trace (snd (RfidModule.check_card_access W self cycles s)) = trace s ++ tr
     /\ well_ordered tr = true)
  /\ (exists tr,
        trace (snd (RfidModuleEnroll.start_enrollment_server W self port cycles s))
        = trace s ++ tr
        /\ well_ordered tr = true).
Proof.
  intros Hhw. split.
  - destruct (check_card_access_ord W self p cycles s Hhw) as (tr & Htr & Hord).
    exists tr. split; [exact Htr | now apply well_ordered_settled].
  - destruct (start_enrollment_server_ord W self p port cycles s Hhw)
      as (tr & Htr & Hord).
    exists tr. split; [exact Htr | now apply well_ordered_settled].
Qed.

(** C9 at two turns of the verification loop with a card that is allowed,
    and at the enrollment loop with the remote service unreachable. *)
Lemma C9_witness :
  (exists tr,
     trace (snd (RfidModule.check_card_access granting_server reader 2 ready))
     = trace ready ++ tr
     /\ well_ordered tr = true)
  /\ (exists tr,
        trace (snd (RfidModuleEnroll.start_enrollment_server offline_server enroller
                      5000 2 ready_enroll))
        = trace ready_enroll ++ tr
        /\ well_ordered tr = true).
Proof.
  split.
  - apply (proj1 (C9_signal_after_outcome_before_next_read granting_server reader
                    RfidModuleHw.default_pins 5000 2 ready eq_refl)).
  - apply (proj2 (C9_signal_after_outcome_before_next_read offline_server enroller
                    RfidModuleEnrollHw.default_pins 5000 2 ready_enroll eq_refl)).
Defined.

Example signal_before_remote_outcome_rejected :
  well_ordered
    ([ReadPassiveTarget 500] ++ success_events RfidModuleHw.default_pins
     ++ [HttpGet (entry_url "04a3b2c1") REQUEST_TIMEOUT]) = false.
Proof. reflexivity. Qed.

Example poll_during_signal_rejected :
  well_ordered
    [ReadPassiveTarget 500; HttpGet (entry_url "04a3b2c1") REQUEST_TIMEOUT;
     Enter Failure; ReadPassiveTarget 500; Leave Failure] = false.
Proof. reflexivity. Qed.

Example two_card_events_accepted :
  well_ordered
    (trace (snd (RfidModule.check_card_access granting_server reader 2 ready)))
  = true.
Proof. vm_compute. reflexivity. Qed.

Lemma Exception_not_interrupt e :
  is_Exception e = true -> is_KeyboardInterrupt e = false.
Proof. unfold is_Exception, is_KeyboardInterrupt. now destruct (cls e). Qed.



(** A turn of a loop comes to an end. *)
Lemma verify_cycle_returns W p s :
  self_hw s = Some p -> fst (RfidModule.verify_cycle W s) <> Running.
Proof.
  intros Hhw.
  destruct (read_card W 1000 s) as [rr s1] eqn:Hread.
  pose proof (read_card_spec _ _ _ _ _ Hread) as (_ & F2 & _ & _ & _ & _ & _ & Hnr).
  rewrite Hhw in F2.
  destruct rr as [[card |] | e |]; [| | | easy].
  - rewrite (verify_cycle_card W s card s1 p Hread F2).
    destruct (judge (http W (n_http s1))); discriminate.
  - unfold RfidModule.verify_cycle. rewrite (bind_done Hread). discriminate.
  - unfold RfidModule.verify_cycle. rewrite (bind_raised Hread). discriminate.
Qed.

Lemma enroll_cycle_returns W p s :
  self_hw s = Some p -> fst (RfidModuleEnroll.enroll_cycle W s) <> Running.
Proof.
  intros Hhw.
  destruct (read_card W 10000 s) as [rr s1] eqn:Hread.
  pose proof (read_card_spec _ _ _ _ _ Hread) as (_ & F2 & _ & _ & _ & _ & _ & Hnr).
  rewrite Hhw in F2.
  destruct rr as [[card |] | e |]; [| | | easy].
  - rewrite (enroll_cycle_card W s card s1 p Hread F2).
    destruct (http W (n_http s1)); discriminate.
  - unfold RfidModuleEnroll.enroll_cycle. rewrite (bind_done Hread).
    rewrite (time_sleep_run 500 _ ltac:(lia)). discriminate.
  - unfold RfidModuleEnroll.enroll_cycle. rewrite (bind_raised Hread). discriminate.
Qed.

(** The loops, a number of turns at a time. *)
Lemma verify_loop_app W p m : forall k s sk,
  self_hw s = Some p ->
  RfidModule.verify_loop W k s = (Running, sk) ->
  RfidModule.verify_loop W (k + m) s = RfidModule.verify_loop W m sk.
Proof.
  induction k as [| k IH]; intros s sk Hhw H.
  - inversion H; subst. reflexivity.
  - pose proof (verify_cycle_returns W p s Hhw) as Hnr.
    simpl in H |- *. unfold bind in H |- *.
    destruct (RfidModule.verify_cycle W s) as [[[] | e |] s'] eqn:Hc;
      [| discriminate | now elim Hnr].
    destruct (verify_cycle_ord W p s _ s' Hhw Hc) as (Hhw' & _).
    now apply IH.
Qed.

Lemma enroll_loop_app W p m : forall k s sk,
  self_hw s = Some p ->
  RfidModuleEnroll.enroll_loop W k s = (Running, sk) ->
  RfidModuleEnroll.enroll_loop W (k + m) s = RfidModuleEnroll.enroll_loop W m sk.
Proof.
  induction k as [| k IH]; intros s sk Hhw H.
  - inversion H; subst. reflexivity.
  - pose proof (enroll_cycle_returns W p s Hhw) as Hnr.
    simpl in H |- *. unfold bind in H |- *.
    destruct (RfidModuleEnroll.enroll_cycle W s) as [[[] | e |] s'] eqn:Hc;
      [| discriminate | now elim Hnr].
    destruct (enroll_cycle_ord W p s _ s' Hhw Hc) as (Hhw' & _).
    now apply IH.
Qed.

Lemma check_card_access_start W self cycles s :
  device_mode self = READER_MODE ->
  RfidModule.check_card_access W self cycles s
  = try_except (RfidModule.verify_loop W cycles)
      [(is_KeyboardInterrupt, fun _ => print LogVerifyStopped);
       (is_Exception, fun e => print (LogVerifyError (str e)))]
      (advance 0 [Print LogVerifyStart] s).
Proof.
  intros Hmode. unfold RfidModule.check_card_access.
  rewrite Hmode. change (negb (READER_MODE =? READER_MODE)) with false. cbv iota.
  unfold print at 1. now rewrite (bind_done (emit_run _ _)).
Qed.

Lemma start_enrollment_server_start W self port cycles s :
  device_mode self = ENROLLER_MODE ->
  RfidModuleEnroll.start_enrollment_server W self port cycles s
  = try_finally
      (try_except (RfidModuleEnroll.enroll_loop W cycles)
         [(is_KeyboardInterrupt, fun _ => print LogProgramStopped);
          (is_Exception,
           fun _ => hw <- get_hw ;; RfidModuleEnrollHw.indicate_failure hw)])
      Gpio.cleanup
      (advance 0 [Print LogEnrollStart; FlaskStart port true] s).
Proof.
  intros Hmode. unfold RfidModuleEnroll.start_enrollment_server.
  rewrite Hmode. change (negb (ENROLLER_MODE =? ENROLLER_MODE)) with false. cbv iota.
  unfold print at 1. rewrite (bind_done (emit_run _ _)).
  rewrite (bind_done (emit_run _ _)). now rewrite advance_advance.
Qed.

(** A mode function is still in its loop exactly when the loop is. *)
Lemma check_card_access_looping W self k s sk :
  device_mode self = READER_MODE ->
  RfidModule.check_card_access W self k s = (Running, sk) ->
  RfidModule.verify_loop W k (advance 0 [Print LogVerifyStart] s) = (Running, sk).
Proof.
  intros Hmode. rewrite (check_card_access_start W self k s Hmode).
  unfold try_except.
  destruct (RfidModule.verify_loop W k (advance 0 [Print LogVerifyStart] s))
    as [[[] | e |] s']; try discriminate; [| auto].
  simpl dispatch. unfold print, emit, raise.
  destruct (is_KeyboardInterrupt e); [| destruct (is_Exception e)]; discriminate.
Qed.

Lemma start_enrollment_server_looping W self port k s sk :
  device_mode self = ENROLLER_MODE ->
  RfidModuleEnroll.start_enrollment_server W self port k s = (Running, sk) ->
  RfidModuleEnroll.enroll_loop W k
    (advance 0 [Print LogEnrollStart; FlaskStart port true] s)
  = (Running, sk).
Proof.
  intros Hmode. rewrite (start_enrollment_server_start W self port k s Hmode).
  unfold try_finally, try_except.
  destruct (RfidModuleEnroll.enroll_loop W k
              (advance 0 [Print LogEnrollStart; FlaskStart port true] s))
    as [[[] | e |] s']; try discriminate; [| auto].
  simpl dispatch.
  destruct (is_KeyboardInterrupt e); [discriminate |].
  destruct (is_Exception e); [| discriminate].
  unfold bind, get_hw. destruct (self_hw s') as [p |]; [| discriminate].
  rewrite enroll_indicate_failure_run. discriminate.
Qed.

(** C4, as amended.  Take any turn of a mode loop: [k] turns have gone by and
    the mode function is still in its loop, in state [sk]; in the next turn a
    card is read.  Verification loop: if the remote outcome is one the loop
    handles (a response it can decode, or a [RequestException]) it is
    signalled, once (a [RequestException] as a Failure), and the loop goes on:
    after [k + 1] turns the function is still in its loop.  If the remote
    outcome is an exception that the inner [try] does not catch, no signal is
    fired, the error is printed and [check_card_access] returns: the loop has
    ended, however many more turns were to be observed.  Enrollment loop of
    [rfid_module_enroll.py]: if the remote call raises an [Exception], one
    Failure signal is fired, the GPIO outputs are released and
    [start_enrollment_server] returns. *)
Theorem C4_loops_and_errors W self p port k s sk card s1 :
  self_hw s = Some p ->
  (device_mode self = READER_MODE ->
   RfidModule.check_card_access W self k s = (Running, sk) ->
   read_card W 1000 sk = (Done (Some card), s1) ->
   (survivable (http W (n_http s1)) ->
    exists s2 sig,
      RfidModule.check_card_access W self (S k) s = (Running, s2)
      /\ trace s2
         = trace s1 ++ HttpGet (entry_url card) REQUEST_TIMEOUT
                       :: verdict_events p card (judge (http W (n_http s1)))
      /\ signals (verdict_events p card (judge (http W (n_http s1)))) = [sig]
      /\ (forall e, judge (http W (n_http s1)) = Unreachable e -> sig = Failure))
   /\ (forall e,
         judge (http W (n_http s1)) = Escapes e ->
         is_Exception e = true ->
         forall m, exists s2,
           RfidModule.check_card_access W self (S k + m) s = (Done tt, s2)
           /\ trace s2
              = trace s1 ++ [HttpGet (entry_url card) REQUEST_TIMEOUT;
                             Print (LogVerifyError (str e))]))
  /\ (device_mode self = ENROLLER_MODE ->
      RfidModuleEnroll.start_enrollment_server W self port k s = (Running, sk) ->
      read_card W 10000 sk = (Done (Some card), s1) ->
      forall e,
        http W (n_http s1) = HttpRaises e ->
        is_Exception e = true ->
        forall m, exists s2,
          RfidModuleEnroll.start_enrollment_server W self port (S k + m) s
          = (Done tt, s2)
          /\ trace s2
             = trace s1 ++ [Print (LogCardRead card);
                            HttpPost (temporary_user_url card) None None]
                        ++ enroll_failure_events p ++ [GpioCleanup]).
Proof.
  intros Hhw. split.
  - intros Hmode Hk Hread.
    apply (check_card_access_looping W self k s sk Hmode) in Hk.
    pose proof (verify_loop_ord W p k (advance 0 [Print LogVerifyStart] s) Hhw)
      as (Hhwk & _). rewrite Hk in Hhwk. simpl in Hhwk.
    pose proof (read_card_spec _ _ _ _ _ Hread) as (_ & F2 & _).
    rewrite Hhwk in F2.
    pose proof (verify_cycle_card W sk card s1 p Hread F2) as Hc.
    split.
    + intros Hsurv. unfold survivable in Hsurv.
      assert (exists sig,
                signals (verdict_events p card (judge (http W (n_http s1)))) = [sig]
                /\ (forall e, judge (http W (n_http s1)) = Unreachable e ->
                              sig = Failure)
                /\ verdict_result (judge (http W (n_http s1))) = Done tt)
        as (sig & Hsig & Hfail & Hres).
      { destruct (judge (http W (n_http s1))) as [| | e | e]; [| | | easy].
        - exists Success. repeat split. discriminate.
        - exists Failure. repeat split.
        - exists Failure. repeat split. }
      rewrite Hres in Hc. eexists; exists sig.
      split; [| split; [| split; [exact Hsig | exact Hfail]]].
      * rewrite (check_card_access_start W self (S k) s Hmode).
        replace (S k) with (k + 1)%nat by lia.
        unfold try_except.
        rewrite (verify_loop_app W p 1 k (advance 0 [Print LogVerifyStart] s) sk
                   Hhw Hk).
        simpl RfidModule.verify_loop. rewrite (bind_done Hc). reflexivity.
      * reflexivity.
    + intros e Hj He m. rewrite Hj in Hc. simpl in Hc.
      eexists. split.
      * rewrite (check_card_access_start W self (S k + m) s Hmode).
        replace (S k + m)%nat with (k + S m)%nat by lia.
        assert (RfidModule.verify_loop W (k + S m) (advance 0 [Print LogVerifyStart] s)
                = (Raised e,
                   advance 0 [HttpGet (entry_url card) REQUEST_TIMEOUT]
                     (after_http W s1))) as Hloop.
        { rewrite (verify_loop_app W p (S m) k (advance 0 [Print LogVerifyStart] s) sk
                     Hhw Hk).
          simpl RfidModule.verify_loop. now rewrite (bind_raised Hc). }
        rewrite (try_except_raised Hloop). simpl dispatch.
        rewrite (Exception_not_interrupt e He), He.
        unfold print. rewrite emit_run, advance_advance. reflexivity.
      * simpl. reflexivity.
  - intros Hmode Hk Hread e Hh He m.
    apply (start_enrollment_server_looping W self port k s sk Hmode) in Hk.
    pose proof (enroll_loop_ord W p k
                  (advance 0 [Print LogEnrollStart; FlaskStart port true] s) Hhw)
      as (Hhwk & _). rewrite Hk in Hhwk. simpl in Hhwk.
    pose proof (read_card_spec _ _ _ _ _ Hread) as (_ & F2 & _).
    rewrite Hhwk in F2.
    pose proof (enroll_cycle_card W sk card s1 p Hread F2) as Hc.
    rewrite Hh in Hc.
    eexists. split.
    + rewrite (start_enrollment_server_start W self port (S k + m) s Hmode).
      replace (S k + m)%nat with (k + S m)%nat by lia.
      assert (RfidModuleEnroll.enroll_loop W (k + S m)
                (advance 0 [Print LogEnrollStart; FlaskStart port true] s)
              = (Raised e,
                 advance 0 [Print (LogCardRead card);
                            HttpPost (temporary_user_url card) None None]
                   (after_http W s1))) as Hloop.
      { rewrite (enroll_loop_app W p (S m) k
                   (advance 0 [Print LogEnrollStart; FlaskStart port true] s) sk Hhw Hk).
        simpl RfidModuleEnroll.enroll_loop. now rewrite (bind_raised Hc). }
      unfold try_finally. rewrite (try_except_raised Hloop). simpl dispatch.
      rewrite (Exception_not_interrupt e He), He.
      assert (self_hw (advance 0 [Print (LogCardRead card);
                                  HttpPost (temporary_user_url card) None None]
                         (after_http W s1)) = Some p) as F3 by exact F2.
      rewrite (bind_done (get_hw_run _ p F3)).
      rewrite enroll_indicate_failure_run. unfold Gpio.cleanup.
      rewrite emit_run, !advance_advance. reflexivity.
    + simpl. rewrite <- ?app_assoc. reflexivity.
Qed.

(** C4, as amended, at the second turn of each loop: the remote service is
    unreachable at both cards; it is unreachable at the first card and
    answers with a JSON list at the second; it answers at the first card and
    is unreachable at the second (enrollment). *)
Lemma C4_witness :
  fst (RfidModule.check_card_access offline_server reader 2 ready) = Running
  /\ fst (RfidModule.check_card_access worsening_server reader 4 ready) = Done tt
  /\ fst (RfidModuleEnroll.start_enrollment_server vanishing_server enroller 5000 4
            ready_enroll) = Done tt.
Proof.
  split; [| split].
  - destruct (proj1 (proj1 (C4_loops_and_errors offline_server reader
                              RfidModuleHw.default_pins 5000 1 ready
                              (snd (RfidModule.check_card_access offline_server
                                      reader 1 ready))
                              "04a3b2c1"
                              (snd (read_card offline_server 1000
                                      (snd (RfidModule.check_card_access
                                              offline_server reader 1 ready))))
                              eq_refl)
                       eq_refl ltac:(vm_compute; reflexivity)
                       ltac:(vm_compute; reflexivity))
                    ltac:(vm_compute; exact I))
      as (s2 & sig & Hrun & _).
    exact (f_equal fst Hrun).
  - destruct (proj2 (proj1 (C4_loops_and_errors worsening_server reader
                              RfidModuleHw.default_pins 5000 1 ready
                              (snd (RfidModule.check_card_access worsening_server
                                      reader 1 ready))
                              "04a3b2c1"
                              (snd (read_card worsening_server 1000
                                      (snd (RfidModule.check_card_access
                                              worsening_server reader 1 ready))))
                              eq_refl)
                       eq_refl ltac:(vm_compute; reflexivity)
                       ltac:(vm_compute; reflexivity))
                    (no_get (JArr [])) ltac:(vm_compute; reflexivity)
                    eq_refl 2%nat)
      as (s2 & Hrun & _).
    exact (f_equal fst Hrun).
  - destruct (proj2 (C4_loops_and_errors vanishing_server enroller
                       RfidModuleEnrollHw.default_pins 5000 1 ready_enroll
                       (snd (RfidModuleEnroll.start_enrollment_server
                               vanishing_server enroller 5000 1 ready_enroll))
                       "04a3b2c1"
                       (snd (read_card vanishing_server 10000
                               (snd (RfidModuleEnroll.start_enrollment_server
                                       vanishing_server enroller 5000 1
                                       ready_enroll))))
                       eq_refl)
                eq_refl ltac:(vm_compute; reflexivity)
                ltac:(vm_compute; reflexivity)
                (mkExn RequestException "connection refused")
                ltac:(vm_compute; reflexivity) eq_refl 2%nat)
      as (s2 & Hrun & _).
    exact (f_equal fst Hrun).
Defined.

(** C4 as first stated fails: with a card on the reader and the remote
    service refusing the connection, the enrollment loop is over after one
    read, though three turns were to be observed. *)
Lemma C4_counterexample :
  is_RequestException (mkExn RequestException "connection refused") = true
  /\ http offline_server 0 = HttpRaises (mkExn RequestException "connection refused")
  /\ ~ keeps_going
         (RfidModuleEnroll.start_enrollment_server offline_server enroller 5000 3
            ready_enroll)
  /\ n_poll (snd (RfidModuleEnroll.start_enrollment_server offline_server enroller
                    5000 3 ready_enroll)) = 1%nat.
Proof.
  split; [reflexivity | split; [reflexivity | split]].
  - unfold keeps_going. vm_compute. discriminate.
  - vm_compute. reflexivity.
Qed.

Lemma start_enrollment_indicator_run p s :
  start_enrollment_indicator p s = (Done tt, advance 500 (listening_events p) s).
Proof. apply _blink_led_run. lia. Qed.

Lemma remote_calls_reads tr :
  forallb is_read_event tr = true -> remote_calls tr = 0%nat.
Proof.
  unfold remote_calls. induction tr as [| e tr IH]; simpl; [reflexivity |].
  intros H. apply andb_prop in H. destruct H as [He Htr].
  destruct e; simpl in *; try discriminate; auto.
Qed.

Lemma remote_calls_app a b : remote_calls (a ++ b) = (remote_calls a + remote_calls b)%nat.
Proof. unfold remote_calls. now rewrite filter_app, length_app. Qed.

Lemma enroll_timeout W s p s2 :
  self_hw s = Some p ->
  read_card W 10000 (advance 500 (listening_events p) s) = (Done None, s2) ->
  RfidModule.enroll W s
  = (Done timeout_response, advance 600 (failure_events p) s2).
Proof.
  intros Hhw Hread.
  pose proof (read_card_spec _ _ _ _ _ Hread) as (_ & F2 & _).
  simpl self_hw in F2. rewrite Hhw in F2.
  unfold RfidModule.enroll, try_except.
  rewrite (bind_done (get_hw_run s p Hhw)).
  rewrite (bind_done (start_enrollment_indicator_run p s)).
  rewrite (bind_done Hread).
  rewrite (bind_done (get_hw_run s2 p F2)).
  rewrite (bind_done (indicate_failure_run p s2)).
  reflexivity.
Qed.

Lemma enroll_card W s p card s2 status b :
  self_hw s = Some p ->
  read_card W 10000 (advance 500 (listening_events p) s) = (Done (Some card), s2) ->
  http W (n_http s2) = HttpResponse status b ->
  RfidModule.enroll W s
  = if status =? 200
    then (Done (enrolled_response card),
          advance 2100 (enroll_request card :: success_events p) (after_http W s2))
    else (Done rejected_response,
          advance 600 (enroll_request card :: failure_events p) (after_http W s2)).
Proof.
  intros Hhw Hread Hh.
  pose proof (read_card_spec _ _ _ _ _ Hread) as (_ & F2 & _).
  simpl self_hw in F2. rewrite Hhw in F2.
  unfold RfidModule.enroll, try_except.
  rewrite (bind_done (get_hw_run s p Hhw)).
  rewrite (bind_done (start_enrollment_indicator_run p s)).
  rewrite (bind_done Hread).
  destruct s2 as [t tr a q h hw pn]. simpl in F2, Hh. subst hw.
  unfold enroll_request, enrolled_response, rejected_response.
  cbv beta iota zeta delta [try_except bind requests_post next_http emit print
    ret raise dispatch get_hw time_sleep Z.ltb Z.compare elapse fst snd
    RfidModuleHw.indicate_success RfidModuleHw.indicate_failure for_range
    _beep _blink_led Gpio.output Gpio.HIGH Gpio.LOW
    now trace n_attempt n_poll n_http self_hw self_pn532].
  rewrite Hh. simpl fst. destruct (status =? 200); close_state.
Qed.

(** C6.  The view of [/api]: when [read_card] times out the response is a
    408 with an error status and a message, one Failure signal is fired and
    no remote request is made; when a card is read and the remote call
    answers 200 the response is a 200 with the card identifier and a success
    status, with one Success signal; when it answers another status the
    response is a 500 with an error message, with one Failure signal. *)
Theorem C6_enroll_endpoint W s p rr s2 :
  self_hw s = Some p ->
  read_card W 10000 (advance 500 (listening_events p) s) = (rr, s2) ->
  (rr = Done None ->
   exists resp s3 tr,
     RfidModule.enroll W s = (Done resp, s3)
     /\ trace s3 = trace s ++ tr
     /\ status_code resp = 408
     /\ dict_get "status" (payload resp) = Some (JStr "error")
     /\ (exists m, dict_get "message" (payload resp) = Some (JStr m))
     /\ signals tr = [Failure]
     /\ remote_calls tr = 0%nat
     /\ n_http s3 = n_http s)
  /\ (forall card status b,
        rr = Done (Some card) ->
        http W (n_http s) = HttpResponse status b ->
        exists resp s3 tr,
          RfidModule.enroll W s = (Done resp, s3)
          /\ trace s3 = trace s ++ tr
          /\ if status =? 200
             then status_code resp = 200
                  /\ dict_get "card_id" (payload resp) = Some (JStr card)
                  /\ dict_get "status" (payload resp) = Some (JStr "success")
                  /\ signals tr = [Success]
             else status_code resp = 500
                  /\ dict_get "status" (payload resp) = Some (JStr "error")
                  /\ (exists m, dict_get "message" (payload resp) = Some (JStr m))
                  /\ signals tr = [Failure]).
Proof.
  intros Hhw Hread.
  pose proof (read_card_spec _ _ _ _ _ Hread)
    as (F1 & _ & _ & _ & (reads & Htr & Hreads) & _).
  simpl in F1, Htr. split.
  - intros ->. rewrite (enroll_timeout W s p s2 Hhw Hread).
    exists timeout_response, (advance 600 (failure_events p) s2),
      (listening_events p ++ reads ++ failure_events p).
    split; [reflexivity |]. split.
    { simpl trace. rewrite Htr, <- !app_assoc. reflexivity. }
    split; [reflexivity |]. split; [reflexivity |].
    split; [eexists; reflexivity |]. split.
    { rewrite !signals_app, (signals_reads _ Hreads). reflexivity. }
    split; [| simpl; exact F1].
    rewrite !remote_calls_app, (remote_calls_reads _ Hreads). reflexivity.
  - intros card status b -> Hh. rewrite <- F1 in Hh.
    rewrite (enroll_card W s p card s2 status b Hhw Hread Hh).
    destruct (status =? 200).
    + exists (enrolled_response card),
        (advance 2100 (enroll_request card :: success_events p) (after_http W s2)),
        (listening_events p ++ reads ++ enroll_request card :: success_events p).
      split; [reflexivity |]. split.
      { simpl trace. rewrite Htr, <- !app_assoc. reflexivity. }
      split; [reflexivity |]. split; [reflexivity |]. split; [reflexivity |].
      rewrite !signals_app, (signals_reads _ Hreads). reflexivity.
    + exists rejected_response,
        (advance 600 (enroll_request card :: failure_events p) (after_http W s2)),
        (listening_events p ++ reads ++ enroll_request card :: failure_events p).
      split; [reflexivity |]. split.
      { simpl trace. rewrite Htr, <- !app_assoc. reflexivity. }
      split; [reflexivity |]. split; [reflexivity |].
      split; [eexists; reflexivity |].
      rewrite !signals_app, (signals_reads _ Hreads). reflexivity.
Qed.

(** C6 at a trigger with no card presented. *)
Lemma C6_witness :
  exists resp s3 tr,
    RfidModule.enroll quiet_reader ready = (Done resp, s3)
    /\ trace s3 = trace ready ++ tr
    /\ status_code resp = 408
    /\ dict_get "status" (payload resp) = Some (JStr "error")
    /\ (exists m, dict_get "message" (payload resp) = Some (JStr m))
    /\ signals tr = [Failure]
    /\ remote_calls tr = 0%nat
    /\ n_http s3 = n_http ready.
Proof.
  apply (proj1 (C6_enroll_endpoint quiet_reader ready RfidModuleHw.default_pins
                  (Done None)
                  (snd (read_card quiet_reader 10000
                          (advance 500 (listening_events RfidModuleHw.default_pins)
                             ready)))
                  eq_refl ltac:(vm_compute; reflexivity))).
  reflexivity.
Defined.

(** Every attempt is made once, and the backoffs are the sleeps of two
    seconds. *)
Lemma attempts_made_app a b :
  attempts_made (a ++ b) = (attempts_made a + attempts_made b)%nat.
Proof. unfold attempts_made. now rewrite filter_app, length_app. Qed.

Lemma backoffs_app a b : backoffs (a ++ b) = (backoffs a + backoffs b)%nat.
Proof. unfold backoffs. now rewrite filter_app, length_app. Qed.

Lemma attempt_events_counts o attempt :
  attempts_made (attempt_events o attempt) = 1%nat
  /\ backoffs (attempt_events o attempt) = 0%nat.
Proof. destruct o as [v | [] e]; split; reflexivity. Qed.

Lemma retried_counts W : forall k first attempt,
  attempts_made (retried W first attempt k) = k
  /\ backoffs (retried W first attempt k) = k.
Proof.
  induction k as [| k IH]; intros first attempt; [split; reflexivity |].
  change (retried W first attempt (S k))
    with (attempt_events (bring_up W first) attempt ++ backoff
          ++ retried W (S first) (attempt + 1) k).
  rewrite !attempts_made_app, !backoffs_app.
  destruct (attempt_events_counts (bring_up W first) attempt) as [-> ->].
  destruct (IH (S first) (attempt + 1)) as [-> ->]. split; reflexivity.
Qed.

Lemma separated_counts W first attempt k :
  attempts_made (separated W first attempt (S k)) = S k
  /\ backoffs (separated W first attempt (S k)) = k.
Proof.
  unfold separated. rewrite attempts_made_app, backoffs_app.
  destruct (attempt_events_counts (bring_up W (first + k)) (attempt + Z.of_nat k))
    as [-> ->].
  destruct (retried_counts W k first attempt) as [-> ->]. split; lia.
Qed.

(** With a retry count of at least one and a peripheral that fails every
    time, [_initialize_pn532] makes that many attempts, backs off between
    them and raises. *)
Lemma initialize_exhausted W n s :
  (0 < n)%nat ->
  (forall i, (i < n)%nat -> attempt_fails (bring_up W (n_attempt s + i))) ->
  exists s' tr,
    _initialize_pn532 W (Z.of_nat n) s = (Raised init_error, s')
    /\ trace s' = trace s ++ tr
    /\ tr = separated W (n_attempt s) 0 n
    /\ attempts_made tr = n
    /\ backoffs tr = (n - 1)%nat
    /\ self_hw s' = self_hw s.
Proof.
  intros Hn Hfail. destruct n as [| k]; [lia |].
  unfold _initialize_pn532. rewrite Nat2Z.id.
  destruct (init_attempts_exhausted W (Z.of_nat (S k)) k 0 s) as (s' & Hrun & Htr & _ & Hhw).
  - intros i Hi. apply Hfail. lia.
  - lia.
  - exists s', (separated W (n_attempt s) 0 (S k)).
    destruct (separated_counts W (n_attempt s) 0 k) as [Ha Hb].
    repeat split; auto. rewrite Hb. lia.
Qed.

(** With a peripheral that first works at attempt [k], [k] attempts are
    made, and nothing after the one that works. *)
Lemma initialize_succeeds W n k v s :
  (0 < k <= n)%nat ->
  (forall i, (i < k - 1)%nat -> attempt_fails (bring_up W (n_attempt s + i))) ->
  bring_up W (n_attempt s + (k - 1)) = AttemptOk v ->
  exists s' tr,
    _initialize_pn532 W (Z.of_nat n) s = (Done (Some true), s')
    /\ trace s' = trace s ++ tr
    /\ tr = retried W (n_attempt s) 0 (k - 1)
            ++ attempt_events (AttemptOk v) (Z.of_nat (k - 1))
    /\ attempts_made tr = k
    /\ backoffs tr = (k - 1)%nat
    /\ n_attempt s' = (n_attempt s + k)%nat
    /\ self_pn532 s' = true.
Proof.
  intros Hk Hfail Hok. unfold _initialize_pn532. rewrite Nat2Z.id.
  destruct (init_attempts_succeeds W (Z.of_nat n) v (k - 1) n 0 s Hfail Hok
              ltac:(lia) ltac:(lia)) as (s' & Hrun & Htr & Hn & Hpn & _).
  exists s', (retried W (n_attempt s) 0 (k - 1)
              ++ attempt_events (AttemptOk v) (Z.of_nat (k - 1))).
  split; [exact Hrun |]. split; [exact Htr |]. split; [reflexivity |].
  rewrite attempts_made_app, backoffs_app.
  destruct (retried_counts W (k - 1) (n_attempt s) 0) as [-> ->].
  destruct (attempt_events_counts (AttemptOk v) (Z.of_nat (k - 1))) as [-> ->].
  repeat split; auto; lia.
Qed.

(** C2, at the retry count 0: [_initialize_pn532] makes no attempt and
    returns without raising, whatever the peripheral would do. *)
Theorem C2_zero_retries_no_error W s :
  _initialize_pn532 W 0 s = (Done None, s)
  /\ attempts_made (trace (snd (_initialize_pn532 W 0 s))) = attempts_made (trace s).
Proof. split; reflexivity. Qed.

(** C5, for the indicator of [rfid_module_enroll.py]: [indicate_success] is
    one green pulse and [indicate_failure] two pauses and then one red pulse;
    neither drives the buzzer, and the failure cue is not repeated. *)
Theorem C5_enroll_script_cues p s :
  RfidModuleEnrollHw.indicate_success p s
  = (Done tt, advance 2000 (enroll_success_events p) s)
  /\ RfidModuleEnrollHw.indicate_failure p s
     = (Done tt, advance 2200 (enroll_failure_events p) s)
  /\ pulses (buzzer RfidModuleEnrollHw.default_pins)
       (enroll_success_events RfidModuleEnrollHw.default_pins) = 0%nat
  /\ pulses (buzzer RfidModuleEnrollHw.default_pins)
       (enroll_failure_events RfidModuleEnrollHw.default_pins) = 0%nat
  /\ pulses (red_led RfidModuleEnrollHw.default_pins)
       (enroll_failure_events RfidModuleEnrollHw.default_pins) = 1%nat.
Proof.
  split; [apply enroll_indicate_success_run |].
  split; [apply enroll_indicate_failure_run |].
  repeat split; reflexivity.
Qed.

(** The indicator of [rfid_module.py] does give the cues: a tone and a green
    pulse once; a tone and a red pulse twice, a pause after each. *)
Lemma reader_script_cues p s :
  RfidModuleHw.indicate_success p s
  = (Done tt, advance 2100 ([Enter Success] ++ positive_cue p ++ [Leave Success]) s)
  /\ RfidModuleHw.indicate_failure p s
     = (Done tt,
        advance 600
          ([Enter Failure] ++ negative_cue p ++ pause ++ negative_cue p ++ pause
           ++ [Leave Failure]) s).
Proof. split; [apply indicate_success_run | apply indicate_failure_run]. Qed.

(** No server thread is started by the bring-up or by reading a card. *)
Lemma no_server_in_attempt d o attempt :
  existsb (starts_server d) (attempt_events o attempt) = false.
Proof. destruct o as [v | [] e]; reflexivity. Qed.

Lemma no_server_in_retried d W : forall k first attempt,
  existsb (starts_server d) (retried W first attempt k) = false.
Proof.
  induction k as [| k IH]; intros first attempt; [reflexivity |].
  change (retried W first attempt (S k))
    with (attempt_events (bring_up W first) attempt ++ backoff
          ++ retried W (S first) (attempt + 1) k).
  now rewrite !existsb_app, no_server_in_attempt, IH.
Qed.

Lemma no_server_in_separated d W first attempt k :
  existsb (starts_server d) (separated W first attempt k) = false.
Proof.
  destruct k as [| k]; [reflexivity |]. unfold separated.
  now rewrite existsb_app, no_server_in_retried, no_server_in_attempt.
Qed.

Lemma no_server_in_reads d tr :
  forallb is_read_event tr = true -> existsb (starts_server d) tr = false.
Proof.
  induction tr as [| e tr IH]; simpl; [reflexivity |].
  intros H. apply andb_prop in H. destruct H as [He Htr].
  rewrite (IH Htr). destruct e; simpl in *; try discriminate; auto.
Qed.

(** When no server thread was started the process exits once the main block
    is over, after the destructor of the handler. *)
Lemma process_without_server main s r s' :
  main s = (r, s') ->
  r <> Running ->
  (forall d, existsb (starts_server d) (trace s') = false) ->
  process main s = (Some (exit_status r), snd (__del__ s')).
Proof.
  intros Hmain Hr Hno. unfold process. rewrite Hmain, !Hno.
  destruct r; [reflexivity | reflexivity | now elim Hr].
Qed.

(** C3, as amended.  When the three bring-up attempts of the main block fail,
    the error is caught and printed, the destructor of the handler releases
    the GPIO outputs, and the process exits with status 0; no mode loop is
    entered. *)
Theorem C3_init_failure_exit W cycles :
  (forall i, (i < 3)%nat -> attempt_fails (bring_up W i)) ->
  exists s',
    process (RfidModule.main W cycles) boot = (Some 0, s')
    /\ trace s' = setup_events RfidModuleHw.default_pins
                  ++ separated W 0 0 3
                  ++ [Print (LogProgramError (str init_error)); GpioCleanup].
Proof.
  intros Hfail.
  set (s0 := constructed RfidModuleHw.default_pins boot).
  destruct (initialize_exhausted W 3 s0 ltac:(lia) Hfail)
    as (s1 & tr & Hrun & Htr & -> & _ & _ & Hhw).
  assert (RfidModule.main W cycles boot
          = (Done tt, advance 0 [Print (LogProgramError (str init_error))] s1))
    as Hmain.
  { unfold RfidModule.main, PN532Handler.
    assert ((hw <- HardwareController RfidModuleHw.default_pins;;
             set_hw hw;;
             _ <- _initialize_pn532 W 3;;
             ret (mkHandler RfidModule.DEVICE_MODE 3)) boot
            = (Raised init_error, s1)) as Hctor.
    { rewrite (bind_done (HardwareController_run _ boot)).
      change ((set_hw RfidModuleHw.default_pins;;
               _ <- _initialize_pn532 W 3;;
               ret (mkHandler RfidModule.DEVICE_MODE 3))
                (advance 0 (setup_events RfidModuleHw.default_pins) boot))
        with ((_ <- _initialize_pn532 W 3;;
               ret (mkHandler RfidModule.DEVICE_MODE 3)) s0).
      now rewrite (bind_raised Hrun). }
    rewrite (try_except_raised (bind_raised Hctor _)). simpl dispatch.
    unfold print. now rewrite emit_run. }
  rewrite (process_without_server _ _ _ _ Hmain); [| discriminate |].
  - unfold __del__. simpl self_hw. rewrite Hhw.
    eexists. split; [reflexivity |].
    unfold hw_cleanup, Gpio.cleanup. rewrite emit_run. simpl trace.
    rewrite Htr. simpl. rewrite <- !app_assoc. reflexivity.
  - intros d. simpl trace. rewrite Htr.
    now rewrite !existsb_app, no_server_in_separated.
Qed.

(** C3, as amended, with no reader on the bus. *)
Lemma C3_witness :
  exists s',
    process (RfidModule.main dead_reader 1) boot = (Some 0, s')
    /\ trace s' = setup_events RfidModuleHw.default_pins
                  ++ separated dead_reader 0 0 3
                  ++ [Print (LogProgramError (str init_error)); GpioCleanup].
Proof.
  apply (C3_init_failure_exit dead_reader 1).
  intros i _. reflexivity.
Defined.

(** C3 as first stated fails: with no reader on the bus the initialization
    raises, and the process does not exit with a non-zero status. *)
Lemma C3_counterexample :
  fst (_initialize_pn532 dead_reader 3
         (constructed RfidModuleHw.default_pins boot)) = Raised init_error
  /\ ~ exits_nonzero (process (RfidModule.main dead_reader 1) boot).
Proof.
  split; [vm_compute; reflexivity |].
  intros (c & Hc & Hnz). vm_compute in Hc. inversion Hc. subst c. now apply Hnz.
Qed.

(** * Further properties of the two scripts *)

Lemma bytes_hex_cons b u :
  bytes_hex (b :: u)
  = String (hex_digit (Byte.to_N b / 16))
      (String (hex_digit (Byte.to_N b mod 16)) (bytes_hex u)).
Proof.
  unfold bytes_hex. simpl map. destruct u as [| b' u].
  - reflexivity.
  - change (String.concat "" (byte_hex b :: map byte_hex (b' :: u)))
      with (byte_hex b ++ "" ++ String.concat "" (map byte_hex (b' :: u)))%string.
    reflexivity.
Qed.

Lemma byte_hex_digits b :
  is_hex_digit (hex_digit (Byte.to_N b / 16)) = true
  /\ is_hex_digit (hex_digit (Byte.to_N b mod 16)) = true
  /\ Byte.of_N (16 * hex_value (hex_digit (Byte.to_N b / 16))
                + hex_value (hex_digit (Byte.to_N b mod 16))) = Some b.
Proof. destruct b; repeat split; vm_compute; reflexivity. Qed.

Lemma bytes_unhex_hex u : bytes_unhex (bytes_hex u) = Some u.
Proof.
  induction u as [| b u IH]; [reflexivity |].
  rewrite bytes_hex_cons. cbn [bytes_unhex].
  destruct (byte_hex_digits b) as (_ & _ & ->). now rewrite IH.
Qed.

Lemma hex_card_id_shape_aux u :
  String.length (bytes_hex u) = (2 * List.length u)%nat
  /\ string_forall is_hex_digit (bytes_hex u) = true.
Proof.
  induction u as [| b u [IHl IHc]]; [split; reflexivity |].
  rewrite bytes_hex_cons. destruct (byte_hex_digits b) as (H1 & H2 & _). split.
  - cbn [String.length]. rewrite IHl. simpl. lia.
  - cbn [string_forall]. now rewrite H1, H2, IHc.
Qed.

(** X1.  The identifier [bytes(uid).hex()] has two characters for each byte of the UID,
    all of them among [0-9a-f]. *)
Theorem hex_card_id_shape u :
  String.length (bytes_hex u) = (2 * List.length u)%nat
  /\ string_forall is_hex_digit (bytes_hex u) = true.
Proof. apply hex_card_id_shape_aux. Qed.

(** X2.  Different UIDs get different identifiers. *)
Theorem hex_card_id_distinct u1 u2 :
  u1 <> u2 -> bytes_hex u1 <> bytes_hex u2.
Proof.
  intros Hne H. apply Hne. apply (f_equal bytes_unhex) in H.
  rewrite !bytes_unhex_hex in H. now inversion H.
Qed.

(** X2 at a concrete input. *)
Lemma hex_card_id_distinct_witness :
  bytes_hex card_04a3b2c1 <> bytes_hex [x04; xa3; xb2; xc2].
Proof. apply hex_card_id_distinct. discriminate. Defined.

Lemma verify_cycle_turn W p s :
  self_hw s = Some p ->
  self_hw (snd (RfidModule.verify_cycle W s)) = Some p
  /\ exists tr,
       trace (snd (RfidModule.verify_cycle W s)) = trace s ++ tr
       /\ verify_turn p tr.
Proof.
  intros Hhw.
  destruct (read_card W 1000 s) as [rr s1] eqn:Hread.
  pose proof (read_card_spec _ _ _ _ _ Hread)
    as (_ & F2 & _ & _ & (reads & Htr & Hreads) & _).
  rewrite Hhw in F2.
  destruct rr as [[card |] | e |].
  - rewrite (verify_cycle_card W s card s1 p Hread F2). simpl snd.
    split; [exact F2 |]. eexists. split.
    + simpl trace. rewrite Htr, <- app_assoc. reflexivity.
    + now apply VerifyEvent.
  - unfold RfidModule.verify_cycle. rewrite (bind_done Hread). simpl.
    split; [exact F2 |]. exists reads. split; [exact Htr | now apply VerifyIdle].
  - unfold RfidModule.verify_cycle. rewrite (bind_raised Hread). simpl.
    split; [exact F2 |]. exists reads. split; [exact Htr | now apply VerifyIdle].
  - unfold RfidModule.verify_cycle, bind. rewrite Hread. simpl.
    split; [exact F2 |]. exists reads. split; [exact Htr | now apply VerifyIdle].
Qed.

Lemma enroll_cycle_turn W p s :
  self_hw s = Some p ->
  self_hw (snd (RfidModuleEnroll.enroll_cycle W s)) = Some p
  /\ exists tr,
       trace (snd (RfidModuleEnroll.enroll_cycle W s)) = trace s ++ tr
       /\ enroll_turn p tr.
Proof.
  intros Hhw.
  destruct (read_card W 10000 s) as [rr s1] eqn:Hread.
  pose proof (read_card_spec _ _ _ _ _ Hread)
    as (_ & F2 & _ & _ & (reads & Htr & Hreads) & _).
  rewrite Hhw in F2.
  destruct rr as [[card |] | e |].
  - rewrite (enroll_cycle_card W s card s1 p Hread F2).
    destruct (http W (n_http s1)) as [status b | e]; simpl snd;
      (split; [exact F2 |]); eexists;
      (split; [simpl trace; rewrite Htr, <- app_assoc; reflexivity |]).
    + now apply EnrollEvent.
    + now apply EnrollFailed.
  - unfold RfidModuleEnroll.enroll_cycle. rewrite (bind_done Hread).
    rewrite (time_sleep_run 500 _ ltac:(lia)). simpl. split; [exact F2 |].
    exists (reads ++ [Sleep 500]). rewrite Htr, <- app_assoc.
    split; [reflexivity | now apply EnrollIdle].
  - unfold RfidModuleEnroll.enroll_cycle. rewrite (bind_raised Hread). simpl.
    split; [exact F2 |]. exists reads. split; [exact Htr | now apply EnrollInterrupted].
  - unfold RfidModuleEnroll.enroll_cycle, bind. rewrite Hread. simpl.
    split; [exact F2 |]. exists reads. split; [exact Htr | now apply EnrollInterrupted].
Qed.

Ltac pieces P_app := repeat (apply P_app; [solve [auto] |]); auto.

(** A property of traces that holds of nothing, of what a turn adds and of
    what is put together from such pieces holds of what a whole run adds. *)
Section Runs.
Variable W : world.
Variable p : pins.
Variable P : list event -> Prop.
Hypothesis P_nil : P [].
Hypothesis P_app : forall a b, P a -> P b -> P (a ++ b).

Lemma verify_loop_keeps :
  (forall tr, verify_turn p tr -> P tr) ->
  forall cycles s,
    self_hw s = Some p ->
    self_hw (snd (RfidModule.verify_loop W cycles s)) = Some p
    /\ exists tr,
         trace (snd (RfidModule.verify_loop W cycles s)) = trace s ++ tr /\ P tr.
Proof.
  intros Hturn. induction cycles as [| cycles IH]; intros s Hhw.
  - simpl. split; [exact Hhw |]. exists []. now rewrite app_nil_r.
  - destruct (verify_cycle_turn W p s Hhw) as (Hhw1 & tr1 & Htr1 & Ht1).
    simpl RfidModule.verify_loop. unfold bind.
    destruct (RfidModule.verify_cycle W s) as [[[] | e |] s1]; simpl in *.
    + destruct (IH s1 Hhw1) as (Hhw2 & tr2 & Htr2 & Hp2).
      split; [exact Hhw2 |]. exists (tr1 ++ tr2).
      rewrite Htr2, Htr1, app_assoc. split; [reflexivity |].
      apply P_app; auto.
    + split; [exact Hhw1 |]. exists tr1. auto.
    + split; [exact Hhw1 |]. exists tr1. auto.
Qed.

Lemma check_card_access_keeps self cycles s :
  (forall tr, verify_turn p tr -> P tr) ->
  (forall m, P [Print m]) ->
  self_hw s = Some p ->
  exists tr,
    trace (snd (RfidModule.check_card_access W self cycles s)) = trace s ++ tr
    /\ P tr.
Proof.
  intros Hturn Hprint Hhw. unfold RfidModule.check_card_access.
  destruct (negb (device_mode self =? READER_MODE)).
  - exists []. simpl. now rewrite app_nil_r.
  - unfold print at 1. rewrite (bind_done (emit_run _ _)).
    set (s0 := advance 0 [Print LogVerifyStart] s).
    destruct (verify_loop_keeps Hturn cycles s0 Hhw) as (_ & tr & Htr & Hp).
    unfold try_except.
    destruct (RfidModule.verify_loop W cycles s0) as [[[] | e |] s1]; simpl in *.
    + exists ([Print LogVerifyStart] ++ tr). rewrite Htr, <- app_assoc.
      split; [reflexivity | apply P_app; auto].
    + destruct (is_KeyboardInterrupt e); [| destruct (is_Exception e)]; simpl.
      * exists ([Print LogVerifyStart] ++ tr ++ [Print LogVerifyStopped]).
        rewrite Htr, <- !app_assoc. split; [reflexivity |].
        pieces P_app.
      * exists ([Print LogVerifyStart] ++ tr ++ [Print (LogVerifyError (str e))]).
        rewrite Htr, <- !app_assoc. split; [reflexivity |].
        pieces P_app.
      * exists ([Print LogVerifyStart] ++ tr). rewrite Htr, <- app_assoc.
        split; [reflexivity | apply P_app; auto].
    + exists ([Print LogVerifyStart] ++ tr). rewrite Htr, <- app_assoc.
      split; [reflexivity | apply P_app; auto].
Qed.

Lemma enroll_loop_keeps :
  (forall tr, enroll_turn p tr -> P tr) ->
  forall cycles s,
    self_hw s = Some p ->
    self_hw (snd (RfidModuleEnroll.enroll_loop W cycles s)) = Some p
    /\ exists tr,
         trace (snd (RfidModuleEnroll.enroll_loop W cycles s)) = trace s ++ tr
         /\ P tr.
Proof.
  intros Hturn. induction cycles as [| cycles IH]; intros s Hhw.
  - simpl. split; [exact Hhw |]. exists []. now rewrite app_nil_r.
  - destruct (enroll_cycle_turn W p s Hhw) as (Hhw1 & tr1 & Htr1 & Ht1).
    simpl RfidModuleEnroll.enroll_loop. unfold bind.
    destruct (RfidModuleEnroll.enroll_cycle W s) as [[[] | e |] s1]; simpl in *.
    + destruct (IH s1 Hhw1) as (Hhw2 & tr2 & Htr2 & Hp2).
      split; [exact Hhw2 |]. exists (tr1 ++ tr2).
      rewrite Htr2, Htr1, app_assoc. split; [reflexivity |].
      apply P_app; auto.
    + split; [exact Hhw1 |]. exists tr1. auto.
    + split; [exact Hhw1 |]. exists tr1. auto.
Qed.
Lemma start_enrollment_server_keeps self port cycles s :
  (forall tr, enroll_turn p tr -> P tr) ->
  (forall e, match e with
             | Print _ | FlaskStart _ _ | GpioCleanup => P [e]
             | _ => True
             end) ->
  P (enroll_failure_events p) ->
  self_hw s = Some p ->
  exists tr,
    trace (snd (RfidModuleEnroll.start_enrollment_server W self port cycles s))
    = trace s ++ tr
    /\ P tr.
Proof.
  intros Hturn Hev Hfail Hhw. unfold RfidModuleEnroll.start_enrollment_server.
  destruct (negb (device_mode self =? ENROLLER_MODE)).
  - exists []. simpl. now rewrite app_nil_r.
  - unfold print at 1. rewrite (bind_done (emit_run _ _)).
    rewrite (bind_done (emit_run _ _)). rewrite advance_advance.
    set (s0 := advance (0 + 0) ([Print LogEnrollStart] ++ [FlaskStart port true]) s).
    destruct (enroll_loop_keeps Hturn cycles s0 Hhw) as (Hhw1 & tr & Htr & Hp).
    pose proof (Hev (Print LogEnrollStart)) as H1.
    pose proof (Hev (FlaskStart port true)) as H2.
    pose proof (Hev GpioCleanup) as H3.
    pose proof (Hev (Print LogProgramStopped)) as H4.
    unfold try_finally, try_except.
    destruct (RfidModuleEnroll.enroll_loop W cycles s0) as [[[] | e |] s1];
      simpl in Hhw1, Htr; simpl dispatch.
    + exists ([Print LogEnrollStart] ++ [FlaskStart port true] ++ tr ++ [GpioCleanup]).
      simpl. rewrite Htr, <- !app_assoc. split; [reflexivity |].
      change (P ([Print LogEnrollStart] ++ [FlaskStart port true]
                 ++ tr ++ [GpioCleanup])).
      pieces P_app.
    + destruct (is_KeyboardInterrupt e) eqn:Hk; [| destruct (is_Exception e) eqn:He].
      * exists ([Print LogEnrollStart] ++ [FlaskStart port true] ++ tr
                ++ [Print LogProgramStopped] ++ [GpioCleanup]).
        simpl. rewrite Htr, <- !app_assoc. split; [reflexivity |].
        change (P ([Print LogEnrollStart] ++ [FlaskStart port true] ++ tr
                   ++ [Print LogProgramStopped] ++ [GpioCleanup])).
        pieces P_app.
      * rewrite (bind_done (get_hw_run s1 p Hhw1)).
        rewrite enroll_indicate_failure_run.
        exists ([Print LogEnrollStart] ++ [FlaskStart port true] ++ tr
                ++ enroll_failure_events p ++ [GpioCleanup]).
        simpl. rewrite Htr, <- !app_assoc. split; [reflexivity |].
        change (P ([Print LogEnrollStart] ++ [FlaskStart port true] ++ tr
                   ++ enroll_failure_events p ++ [GpioCleanup])).
        pieces P_app.
      * exists ([Print LogEnrollStart] ++ [FlaskStart port true] ++ tr
                ++ [GpioCleanup]).
        simpl. rewrite Htr, <- !app_assoc. split; [reflexivity |].
        change (P ([Print LogEnrollStart] ++ [FlaskStart port true]
                   ++ tr ++ [GpioCleanup])).
        pieces P_app.
    + exists ([Print LogEnrollStart] ++ [FlaskStart port true] ++ tr).
      simpl. rewrite Htr, <- !app_assoc. split; [reflexivity |].
      change (P ([Print LogEnrollStart] ++ [FlaskStart port true] ++ tr)).
      pieces P_app.
Qed.
End Runs.

Lemma restful_nil : restful [].
Proof. intros q. reflexivity. Qed.

Lemma restful_app a b : restful a -> restful b -> restful (a ++ b).
Proof. intros Ha Hb q. now rewrite fold_left_app, Ha, Hb. Qed.

Lemma restful_level q tr tr' :
  restful tr' -> level q tr = false -> level q (tr ++ tr') = false.
Proof. unfold level. intros Hr Hl. now rewrite fold_left_app, Hl, Hr. Qed.

Lemma restful_reads tr : forallb is_read_event tr = true -> restful tr.
Proof.
  intros H q. induction tr as [| e tr IH]; [reflexivity |].
  simpl in H. apply andb_prop in H. destruct H as [He Htr].
  destruct e; simpl in *; try discriminate; auto.
Qed.

Ltac pin_cases p q :=
  simpl; destruct (buzzer p =? q), (green_led p =? q), (red_led p =? q);
  reflexivity.

Lemma restful_cues p :
  restful (success_events p) /\ restful (failure_events p)
  /\ restful (enroll_success_events p) /\ restful (enroll_failure_events p)
  /\ restful (listening_events p) /\ restful (setup_events p)
  /\ (forall d, restful (beep_events p d))
  /\ (forall pin d, restful (blink_events pin d)).
Proof.
  repeat split; try (intros q; pin_cases p q).
  - intros d q. pin_cases p q.
  - intros pin d q. simpl. destruct (pin =? q); reflexivity.
Qed.

Lemma restful_verify_turn p tr : verify_turn p tr -> restful tr.
Proof.
  intros [reads Hr | reads card v Hr].
  - now apply restful_reads.
  - apply restful_app; [now apply restful_reads |].
    intros q. destruct v; pin_cases p q.
Qed.

Lemma restful_enroll_turn p tr : enroll_turn p tr -> restful tr.
Proof.
  intros [reads Hr | reads Hr | reads card status Hr | reads card Hr];
    try (apply restful_app; [now apply restful_reads |]);
    try (now apply restful_reads); intros q; pin_cases p q.
Qed.

Lemma prefix_append a b : String.prefix a (a ++ b)%string = true.
Proof.
  induction a as [| c a IH]; simpl; [destruct b; reflexivity |].
  destruct (ascii_dec c c); [exact IH | congruence].
Qed.

Lemma string_app_assoc (a b c : string) : ((a ++ b) ++ c = a ++ b ++ c)%string.
Proof. induction a; simpl; congruence. Qed.

Lemma entry_request_is_verify_event card :
  is_verify_event (HttpGet (entry_url card) REQUEST_TIMEOUT) = true.
Proof.
  unfold is_verify_event, entry_url. rewrite <- string_app_assoc, prefix_append.
  reflexivity.
Qed.

Lemma temporary_user_request_is_enroll_event card :
  is_enroll_event (HttpPost (temporary_user_url card) None None) = true.
Proof.
  unfold is_enroll_event, temporary_user_url.
  now rewrite <- string_app_assoc, prefix_append.
Qed.

Lemma forallb_reads_verify tr :
  forallb is_read_event tr = true -> forallb is_verify_event tr = true.
Proof.
  induction tr as [| e tr IH]; [reflexivity |]. simpl.
  intros H. apply andb_prop in H. destruct H as [He Htr].
  rewrite (IH Htr), andb_true_r.
  destruct e; simpl in *; try discriminate; auto.
Qed.

Lemma forallb_reads_enroll tr :
  forallb is_read_event tr = true -> forallb is_enroll_event tr = true.
Proof.
  induction tr as [| e tr IH]; [reflexivity |]. simpl.
  intros H. apply andb_prop in H. destruct H as [He Htr].
  rewrite (IH Htr), andb_true_r.
  destruct e; simpl in *; try discriminate; auto.
Qed.

(** X11.  A run of [check_card_access] only polls, GETs entries with the request
    timeout, signals, logs and sleeps: it never posts, never sets up or
    releases the outputs, never starts a server and never brings up the
    reader again. *)
Theorem verification_footprint W self p cycles s :
  self_hw s = Some p ->
  exists tr,
    trace (snd (RfidModule.check_card_access W self cycles s)) = trace s ++ tr
    /\ forallb is_verify_event tr = true.
Proof.
  intros Hhw.
  apply (check_card_access_keeps W p (fun tr => forallb is_verify_event tr = true));
    auto.
  - intros a b Ha Hb. now rewrite forallb_app, Ha, Hb.
  - intros tr [reads Hr | reads card v Hr].
    + now apply forallb_reads_verify.
    + rewrite forallb_app, (forallb_reads_verify _ Hr).
      cbn [forallb andb]. rewrite entry_request_is_verify_event.
      destruct v; reflexivity.
Qed.

(** X11 at a concrete input. *)
Lemma verification_footprint_witness :
  exists tr,
    trace (snd (RfidModule.check_card_access granting_server reader 2 ready))
    = trace ready ++ tr
    /\ forallb is_verify_event tr = true.
Proof.
  apply (verification_footprint granting_server reader RfidModuleHw.default_pins 2 ready).
  reflexivity.
Defined.

(** X12.  As long as [check_card_access] is in its loop, after any number of
    turns, an output that was low when it was called is low: a turn that is
    over has driven low again every output it drove high. *)
Theorem verification_leaves_outputs_low W self p cycles s q :
  self_hw s = Some p ->
  level q (trace s) = false ->
  fst (RfidModule.check_card_access W self cycles s) = Running ->
  level q (trace (snd (RfidModule.check_card_access W self cycles s))) = false.
Proof.
  intros Hhw Hlow _.
  destruct (check_card_access_keeps W p restful restful_nil restful_app self cycles s)
    as (tr & Htr & Hr); auto.
  - apply restful_verify_turn.
  - intros m q'. reflexivity.
  - rewrite Htr. now apply restful_level.
Qed.

(** X12 at a concrete input. *)
Lemma verification_leaves_outputs_low_witness :
  level 10 (trace (snd (RfidModule.check_card_access offline_server reader 2 ready)))
  = false.
Proof.
  apply (verification_leaves_outputs_low offline_server reader
           RfidModuleHw.default_pins 2 ready 10);
    [reflexivity | reflexivity | vm_compute; reflexivity].
Defined.

(** X18.  A run of [start_enrollment_server] of [rfid_module_enroll.py] only polls,
    POSTs temporary users without body or timeout, starts its server thread,
    signals, logs, sleeps and releases the outputs, and it leaves low an output
    that was low. *)
Theorem enrollment_footprint_and_outputs W self p port cycles s :
  self_hw s = Some p ->
  exists tr,
    trace (snd (RfidModuleEnroll.start_enrollment_server W self port cycles s))
    = trace s ++ tr
    /\ forallb is_enroll_event tr = true
    /\ restful tr.
Proof.
  intros Hhw.
  apply (start_enrollment_server_keeps W p
           (fun tr => forallb is_enroll_event tr = true /\ restful tr)); auto.
  - split; [reflexivity | apply restful_nil].
  - intros a b [Ha Ha'] [Hb Hb']. split.
    + now rewrite forallb_app, Ha, Hb.
    + now apply restful_app.
  - intros tr Ht. split; [| now apply (restful_enroll_turn p)].
    destruct Ht as [reads Hr | reads Hr | reads card status Hr | reads card Hr];
      rewrite ?forallb_app, ?(forallb_reads_enroll _ Hr); cbn [forallb andb];
      rewrite ?temporary_user_request_is_enroll_event; reflexivity.
  - intros e. destruct e; auto; (split; [reflexivity | intros q; reflexivity]).
  - destruct (restful_cues p) as (_ & _ & _ & R4 & _).
    split; [reflexivity | exact R4].
Qed.

(** X18 at a concrete input. *)
Lemma enrollment_footprint_and_outputs_witness :
  exists tr,
    trace (snd (RfidModuleEnroll.start_enrollment_server offline_server enroller
                  5000 2 ready_enroll))
    = trace ready_enroll ++ tr
    /\ forallb is_enroll_event tr = true
    /\ restful tr.
Proof.
  apply (enrollment_footprint_and_outputs offline_server enroller
           RfidModuleEnrollHw.default_pins 5000 2 ready_enroll).
  reflexivity.
Defined.

Lemma level_advance {A} (r : outcome A) q dt evs s :
  restful evs ->
  level q (trace s) = false ->
  level q (trace (snd (r, advance dt evs s))) = false.
Proof. intros Hr Hl. cbn [snd advance trace]. now apply restful_level. Qed.

Lemma _beep_negative p d s :
  d < 0 ->
  _beep p d s = (Raised negative_sleep, advance 0 [GpioOutput (buzzer p) true] s).
Proof.
  intros Hd. unfold _beep, Gpio.output.
  rewrite (bind_done (emit_run _ _)).
  now rewrite (bind_raised (time_sleep_negative d _ Hd)).
Qed.

Lemma _blink_led_negative pin d s :
  d < 0 ->
  _blink_led pin d s = (Raised negative_sleep, advance 0 [GpioOutput pin true] s).
Proof.
  intros Hd. unfold _blink_led, Gpio.output.
  rewrite (bind_done (emit_run _ _)).
  now rewrite (bind_raised (time_sleep_negative d _ Hd)).
Qed.

Lemma rests_on_return_run {A} (c : M A) (a : A) dt evs :
  (forall s, c s = (Done a, advance dt evs s)) ->
  restful evs ->
  rests_on_return c.
Proof.
  intros Hrun Hr s q r s' Hc Hlow. rewrite Hrun in Hc.
  inversion Hc; subst. simpl trace. now apply restful_level.
Qed.

(** X9.  A call of the hardware controller that returns has left low every
    output that was low: no LED and no buzzer stays on.  A negative duration
    makes [_beep] and [_blink_led] raise the [ValueError] of [time.sleep]
    after the output was driven high, and it stays high. *)
Theorem indicator_calls_leave_outputs_low p :
  rests_on_return (RfidModuleHw.indicate_success p)
  /\ rests_on_return (RfidModuleHw.indicate_failure p)
  /\ rests_on_return (RfidModuleEnrollHw.indicate_success p)
  /\ rests_on_return (RfidModuleEnrollHw.indicate_failure p)
  /\ rests_on_return (start_enrollment_indicator p)
  /\ rests_on_return (HardwareController p)
  /\ (forall d, rests_on_return (_beep p d))
  /\ (forall pin d, rests_on_return (_blink_led pin d))
  /\ (forall d s,
        d < 0 ->
        fst (_beep p d s) = Raised negative_sleep
        /\ level (buzzer p) (trace (snd (_beep p d s))) = true)
  /\ (forall pin d s,
        d < 0 ->
        fst (_blink_led pin d s) = Raised negative_sleep
        /\ level pin (trace (snd (_blink_led pin d s))) = true).
Proof.
  destruct (restful_cues p) as (R1 & R2 & R3 & R4 & R5 & R6 & R7 & R8).
  split; [apply (rests_on_return_run _ _ _ _ (indicate_success_run p) R1) |].
  split; [apply (rests_on_return_run _ _ _ _ (indicate_failure_run p) R2) |].
  split; [apply (rests_on_return_run _ _ _ _ (enroll_indicate_success_run p) R3) |].
  split; [apply (rests_on_return_run _ _ _ _ (enroll_indicate_failure_run p) R4) |].
  split; [apply (rests_on_return_run _ _ _ _ (start_enrollment_indicator_run p) R5) |].
  split; [apply (rests_on_return_run _ _ _ _ (HardwareController_run p) R6) |].
  split; [| split; [| split]].
  - intros d s q r s' Hc Hlow. destruct (Z.lt_ge_cases d 0) as [Hd | Hd].
    + rewrite (_beep_negative p d s Hd) in Hc. discriminate.
    + rewrite (_beep_run p d s Hd) in Hc. inversion Hc; subst.
      simpl trace. apply restful_level; [apply R7 | exact Hlow].
  - intros pin d s q r s' Hc Hlow. destruct (Z.lt_ge_cases d 0) as [Hd | Hd].
    + rewrite (_blink_led_negative pin d s Hd) in Hc. discriminate.
    + rewrite (_blink_led_run pin d s Hd) in Hc. inversion Hc; subst.
      simpl trace. apply restful_level; [apply R8 | exact Hlow].
  - intros d s Hd. rewrite (_beep_negative p d s Hd). split; [reflexivity |].
    simpl. unfold level. rewrite fold_left_app. simpl. now rewrite Z.eqb_refl.
  - intros pin d s Hd. rewrite (_blink_led_negative pin d s Hd). split; [reflexivity |].
    simpl. unfold level. rewrite fold_left_app. simpl. now rewrite Z.eqb_refl.
Qed.

(** X9 at the failure cue of [rfid_module.py] and at a tone of negative
    length. *)
Lemma indicator_calls_leave_outputs_low_witness :
  level 10 (trace (snd (RfidModuleHw.indicate_failure RfidModuleHw.default_pins ready)))
  = false
  /\ level 10 (trace (snd (_beep RfidModuleHw.default_pins (-100) ready))) = true.
Proof.
  split.
  - exact (proj1 (proj2 (indicator_calls_leave_outputs_low RfidModuleHw.default_pins))
             ready 10 tt
             (snd (RfidModuleHw.indicate_failure RfidModuleHw.default_pins ready))
             ltac:(vm_compute; reflexivity) ltac:(reflexivity)).
  - exact (proj2 (proj1 (proj2 (proj2 (proj2 (proj2 (proj2 (proj2 (proj2 (proj2
             (indicator_calls_leave_outputs_low
                RfidModuleHw.default_pins)))))))))
                    (-100) ready ltac:(lia))).
Defined.

(** X19.  In enroller mode, however [start_enrollment_server] of
    [rfid_module_enroll.py] ends, the last event is the release of the outputs. *)
Theorem enrollment_end_releases_outputs W self port cycles s :
  device_mode self = ENROLLER_MODE ->
  fst (RfidModuleEnroll.start_enrollment_server W self port cycles s) <> Running ->
  exists tr,
    trace (snd (RfidModuleEnroll.start_enrollment_server W self port cycles s))
    = tr ++ [GpioCleanup].
Proof.
  intros Hmode. unfold RfidModuleEnroll.start_enrollment_server.
  rewrite Hmode. change (negb (ENROLLER_MODE =? ENROLLER_MODE)) with false.
  cbv iota. unfold print. rewrite !(bind_done (emit_run _ _)).
  unfold try_finally, Gpio.cleanup, emit.
  match goal with
  | |- context [try_except ?c ?cl ?s0] => destruct (try_except c cl s0) as [[[] | e |] s1]
  end; cbn [fst snd trace]; intros Hnr.
  - now exists (trace s1).
  - now exists (trace s1).
  - now elim Hnr.
Qed.

(** X19 at a concrete input. *)
Lemma enrollment_end_releases_outputs_witness :
  exists tr,
    trace (snd (RfidModuleEnroll.start_enrollment_server offline_server enroller
                  5000 2 ready_enroll))
    = tr ++ [GpioCleanup].
Proof.
  apply (enrollment_end_releases_outputs offline_server enroller 5000 2 ready_enroll).
  - reflexivity.
  - vm_compute. discriminate.
Defined.

Lemma not_Exception_interrupt e :
  is_Exception e = false -> is_KeyboardInterrupt e = true.
Proof. unfold is_Exception, is_KeyboardInterrupt. now destruct (cls e). Qed.

(** X10.  A mode entry point called on a handler of the other mode raises its
    [RuntimeError] and does nothing else. *)
Theorem wrong_mode_is_refused W self port cycles s :
  (device_mode self <> READER_MODE ->
   RfidModule.check_card_access W self cycles s
   = (Raised RfidModule.wrong_mode_reader, s))
  /\ (device_mode self <> ENROLLER_MODE ->
      RfidModule.start_enrollment_server self port s
      = (Raised RfidModule.wrong_mode_enroller, s)
      /\ RfidModuleEnroll.start_enrollment_server W self port cycles s
         = (Raised RfidModuleEnroll.wrong_mode_enroller, s)).
Proof.
  split.
  - intros H. unfold RfidModule.check_card_access.
    apply Z.eqb_neq in H. now rewrite H.
  - intros H. apply Z.eqb_neq in H.
    unfold RfidModule.start_enrollment_server,
      RfidModuleEnroll.start_enrollment_server. now rewrite H.
Qed.

(** X10 at a concrete input. *)
Lemma wrong_mode_is_refused_witness :
  RfidModule.check_card_access quiet_reader enroller 3 ready
  = (Raised RfidModule.wrong_mode_reader, ready)
  /\ RfidModuleEnroll.start_enrollment_server quiet_reader reader 5000 3 ready
     = (Raised RfidModuleEnroll.wrong_mode_enroller, ready).
Proof.
  split.
  - apply (proj1 (wrong_mode_is_refused quiet_reader enroller 5000 3 ready)).
    discriminate.
  - apply (proj2 (wrong_mode_is_refused quiet_reader reader 5000 3 ready)).
    discriminate.
Defined.

(** X17.  In the auto-capture loop a card whose POST gets a response, of
    whatever status, is signalled as a Success, once, after one remote call;
    the turn ends five seconds after the POST has returned, however long the
    POST took. *)
Theorem auto_capture_signals_success_whatever_the_status W s card s1 p status b :
  read_card W 10000 s = (Done (Some card), s1) ->
  self_hw s = Some p ->
  http W (n_http s) = HttpResponse status b ->
  exists s2 tr,
    RfidModuleEnroll.enroll_cycle W s = (Done tt, s2)
    /\ trace s2 = trace s ++ tr
    /\ signals tr = [Success]
    /\ remote_calls tr = 1%nat
    /\ now s2 = now s1 + Z.of_N (latency W (n_http s)) + 5000.
Proof.
  intros Hread Hhw Hh.
  pose proof (read_card_spec _ _ _ _ _ Hread)
    as (F1 & F2 & _ & _ & (reads & Htr & Hreads) & _).
  rewrite Hhw in F2. rewrite <- F1 in Hh.
  pose proof (enroll_cycle_card W s card s1 p Hread F2) as Hrun.
  rewrite Hh in Hrun.
  eexists; eexists. split; [exact Hrun |]. split; [| split; [| split]].
  - simpl trace. rewrite Htr, <- app_assoc. reflexivity.
  - rewrite signals_app, (signals_reads _ Hreads). reflexivity.
  - rewrite remote_calls_app, (remote_calls_reads _ Hreads). reflexivity.
  - simpl. rewrite F1. lia.
Qed.

(** X17 at a concrete input. *)
Lemma auto_capture_signals_success_whatever_the_status_witness :
  exists s2 tr,
    RfidModuleEnroll.enroll_cycle failing_server ready_enroll = (Done tt, s2)
    /\ trace s2 = trace ready_enroll ++ tr
    /\ signals tr = [Success]
    /\ remote_calls tr = 1%nat
    /\ now s2 = now (snd (read_card failing_server 10000 ready_enroll)) + 40 + 5000.
Proof.
  apply (auto_capture_signals_success_whatever_the_status failing_server ready_enroll
           "04a3b2c1" (snd (read_card failing_server 10000 ready_enroll))
           RfidModuleEnrollHw.default_pins 500
           (BodyRaises (mkExn RequestException "not JSON"))).
  - vm_compute. reflexivity.
  - reflexivity.
  - reflexivity.
Defined.

(** X15.  A turn in which no card is read: the verification loop adds nothing to what
    [read_card] did, the enrollment loop sleeps half a second; neither makes a
    remote call, and the whole window has elapsed. *)
Theorem idle_turns W s s1 :
  (read_card W 1000 s = (Done None, s1) ->
   RfidModule.verify_cycle W s = (Done tt, s1)
   /\ n_http s1 = n_http s /\ now s + 1000 <= now s1)
  /\ (read_card W 10000 s = (Done None, s1) ->
      RfidModuleEnroll.enroll_cycle W s = (Done tt, advance 500 [Sleep 500] s1)
      /\ n_http s1 = n_http s /\ now s + 10000 <= now s1).
Proof.
  split; intros Hread;
    pose proof (read_card_spec _ _ _ _ _ Hread) as (F1 & _ & _ & _ & _ & F6 & _).
  - unfold RfidModule.verify_cycle. rewrite (bind_done Hread).
    split; [reflexivity | split; [exact F1 | now apply F6]].
  - unfold RfidModuleEnroll.enroll_cycle. rewrite (bind_done Hread).
    rewrite (time_sleep_run 500 _ ltac:(lia)).
    split; [reflexivity | split; [exact F1 | now apply F6]].
Qed.

(** X15 at a concrete input. *)
Lemma idle_turns_witness :
  RfidModule.verify_cycle quiet_reader ready
  = (Done tt, snd (read_card quiet_reader 1000 ready))
  /\ n_http (snd (read_card quiet_reader 1000 ready)) = n_http ready
  /\ now ready + 1000 <= now (snd (read_card quiet_reader 1000 ready)).
Proof.
  apply (proj1 (idle_turns quiet_reader ready (snd (read_card quiet_reader 1000 ready)))).
  vm_compute. reflexivity.
Defined.

(** The operator's interrupt during the read of any turn. *)
Lemma check_card_access_interrupted W self p k s sk s1 e m :
  self_hw s = Some p ->
  device_mode self = READER_MODE ->
  RfidModule.check_card_access W self k s = (Running, sk) ->
  read_card W 1000 sk = (Raised e, s1) ->
  RfidModule.check_card_access W self (S k + m) s
  = (Done tt, advance 0 [Print LogVerifyStopped] s1).
Proof.
  intros Hhw Hmode Hk Hread.
  pose proof (read_card_spec _ _ _ _ _ Hread) as (_ & _ & _ & _ & _ & _ & F7 & _).
  destruct (F7 e eq_refl) as [He _]. apply not_Exception_interrupt in He.
  apply (check_card_access_looping W self k s sk Hmode) in Hk.
  rewrite (check_card_access_start W self (S k + m) s Hmode).
  replace (S k + m)%nat with (k + S m)%nat by lia.
  assert (RfidModule.verify_loop W (k + S m) (advance 0 [Print LogVerifyStart] s)
          = (Raised e, s1)) as Hloop.
  { rewrite (verify_loop_app W p (S m) k (advance 0 [Print LogVerifyStart] s) sk
               Hhw Hk).
    simpl RfidModule.verify_loop. unfold RfidModule.verify_cycle.
    now rewrite (bind_raised (bind_raised Hread _)). }
  rewrite (try_except_raised Hloop). simpl dispatch. rewrite He.
  unfold print. now rewrite emit_run.
Qed.

Lemma start_enrollment_server_interrupted W self p port k s sk s1 e m :
  self_hw s = Some p ->
  device_mode self = ENROLLER_MODE ->
  RfidModuleEnroll.start_enrollment_server W self port k s = (Running, sk) ->
  read_card W 10000 sk = (Raised e, s1) ->
  RfidModuleEnroll.start_enrollment_server W self port (S k + m) s
  = (Done tt, advance 0 [Print LogProgramStopped; GpioCleanup] s1).
Proof.
  intros Hhw Hmode Hk Hread.
  pose proof (read_card_spec _ _ _ _ _ Hread) as (_ & _ & _ & _ & _ & _ & F7 & _).
  destruct (F7 e eq_refl) as [He _]. apply not_Exception_interrupt in He.
  apply (start_enrollment_server_looping W self port k s sk Hmode) in Hk.
  rewrite (start_enrollment_server_start W self port (S k + m) s Hmode).
  replace (S k + m)%nat with (k + S m)%nat by lia.
  assert (RfidModuleEnroll.enroll_loop W (k + S m)
            (advance 0 [Print LogEnrollStart; FlaskStart port true] s)
          = (Raised e, s1)) as Hloop.
  { rewrite (enroll_loop_app W p (S m) k
               (advance 0 [Print LogEnrollStart; FlaskStart port true] s) sk Hhw Hk).
    simpl RfidModuleEnroll.enroll_loop. unfold RfidModuleEnroll.enroll_cycle.
    now rewrite (bind_raised (bind_raised Hread _)). }
  unfold try_finally. rewrite (try_except_raised Hloop). simpl dispatch. rewrite He.
  unfold print, Gpio.cleanup. rewrite !emit_run, advance_advance. reflexivity.
Qed.

Lemma interrupted_read_is_silent W timeout s e s1 :
  read_card W timeout s = (Raised e, s1) -> signals (trace s1) = signals (trace s).
Proof.
  intros Hread.
  pose proof (read_card_spec _ _ _ _ _ Hread) as (_ & _ & _ & _ & (reads & Htr & Hr) & _).
  now rewrite Htr, signals_app, (signals_reads _ Hr), app_nil_r.
Qed.

(** X16.  The operator's interrupt during the read of any turn ends the mode
    function normally and without a signal: [check_card_access] logs and
    returns, [start_enrollment_server] of [rfid_module_enroll.py] logs,
    releases the outputs and returns.  [k] turns have gone by and the
    function is still in its loop, in state [sk], when the read begins. *)
Theorem interrupt_ends_the_loops W self p port k s sk s1 e :
  self_hw s = Some p ->
  (device_mode self = READER_MODE ->
   RfidModule.check_card_access W self k s = (Running, sk) ->
   read_card W 1000 sk = (Raised e, s1) ->
   signals (trace s1) = signals (trace sk)
   /\ forall m,
        RfidModule.check_card_access W self (S k + m) s
        = (Done tt, advance 0 [Print LogVerifyStopped] s1))
  /\ (device_mode self = ENROLLER_MODE ->
      RfidModuleEnroll.start_enrollment_server W self port k s = (Running, sk) ->
      read_card W 10000 sk = (Raised e, s1) ->
      signals (trace s1) = signals (trace sk)
      /\ forall m,
           RfidModuleEnroll.start_enrollment_server W self port (S k + m) s
           = (Done tt, advance 0 [Print LogProgramStopped; GpioCleanup] s1)).
Proof.
  intros Hhw. split; intros Hmode Hk Hread;
    (split; [exact (interrupted_read_is_silent _ _ _ _ _ Hread) | intros m]).
  - exact (check_card_access_interrupted W self p k s sk s1 e m Hhw Hmode Hk Hread).
  - exact (start_enrollment_server_interrupted W self p port k s sk s1 e m
             Hhw Hmode Hk Hread).
Qed.

(** X16 at an interrupt in the second turn of the verification loop and in
    the first turn of the enrollment loop. *)
Lemma interrupt_ends_the_loops_witness :
  fst (RfidModule.check_card_access late_interrupt_reader reader 3 ready) = Done tt
  /\ signals (trace (snd (RfidModule.check_card_access late_interrupt_reader reader 3
                            ready))) = []
  /\ fst (RfidModuleEnroll.start_enrollment_server late_interrupt_reader enroller
            5000 2 ready_enroll) = Done tt.
Proof.
  destruct (proj2 (interrupt_ends_the_loops late_interrupt_reader enroller
                     RfidModuleEnrollHw.default_pins 5000 0 ready_enroll
                     (snd (RfidModuleEnroll.start_enrollment_server
                             late_interrupt_reader enroller 5000 0 ready_enroll))
                     (snd (read_card late_interrupt_reader 10000
                             (snd (RfidModuleEnroll.start_enrollment_server
                                     late_interrupt_reader enroller 5000 0
                                     ready_enroll))))
                     (mkExn KeyboardInterrupt "") eq_refl)
              eq_refl ltac:(vm_compute; reflexivity) ltac:(vm_compute; reflexivity))
    as [_ Hend].
  specialize (Hend 1%nat).
  destruct (proj1 (interrupt_ends_the_loops late_interrupt_reader reader
                     RfidModuleHw.default_pins 5000 1 ready
                     (snd (RfidModule.check_card_access late_interrupt_reader reader
                             1 ready))
                     (snd (read_card late_interrupt_reader 1000
                             (snd (RfidModule.check_card_access late_interrupt_reader
                                     reader 1 ready))))
                     (mkExn KeyboardInterrupt "") eq_refl)
              eq_refl ltac:(vm_compute; reflexivity) ltac:(vm_compute; reflexivity))
    as [_ Hrun].
  specialize (Hrun 1%nat).
  split; [| split].
  - exact (f_equal fst Hrun).
  - exact (f_equal (fun r => signals (trace (snd r))) Hrun).
  - exact (f_equal fst Hend).
Defined.

Lemma enroll_remote_raises W s p card s2 e :
  self_hw s = Some p ->
  read_card W 10000 (advance 500 (listening_events p) s) = (Done (Some card), s2) ->
  http W (n_http s2) = HttpRaises e ->
  RfidModule.enroll W s
  = if is_Exception e
    then (Done (error_response e),
          advance 600 (enroll_request card :: failure_events p) (after_http W s2))
    else (Raised e, advance 0 [enroll_request card] (after_http W s2)).
Proof.
  intros Hhw Hread Hh.
  pose proof (read_card_spec _ _ _ _ _ Hread) as (_ & F2 & _).
  simpl self_hw in F2. rewrite Hhw in F2.
  unfold RfidModule.enroll, try_except.
  rewrite (bind_done (get_hw_run s p Hhw)).
  rewrite (bind_done (start_enrollment_indicator_run p s)).
  rewrite (bind_done Hread).
  destruct s2 as [t tr a q h hw pn]. simpl in F2, Hh. subst hw.
  unfold enroll_request, error_response.
  cbv beta iota zeta delta [try_except bind requests_post next_http emit print
    ret raise dispatch get_hw time_sleep Z.ltb Z.compare elapse fst snd
    RfidModuleHw.indicate_success RfidModuleHw.indicate_failure for_range
    _beep _blink_led Gpio.output Gpio.HIGH Gpio.LOW
    now trace n_attempt n_poll n_http self_hw self_pn532].
  rewrite Hh. destruct (is_Exception e); close_state.
Qed.

(** X20.  When the remote call of the view of [/api] raises an [Exception], the view
    answers 500 with the text of the exception and fires one Failure signal. *)
Theorem api_view_reports_remote_exception W s p card s2 e :
  self_hw s = Some p ->
  read_card W 10000 (advance 500 (listening_events p) s) = (Done (Some card), s2) ->
  http W (n_http s) = HttpRaises e ->
  is_Exception e = true ->
  exists s3 tr,
    RfidModule.enroll W s = (Done (error_response e), s3)
    /\ trace s3 = trace s ++ tr
    /\ signals tr = [Failure]
    /\ remote_calls tr = 1%nat.
Proof.
  intros Hhw Hread Hh He.
  pose proof (read_card_spec _ _ _ _ _ Hread)
    as (F1 & _ & _ & _ & (reads & Htr & Hreads) & _).
  simpl in F1, Htr. rewrite <- F1 in Hh.
  rewrite (enroll_remote_raises W s p card s2 e Hhw Hread Hh), He.
  eexists; eexists. split; [reflexivity |]. split; [| split].
  - simpl trace. rewrite Htr, <- !app_assoc. reflexivity.
  - rewrite !signals_app, (signals_reads _ Hreads). reflexivity.
  - rewrite !remote_calls_app, (remote_calls_reads _ Hreads). reflexivity.
Qed.

(** X20 at a concrete input. *)
Lemma api_view_reports_remote_exception_witness :
  exists s3 tr,
    RfidModule.enroll offline_server ready
    = (Done (error_response (mkExn RequestException "connection refused")), s3)
    /\ trace s3 = trace ready ++ tr
    /\ signals tr = [Failure]
    /\ remote_calls tr = 1%nat.
Proof.
  apply (api_view_reports_remote_exception offline_server ready
           RfidModuleHw.default_pins "04a3b2c1"
           (snd (read_card offline_server 10000
                   (advance 500 (listening_events RfidModuleHw.default_pins) ready)))).
  - reflexivity.
  - vm_compute. reflexivity.
  - reflexivity.
  - reflexivity.
Defined.

(** X21.  When the reader and the remote service raise nothing but [Exception]s, the
    view of [/api] always answers, with 200, 408 or 500, fires exactly one
    signal, Success exactly with 200, makes at most one remote call and leaves
    low an output that was low. *)
Theorem api_view_always_answers W s p :
  self_hw s = Some p ->
  (forall i, raises_errors_only (poll W i)) ->
  (forall i, remote_errors_only (http W i)) ->
  exists resp s' tr sig,
    RfidModule.enroll W s = (Done resp, s')
    /\ trace s' = trace s ++ tr
    /\ signals tr = [sig]
    /\ (status_code resp = 200 /\ sig = Success
        \/ (status_code resp = 408 \/ status_code resp = 500) /\ sig = Failure)
    /\ (remote_calls tr <= 1)%nat
    /\ restful tr.
Proof.
  intros Hhw Hpoll Hremote.
  destruct (read_card W 10000 (advance 500 (listening_events p) s)) as [rr s2] eqn:Hread.
  pose proof (read_card_spec _ _ _ _ _ Hread)
    as (F1 & _ & _ & _ & (reads & Htr & Hreads) & _ & Hraised & Hnr).
  simpl in F1, Htr.
  destruct (restful_cues p) as (R1 & R2 & _ & _ & R5 & _).
  assert (forall c, restful [enroll_request c]) as Rreq by (intros c q; reflexivity).
  pose proof (restful_reads _ Hreads) as Rreads.
  destruct rr as [[card |] | e |]; [| | | easy].
  - destruct (http W (n_http s2)) as [status b | e] eqn:Hh.
    + rewrite (enroll_card W s p card s2 status b Hhw Hread Hh).
      destruct (status =? 200).
      * exists (enrolled_response card),
          (advance 2100 (enroll_request card :: success_events p) (after_http W s2)),
          (listening_events p ++ reads ++ [enroll_request card] ++ success_events p),
          Success.
        split; [reflexivity |]. split.
        { simpl trace. rewrite Htr, <- !app_assoc. reflexivity. }
        split. { rewrite !signals_app, (signals_reads _ Hreads). reflexivity. }
        split; [left; split; reflexivity |]. split.
        { rewrite !remote_calls_app, (remote_calls_reads _ Hreads).
          unfold remote_calls. simpl. lia. }
        repeat (apply restful_app; [solve [auto] |]); auto.
      * exists rejected_response,
          (advance 600 (enroll_request card :: failure_events p) (after_http W s2)),
          (listening_events p ++ reads ++ [enroll_request card] ++ failure_events p),
          Failure.
        split; [reflexivity |]. split.
        { simpl trace. rewrite Htr, <- !app_assoc. reflexivity. }
        split. { rewrite !signals_app, (signals_reads _ Hreads). reflexivity. }
        split; [right; split; [right |]; reflexivity |]. split.
        { rewrite !remote_calls_app, (remote_calls_reads _ Hreads).
          unfold remote_calls. simpl. lia. }
        repeat (apply restful_app; [solve [auto] |]); auto.
    + rewrite (enroll_remote_raises W s p card s2 e Hhw Hread Hh).
      specialize (Hremote (n_http s2)). rewrite Hh in Hremote. simpl in Hremote.
      rewrite Hremote.
      exists (error_response e),
        (advance 600 (enroll_request card :: failure_events p) (after_http W s2)),
        (listening_events p ++ reads ++ [enroll_request card] ++ failure_events p),
        Failure.
      split; [reflexivity |]. split.
      { simpl trace. rewrite Htr, <- !app_assoc. reflexivity. }
      split. { rewrite !signals_app, (signals_reads _ Hreads). reflexivity. }
      split; [right; split; [right |]; reflexivity |]. split.
      { rewrite !remote_calls_app, (remote_calls_reads _ Hreads).
          unfold remote_calls. simpl. lia. }
      repeat (apply restful_app; [solve [auto] |]); auto.
  - rewrite (enroll_timeout W s p s2 Hhw Hread).
    exists timeout_response, (advance 600 (failure_events p) s2),
      (listening_events p ++ reads ++ failure_events p), Failure.
    split; [reflexivity |]. split.
    { simpl trace. rewrite Htr, <- !app_assoc. reflexivity. }
    split. { rewrite !signals_app, (signals_reads _ Hreads). reflexivity. }
    split; [right; split; [left |]; reflexivity |]. split.
    { rewrite !remote_calls_app, (remote_calls_reads _ Hreads).
          unfold remote_calls. simpl. lia. }
    repeat (apply restful_app; [solve [auto] |]); auto.
  - destruct (Hraised e eq_refl) as (He & i & d & Hp).
    specialize (Hpoll i). rewrite Hp in Hpoll. simpl in Hpoll. congruence.
Qed.

(** X21 at a concrete input. *)
Lemma api_view_always_answers_witness :
  exists resp s' tr sig,
    RfidModule.enroll hiccup_reader ready = (Done resp, s')
    /\ trace s' = trace ready ++ tr
    /\ signals tr = [sig]
    /\ (status_code resp = 200 /\ sig = Success
        \/ (status_code resp = 408 \/ status_code resp = 500) /\ sig = Failure)
    /\ (remote_calls tr <= 1)%nat
    /\ restful tr.
Proof.
  apply (api_view_always_answers hiccup_reader ready RfidModuleHw.default_pins).
  - reflexivity.
  - intros [| [| i]]; simpl; auto.
  - intros i. reflexivity.
Defined.



(** One [try] of the bring-up takes one attempt and at most three seconds. *)
Lemma attempt_once_bounds W attempt rc s :
  n_attempt (snd (attempt_once W attempt rc s)) = S (n_attempt s)
  /\ now s <= now (snd (attempt_once W attempt rc s)) <= now s + 3000.
Proof.
  unfold attempt_once, try_except. rewrite attempt_body_run.
  destruct (bring_up W (n_attempt s)) as [v | st e].
  - simpl. split; [reflexivity | lia].
  - simpl dispatch. destruct (is_Exception e).
    + unfold print. rewrite (bind_done (emit_run _ _)).
      destruct (attempt <? rc - 1).
      * rewrite (bind_done (time_sleep_run 2000 _ ltac:(lia))). unfold ret. simpl.
        destruct st; simpl; split; try reflexivity; lia.
      * unfold raise. simpl. destruct st; simpl; split; try reflexivity; lia.
    + unfold raise. simpl. destruct st; simpl; split; try reflexivity; lia.
Qed.

Lemma init_attempts_bounds W rc : forall k attempt s,
  (n_attempt s <= n_attempt (snd (init_attempts W k attempt rc s))
                <= n_attempt s + k)%nat
  /\ now s <= now (snd (init_attempts W k attempt rc s))
            <= now s + 3000 * Z.of_nat k.
Proof.
  induction k as [| k IH]; intros attempt s.
  - simpl. split; lia.
  - destruct (attempt_once_bounds W attempt rc s) as [Hn Ht].
    rewrite Nat2Z.inj_succ.
    cbn [init_attempts]. unfold bind.
    destruct (attempt_once W attempt rc s) as [[[v |] | e |] s1];
      cbn [snd fst ret] in *; try (split; lia).
    destruct (IH (attempt + 1) s1) as [Hn' Ht']. split; lia.
Qed.

Lemma attempt_once_returns W attempt rc s :
  fst (attempt_once W attempt rc s) <> Running.
Proof.
  unfold attempt_once, try_except. rewrite attempt_body_run.
  destruct (bring_up W (n_attempt s)) as [v | st e]; [discriminate |].
  simpl dispatch. destruct (is_Exception e); [| discriminate].
  unfold print. rewrite (bind_done (emit_run _ _)).
  destruct (attempt <? rc - 1); [| discriminate].
  rewrite (bind_done (time_sleep_run 2000 _ ltac:(lia))). discriminate.
Qed.

Lemma init_attempts_returns W rc : forall k attempt s,
  fst (init_attempts W k attempt rc s) <> Running.
Proof.
  induction k as [| k IH]; intros attempt s; [discriminate |].
  pose proof (attempt_once_returns W attempt rc s) as Ha.
  cbn [init_attempts]. unfold bind.
  destruct (attempt_once W attempt rc s) as [[[v |] | e |] s1];
    try discriminate; [apply IH | now elim Ha].
Qed.

(** X6.  Whatever the peripheral does, [_initialize_pn532] comes to an end after at
    most [retry_count] attempts and at most three seconds of sleeping for each. *)
Theorem bring_up_is_bounded W rc s :
  (n_attempt (snd (_initialize_pn532 W rc s)) <= n_attempt s + Z.to_nat rc)%nat
  /\ now s <= now (snd (_initialize_pn532 W rc s))
            <= now s + 3000 * Z.max 0 rc
  /\ fst (_initialize_pn532 W rc s) <> Running.
Proof.
  unfold _initialize_pn532.
  destruct (init_attempts_bounds W rc (Z.to_nat rc) 0 s) as [Hn Ht].
  split; [lia | split; [lia | apply init_attempts_returns]].
Qed.

Lemma constructor_state W p mode rc s :
  PN532Handler W p mode rc s
  = match _initialize_pn532 W rc (constructed p s) with
    | (Done _, s') => (Done (mkHandler mode rc), s')
    | (Raised e, s') => (Raised e, s')
    | (Running, s') => (Running, s')
    end.
Proof.
  unfold PN532Handler. rewrite (bind_done (HardwareController_run p s)).
  assert (set_hw p (advance 0 (setup_events p) s) = (Done tt, constructed p s)) as Hset.
  { destruct s as [t tr a q h hw pn]. unfold set_hw, advance, constructed. simpl.
    now rewrite Z.add_0_r. }
  rewrite (bind_done Hset). unfold bind.
  destruct (_initialize_pn532 W rc (constructed p s)) as [[r | e |] s']; reflexivity.
Qed.

Lemma PN532Handler_exhausted W p mode n s :
  (0 < n)%nat ->
  (forall i, (i < n)%nat -> attempt_fails (bring_up W (n_attempt s + i))) ->
  exists s' tr,
    PN532Handler W p mode (Z.of_nat n) s = (Raised init_error, s')
    /\ trace s' = trace s ++ setup_events p ++ tr
    /\ tr = separated W (n_attempt s) 0 n
    /\ attempts_made tr = n
    /\ backoffs tr = (n - 1)%nat
    /\ self_hw s' = Some p.
Proof.
  intros Hn Hfail.
  destruct (initialize_exhausted W n (constructed p s) Hn Hfail)
    as (s' & tr & Hrun & Htr & Hsep & Ha & Hb & Hhw).
  exists s', tr. rewrite constructor_state, Hrun.
  split; [reflexivity |]. split; [| auto].
  rewrite Htr. simpl trace. now rewrite <- app_assoc.
Qed.

(** X7.  With a retry count of at least one and a bring-up that always fails, the
    constructor sets up the outputs, makes that many attempts with a backoff
    between consecutive ones and none after the last, and raises the
    initialization error with [self.hw] set. *)
Theorem constructor_fails_after_retry_budget W p mode n s :
  (0 < n)%nat ->
  (forall i, (i < n)%nat -> attempt_fails (bring_up W (n_attempt s + i))) ->
  exists s' tr,
    PN532Handler W p mode (Z.of_nat n) s = (Raised init_error, s')
    /\ trace s' = trace s ++ setup_events p ++ tr
    /\ tr = separated W (n_attempt s) 0 n
    /\ attempts_made tr = n
    /\ backoffs tr = (n - 1)%nat
    /\ self_hw s' = Some p.
Proof. apply PN532Handler_exhausted. Qed.

(** X7 at a concrete input. *)
Lemma constructor_fails_after_retry_budget_witness :
  exists s' tr,
    PN532Handler dead_reader RfidModuleHw.default_pins READER_MODE 3 boot
    = (Raised init_error, s')
    /\ trace s' = trace boot ++ setup_events RfidModuleHw.default_pins ++ tr
    /\ tr = separated dead_reader 0 0 3
    /\ attempts_made tr = 3%nat
    /\ backoffs tr = 2%nat
    /\ self_hw s' = Some RfidModuleHw.default_pins.
Proof.
  apply (constructor_fails_after_retry_budget dead_reader RfidModuleHw.default_pins
           READER_MODE 3 boot).
  - lia.
  - intros i _. reflexivity.
Defined.

Lemma PN532Handler_succeeds W p mode n k v s :
  (0 < k <= n)%nat ->
  (forall i, (i < k - 1)%nat -> attempt_fails (bring_up W (n_attempt s + i))) ->
  bring_up W (n_attempt s + (k - 1)) = AttemptOk v ->
  exists s' tr,
    PN532Handler W p mode (Z.of_nat n) s = (Done (mkHandler mode (Z.of_nat n)), s')
    /\ trace s' = trace s ++ setup_events p ++ tr
    /\ attempts_made tr = k
    /\ backoffs tr = (k - 1)%nat
    /\ n_attempt s' = (n_attempt s + k)%nat
    /\ self_hw s' = Some p
    /\ self_pn532 s' = true.
Proof.
  intros Hk Hfail Hok.
  destruct (init_attempts_succeeds W (Z.of_nat n) v (k - 1) n 0 (constructed p s)
              Hfail Hok ltac:(lia) ltac:(lia)) as (s' & Hrun & Htr & Hn & Hpn & Hhw).
  exists s', (retried W (n_attempt s) 0 (k - 1)
              ++ attempt_events (AttemptOk v) (Z.of_nat (k - 1))).
  rewrite constructor_state. unfold _initialize_pn532. rewrite Nat2Z.id, Hrun.
  split; [reflexivity |]. split.
  { rewrite Htr. simpl trace. simpl n_attempt. now rewrite <- !app_assoc. }
  rewrite attempts_made_app, backoffs_app.
  destruct (retried_counts W (k - 1) (n_attempt s) 0) as [-> ->].
  destruct (attempt_events_counts (AttemptOk v) (Z.of_nat (k - 1))) as [-> ->].
  simpl n_attempt in Hn. repeat split; auto; lia.
Qed.

(** X8.  When the bring-up first works at attempt [k] of at most [n], the constructor
    returns after exactly [k] attempts and [k - 1] backoffs, with [self.hw] and
    [self.pn532] set. *)
Theorem constructor_stops_at_first_working_attempt W p mode n k v s :
  (0 < k <= n)%nat ->
  (forall i, (i < k - 1)%nat -> attempt_fails (bring_up W (n_attempt s + i))) ->
  bring_up W (n_attempt s + (k - 1)) = AttemptOk v ->
  exists s' tr,
    PN532Handler W p mode (Z.of_nat n) s = (Done (mkHandler mode (Z.of_nat n)), s')
    /\ trace s' = trace s ++ setup_events p ++ tr
    /\ attempts_made tr = k
    /\ backoffs tr = (k - 1)%nat
    /\ n_attempt s' = (n_attempt s + k)%nat
    /\ self_hw s' = Some p
    /\ self_pn532 s' = true.
Proof. apply PN532Handler_succeeds. Qed.

(** X8 at a concrete input. *)
Lemma constructor_stops_at_first_working_attempt_witness :
  exists s' tr,
    PN532Handler slow_start_reader RfidModuleHw.default_pins READER_MODE 3 boot
    = (Done (mkHandler READER_MODE 3), s')
    /\ trace s' = trace boot ++ setup_events RfidModuleHw.default_pins ++ tr
    /\ attempts_made tr = 2%nat
    /\ backoffs tr = 1%nat
    /\ n_attempt s' = 2%nat
    /\ self_hw s' = Some RfidModuleHw.default_pins
    /\ self_pn532 s' = true.
Proof.
  apply (constructor_stops_at_first_working_attempt slow_start_reader
           RfidModuleHw.default_pins READER_MODE 3 2 1 boot).
  - lia.
  - intros i Hi. assert (i = 0%nat) as -> by lia. reflexivity.
  - reflexivity.
Defined.

(** X4.  [read_card] always comes to an end, and it only polls, logs read errors and
    sleeps a tenth of a second: no remote call, no signal, no output driven, no
    bring-up attempt, no attribute changed. *)
Theorem read_card_only_polls W timeout s :
  fst (read_card W timeout s) <> Running
  /\ n_http (snd (read_card W timeout s)) = n_http s
  /\ n_attempt (snd (read_card W timeout s)) = n_attempt s
  /\ self_hw (snd (read_card W timeout s)) = self_hw s
  /\ self_pn532 (snd (read_card W timeout s)) = self_pn532 s
  /\ exists tr,
       trace (snd (read_card W timeout s)) = trace s ++ tr
       /\ forallb is_read_event tr = true
       /\ signals tr = []
       /\ remote_calls tr = 0%nat
       /\ restful tr.
Proof.
  destruct (read_card W timeout s) as [r s'] eqn:Hrun.
  pose proof (read_card_spec _ _ _ _ _ Hrun)
    as (F1 & F2 & F3 & F4 & (tr & Htr & Hreads) & _ & _ & Hnr).
  simpl. repeat split; auto. exists tr. repeat split; auto.
  - now apply signals_reads.
  - now apply remote_calls_reads.
  - now apply restful_reads.
Qed.

(** X5.  With a timeout of zero or less [read_card] returns [None] at once and polls
    nothing. *)
Theorem read_card_without_window W timeout s :
  timeout <= 0 -> read_card W timeout s = (Done None, s).
Proof.
  intros H. unfold read_card, bind, time_time. rewrite read_card_loop_S.
  replace (now s - now s <? timeout) with false by (symmetry; apply Z.ltb_ge; lia).
  reflexivity.
Qed.

(** X5 at a concrete input. *)
Lemma read_card_without_window_witness :
  read_card granting_server 0 ready = (Done None, ready).
Proof. apply read_card_without_window. lia. Defined.

Lemma read_card_loop_card W start timeout : forall fuel s card s',
  read_card_loop W fuel start timeout s = (Done (Some card), s') ->
  exists i d u,
    (n_poll s <= i < n_poll s')%nat
    /\ poll W i = PollUid d u
    /\ card = bytes_hex u.
Proof.
  induction fuel as [| fuel IH]; intros s card s' Hrun; [discriminate |].
  rewrite read_card_loop_S in Hrun.
  destruct (now s - start <? timeout); [| discriminate].
  unfold bind in Hrun. destruct (self_pn532 s) eqn:Hpn.
  - rewrite (poll_once_run W s Hpn) in Hrun.
    destruct (poll W (n_poll s)) as [d | d u | d e] eqn:Hp.
    + apply IH in Hrun. destruct Hrun as (i & d' & u & Hi & Hu & Hc).
      exists i, d', u. simpl in Hi. repeat split; auto; lia.
    + inversion Hrun; subst. exists (n_poll s), d, u. simpl. repeat split; auto; lia.
    + destruct (is_Exception e); [| discriminate].
      apply IH in Hrun. destruct Hrun as (i & d' & u & Hi & Hu & Hc).
      exists i, d', u. simpl in Hi. repeat split; auto; lia.
  - rewrite (poll_once_no_handle W s Hpn) in Hrun.
    apply IH in Hrun. destruct Hrun as (i & d' & u & Hi & Hu & Hc).
    exists i, d', u. simpl in Hi. repeat split; auto; lia.
Qed.

(** X3.  A card identifier that [read_card] returns is the hexadecimal form of a UID
    that a poll of this very call produced. *)
Theorem read_card_returns_a_polled_uid W timeout s card s' :
  read_card W timeout s = (Done (Some card), s') ->
  exists i d u,
    (n_poll s <= i < n_poll s')%nat
    /\ poll W i = PollUid d u
    /\ card = bytes_hex u
    /\ String.length card = (2 * List.length u)%nat
    /\ string_forall is_hex_digit card = true.
Proof.
  intros Hrun. unfold read_card, bind, time_time in Hrun.
  apply read_card_loop_card in Hrun. destruct Hrun as (i & d & u & Hi & Hu & ->).
  exists i, d, u. destruct (hex_card_id_shape_aux u) as [Hl Hc]. repeat split; auto; lia.
Qed.

(** X3 at a concrete input. *)
Lemma read_card_returns_a_polled_uid_witness :
  exists i d u,
    (n_poll ready <= i < n_poll (snd (read_card hiccup_reader 1000 ready)))%nat
    /\ poll hiccup_reader i = PollUid d u
    /\ "04a3b2c1" = bytes_hex u
    /\ String.length "04a3b2c1" = (2 * List.length u)%nat
    /\ string_forall is_hex_digit "04a3b2c1" = true.
Proof.
  apply (read_card_returns_a_polled_uid hiccup_reader 1000 ready).
  vm_compute. reflexivity.
Defined.

Lemma PN532Handler_first_try W p mode rc v s :
  0 < rc ->
  bring_up W (n_attempt s) = AttemptOk v ->
  PN532Handler W p mode rc s
  = (Done (mkHandler mode rc),
     advance 1000 (attempt_events (AttemptOk v) 0) (after_attempt true (constructed p s))).
Proof.
  intros Hrc Hok. rewrite constructor_state. unfold _initialize_pn532.
  destruct (Z.to_nat rc) as [| k] eqn:Hk; [lia |].
  cbn [init_attempts].
  rewrite (bind_done (attempt_succeeds W 0 rc (constructed p s) v Hok)).
  reflexivity.
Qed.


Lemma reader_main_started W cycles v :
  bring_up W 0 = AttemptOk v ->
  RfidModule.main W cycles boot
  = try_except
      (RfidModule.check_card_access W (mkHandler READER_MODE 3) cycles)
      [(is_Exception, fun e => print (LogProgramError (str e)))]
      (started RfidModuleHw.default_pins v).
Proof.
  intros Hok. unfold RfidModule.main, try_except.
  rewrite (bind_done (PN532Handler_first_try W RfidModuleHw.default_pins
                        RfidModule.DEVICE_MODE 3 v boot ltac:(lia) Hok)).
  reflexivity.
Qed.

Lemma enroller_main_started W cycles v :
  bring_up W 0 = AttemptOk v ->
  RfidModuleEnroll.main W cycles boot
  = try_except
      (RfidModuleEnroll.start_enrollment_server W (mkHandler ENROLLER_MODE 3) 5000 cycles)
      [(is_Exception, fun e => print (LogProgramError (str e)))]
      (started RfidModuleEnrollHw.default_pins v).
Proof.
  intros Hok. unfold RfidModuleEnroll.main, try_except.
  rewrite (bind_done (PN532Handler_first_try W RfidModuleEnrollHw.default_pins
                        RfidModuleEnroll.DEVICE_MODE 3 v boot ltac:(lia) Hok)).
  reflexivity.
Qed.



Lemma no_server_in_verify_turn d p tr :
  verify_turn p tr -> existsb (starts_server d) tr = false.
Proof.
  intros [reads Hr | reads card v Hr].
  - now apply no_server_in_reads.
  - rewrite existsb_app, (no_server_in_reads d _ Hr). destruct v; reflexivity.
Qed.

Lemma no_server_in_enroll_turn d p tr :
  enroll_turn p tr -> existsb (starts_server d) tr = false.
Proof.
  intros [reads Hr | reads Hr | reads card status Hr | reads card Hr];
    rewrite ?existsb_app, (no_server_in_reads d _ Hr); reflexivity.
Qed.

(** When a daemon server thread was started the process exits once the main
    block is over, and the destructor of the handler does not run. *)
Lemma process_with_daemon_server main s r s' :
  main s = (r, s') ->
  r <> Running ->
  existsb (starts_server false) (trace s') = false ->
  existsb (starts_server true) (trace s') = true ->
  process main s = (Some (exit_status r), s').
Proof.
  intros Hmain Hr Hno Hyes. unfold process. rewrite Hmain, Hno, Hyes.
  destruct r; [reflexivity | reflexivity | now elim Hr].
Qed.

(** X24.  After a bring-up that works at once, the operator's interrupt
    during the read of any turn ends either script with status 0 and the
    outputs released last: by the destructor in [rfid_module.py]; by the
    [finally] clause in [rfid_module_enroll.py], where the destructor does
    not run because the server thread still holds the handler. *)
Theorem interrupt_exits_after_release W k v sk s1 e :
  bring_up W 0 = AttemptOk v ->
  (RfidModule.check_card_access W (mkHandler READER_MODE 3) k
     (started RfidModuleHw.default_pins v) = (Running, sk) ->
   read_card W 1000 sk = (Raised e, s1) ->
   forall m,
     process (RfidModule.main W (S k + m)) boot
     = (Some 0, advance 0 [Print LogVerifyStopped; GpioCleanup] s1))
  /\ (RfidModuleEnroll.start_enrollment_server W (mkHandler ENROLLER_MODE 3) 5000 k
        (started RfidModuleEnrollHw.default_pins v) = (Running, sk) ->
      read_card W 10000 sk = (Raised e, s1) ->
      forall m,
        process (RfidModuleEnroll.main W (S k + m)) boot
        = (Some 0, advance 0 [Print LogProgramStopped; GpioCleanup] s1)).
Proof.
  intros Hok. split; intros Hk Hread m;
    pose proof (read_card_spec _ _ _ _ _ Hread)
      as (_ & F2 & _ & _ & (reads & Htr & Hreads) & _).
  - pose proof (check_card_access_interrupted W (mkHandler READER_MODE 3)
                  RfidModuleHw.default_pins k (started RfidModuleHw.default_pins v)
                  sk s1 e m eq_refl eq_refl Hk Hread) as Hrun.
    destruct (check_card_access_keeps W RfidModuleHw.default_pins
                (fun tr => forall d, existsb (starts_server d) tr = false)
                (fun d => eq_refl)
                (fun a b Ha Hb d =>
                   eq_trans (existsb_app _ a b)
                     (f_equal2 orb (Ha d) (Hb d)))
                (mkHandler READER_MODE 3) k (started RfidModuleHw.default_pins v)
                (fun tr Ht d => no_server_in_verify_turn d _ tr Ht)
                (fun msg d => eq_refl) eq_refl) as (tr & Htrk & Hno).
    rewrite Hk in Htrk. simpl snd in Htrk.
    assert (self_hw sk = Some RfidModuleHw.default_pins) as Hhwk.
    { apply (check_card_access_looping W (mkHandler READER_MODE 3) k _ sk eq_refl)
        in Hk.
      pose proof (verify_loop_ord W RfidModuleHw.default_pins k
                    (advance 0 [Print LogVerifyStart]
                       (started RfidModuleHw.default_pins v)) eq_refl) as (H & _).
      now rewrite Hk in H. }
    rewrite Hhwk in F2.
    assert (RfidModule.main W (S k + m) boot
            = (Done tt, advance 0 [Print LogVerifyStopped] s1)) as Hmain.
    { rewrite (reader_main_started W (S k + m) v Hok).
      now rewrite (try_except_done Hrun). }
    rewrite (process_without_server _ _ _ _ Hmain); [| discriminate |].
    + unfold __del__. simpl self_hw. rewrite F2.
      unfold hw_cleanup, Gpio.cleanup. rewrite emit_run. simpl snd.
      now rewrite advance_advance.
    + intros d. simpl trace. rewrite Htr, Htrk.
      rewrite !existsb_app, (Hno d), (no_server_in_reads d _ Hreads).
      reflexivity.
  - pose proof (start_enrollment_server_interrupted W (mkHandler ENROLLER_MODE 3)
                  RfidModuleEnrollHw.default_pins 5000 k
                  (started RfidModuleEnrollHw.default_pins v) sk s1 e m
                  eq_refl eq_refl Hk Hread) as Hrun.
    apply (start_enrollment_server_looping W (mkHandler ENROLLER_MODE 3) 5000 k _ sk
             eq_refl) in Hk.
    destruct (enroll_loop_keeps W RfidModuleEnrollHw.default_pins
                (fun tr => forall d, existsb (starts_server d) tr = false)
                (fun d => eq_refl)
                (fun a b Ha Hb d =>
                   eq_trans (existsb_app _ a b)
                     (f_equal2 orb (Ha d) (Hb d)))
                (fun tr Ht d => no_server_in_enroll_turn d _ tr Ht)
                k (advance 0 [Print LogEnrollStart; FlaskStart 5000 true]
                     (started RfidModuleEnrollHw.default_pins v)) eq_refl)
      as (Hhwk & tr & Htrk & Hno).
    rewrite Hk in Hhwk, Htrk. simpl snd in Hhwk, Htrk.
    assert (RfidModuleEnroll.main W (S k + m) boot
            = (Done tt, advance 0 [Print LogProgramStopped; GpioCleanup] s1)) as Hmain.
    { rewrite (enroller_main_started W (S k + m) v Hok).
      now rewrite (try_except_done Hrun). }
    rewrite (process_with_daemon_server _ _ _ _ Hmain); [reflexivity | discriminate | |];
      simpl trace; rewrite Htr, Htrk;
      rewrite !existsb_app, (Hno _), (no_server_in_reads _ _ Hreads); reflexivity.
Qed.

(** X24 at an interrupt in the first poll. *)
Lemma interrupt_exits_after_release_witness :
  process (RfidModule.main interrupted_reader 3) boot
  = (Some 0,
     advance 0 [Print LogVerifyStopped; GpioCleanup]
       (snd (read_card interrupted_reader 1000
               (advance 0 [Print LogVerifyStart]
                  (started RfidModuleHw.default_pins 1)))))
  /\ process (RfidModuleEnroll.main interrupted_reader 3) boot
     = (Some 0,
        advance 0 [Print LogProgramStopped; GpioCleanup]
          (snd (read_card interrupted_reader 10000
                  (advance 0 [Print LogEnrollStart; FlaskStart 5000 true]
                     (started RfidModuleEnrollHw.default_pins 1))))).
Proof.
  split.
  - exact (proj1 (interrupt_exits_after_release interrupted_reader 0 1
                    (advance 0 [Print LogVerifyStart]
                       (started RfidModuleHw.default_pins 1))
                    (snd (read_card interrupted_reader 1000
                            (advance 0 [Print LogVerifyStart]
                               (started RfidModuleHw.default_pins 1))))
                    (mkExn KeyboardInterrupt "") eq_refl)
             ltac:(vm_compute; reflexivity) ltac:(vm_compute; reflexivity) 2%nat).
  - exact (proj2 (interrupt_exits_after_release interrupted_reader 0 1
                    (advance 0 [Print LogEnrollStart; FlaskStart 5000 true]
                       (started RfidModuleEnrollHw.default_pins 1))
                    (snd (read_card interrupted_reader 10000
                            (advance 0 [Print LogEnrollStart; FlaskStart 5000 true]
                               (started RfidModuleEnrollHw.default_pins 1))))
                    (mkExn KeyboardInterrupt "") eq_refl)
             ltac:(vm_compute; reflexivity) ltac:(vm_compute; reflexivity) 2%nat).
Defined.

(** X25.  When the three bring-up attempts of the main block of
    [rfid_module_enroll.py] fail, the error is caught and printed, the
    destructor releases the outputs and the process exits with status 0. *)
Theorem enroll_script_init_failure_exit W cycles :
  (forall i, (i < 3)%nat -> attempt_fails (bring_up W i)) ->
  exists s',
    process (RfidModuleEnroll.main W cycles) boot = (Some 0, s')
    /\ trace s' = setup_events RfidModuleEnrollHw.default_pins
                  ++ separated W 0 0 3
                  ++ [Print (LogProgramError (str init_error)); GpioCleanup].
Proof.
  intros Hfail.
  destruct (PN532Handler_exhausted W RfidModuleEnrollHw.default_pins
              RfidModuleEnroll.DEVICE_MODE 3 boot ltac:(lia) Hfail)
    as (s1 & tr & Hctor & Htr & -> & _ & _ & Hhw).
  assert (RfidModuleEnroll.main W cycles boot
          = (Done tt, advance 0 [Print (LogProgramError (str init_error))] s1))
    as Hmain.
  { unfold RfidModuleEnroll.main.
    rewrite (try_except_raised (bind_raised Hctor _)). simpl dispatch.
    unfold print. now rewrite emit_run. }
  rewrite (process_without_server _ _ _ _ Hmain); [| discriminate |].
  - unfold __del__. simpl self_hw. rewrite Hhw.
    eexists. split; [reflexivity |].
    unfold hw_cleanup, Gpio.cleanup. rewrite emit_run. simpl trace.
    rewrite Htr. simpl. rewrite <- !app_assoc. reflexivity.
  - intros d. simpl trace. rewrite Htr.
    now rewrite !existsb_app, no_server_in_separated.
Qed.

(** X25 at a concrete input. *)
Lemma enroll_script_init_failure_exit_witness :
  exists s',
    process (RfidModuleEnroll.main dead_reader 1) boot = (Some 0, s')
    /\ trace s' = setup_events RfidModuleEnrollHw.default_pins
                  ++ separated dead_reader 0 0 3
                  ++ [Print (LogProgramError (str init_error)); GpioCleanup].
Proof.
  apply (enroll_script_init_failure_exit dead_reader 1).
  intros i _. reflexivity.
Defined.

(** X13.  A card read by the verification loop leads to exactly one remote call, the
    GET of its entry with the request timeout, and to at most one signal. *)
Theorem card_event_makes_one_request W s card s1 p :
  read_card W 1000 s = (Done (Some card), s1) ->
  self_hw s = Some p ->
  exists tr,
    trace (snd (RfidModule.verify_cycle W s)) = trace s ++ tr
    /\ remote_calls tr = 1%nat
    /\ In (HttpGet (RfidModule.API_BASE_URL ++ "/api/entry/" ++ card) REQUEST_TIMEOUT) tr
    /\ (List.length (signals tr) <= 1)%nat
    /\ n_http (snd (RfidModule.verify_cycle W s)) = S (n_http s).
Proof.
  intros Hread Hhw.
  pose proof (read_card_spec _ _ _ _ _ Hread)
    as (F1 & F2 & _ & _ & (reads & Htr & Hreads) & _).
  rewrite Hhw in F2.
  rewrite (verify_cycle_card W s card s1 p Hread F2). cbn [snd].
  eexists. split; [| split; [| split; [| split]]].
  - simpl trace. rewrite Htr, <- app_assoc. reflexivity.
  - rewrite remote_calls_app, (remote_calls_reads _ Hreads).
    destruct (judge (http W (n_http s1))); reflexivity.
  - apply in_or_app. right. left. reflexivity.
  - rewrite signals_app, (signals_reads _ Hreads).
    destruct (judge (http W (n_http s1))); simpl; lia.
  - simpl. now rewrite F1.
Qed.

(** X13 at a concrete input. *)
Lemma card_event_makes_one_request_witness :
  exists tr,
    trace (snd (RfidModule.verify_cycle garbled_server ready)) = trace ready ++ tr
    /\ remote_calls tr = 1%nat
    /\ In (HttpGet (RfidModule.API_BASE_URL ++ "/api/entry/" ++ "04a3b2c1")
             REQUEST_TIMEOUT) tr
    /\ (List.length (signals tr) <= 1)%nat
    /\ n_http (snd (RfidModule.verify_cycle garbled_server ready)) = S (n_http ready).
Proof.
  apply (card_event_makes_one_request garbled_server ready "04a3b2c1"
           (snd (read_card garbled_server 1000 ready)) RfidModuleHw.default_pins).
  - vm_compute. reflexivity.
  - reflexivity.
Defined.

(** X14.  For a 200 response with a JSON object, the signal follows the truthiness of
    its [allowed] member: Success when it is truthy, whatever its type, Failure
    when it is falsy or missing. *)
Theorem access_follows_truthiness W s card s1 p kv :
  read_card W 1000 s = (Done (Some card), s1) ->
  self_hw s = Some p ->
  http W (n_http s) = HttpResponse 200 (BodyJson (JObj kv)) ->
  exists s2 tr,
    RfidModule.verify_cycle W s = (Done tt, s2)
    /\ trace s2 = trace s ++ tr
    /\ signals tr
       = [match dict_get "allowed" kv with
          | Some v => if truthy v then Success else Failure
          | None => Failure
          end].
Proof.
  intros Hread Hhw Hh.
  pose proof (read_card_spec _ _ _ _ _ Hread)
    as (F1 & F2 & _ & _ & (reads & Htr & Hreads) & _).
  rewrite Hhw in F2. rewrite <- F1 in Hh.
  pose proof (verify_cycle_card W s card s1 p Hread F2) as Hrun.
  rewrite Hh in Hrun. cbn [judge Z.eqb Pos.eqb] in Hrun.
  destruct (dict_get "allowed" kv) as [v |]; [destruct (truthy v) |];
    cbn [verdict_result verdict_time verdict_events] in Hrun;
    (eexists; eexists; split; [exact Hrun | split];
     [simpl trace; rewrite Htr, <- app_assoc; reflexivity
     | rewrite signals_app, (signals_reads _ Hreads); reflexivity]).
Qed.

(** X14 at a concrete input. *)
Lemma access_follows_truthiness_witness :
  exists s2 tr,
    RfidModule.verify_cycle stringly_server ready = (Done tt, s2)
    /\ trace s2 = trace ready ++ tr
    /\ signals tr = [Success].
Proof.
  apply (access_follows_truthiness stringly_server ready "04a3b2c1"
           (snd (read_card stringly_server 1000 ready)) RfidModuleHw.default_pins
           [("allowed", JStr "false")]).
  - vm_compute. reflexivity.
  - reflexivity.
  - reflexivity.
Defined.
